(** * The chat-driven project generator: server endpoints and client orchestrator

    A shallow embedding of the Express routes ([/api/ask], [/api/files/create],
    [/api/files/list]) and of the React [ChatInterface] orchestrator
    ([createCancelToken], [generateFileName], [simulateTyping],
    [handleFileGeneration], [handleAIResponse], [handleSubmit], [handleCancel]).

    JavaScript strings are modelled as [string], one character per code unit.
    [toLowerCase] and [trim] are the functions of JavaScript on the code units
    below 128 ([isAscii]): they map [A-Z] to [a-z] and strip the characters 9
    to 13 and 32, and leave every other character alone, whereas JavaScript
    also folds letters and strips white space outside that range.  A statement
    that relies on them for an arbitrary text says that the text is ASCII.
    Dynamically typed request
    fields are values of [jsval].  Handlers run in a state-and-exception monad:
    a thrown exception keeps the side effects made before it, as in JavaScript. *)

From Stdlib Require Import List String Ascii ZArith Lia Bool Arith Sorted Permutation.
From Stdlib Require Import DecimalString.
Import ListNotations.
Open Scope string_scope.

Set Implicit Arguments.

(* ===================================================================== *)
(** ** JavaScript values, strings and completions *)
(* ===================================================================== *)

Module Js.

(** A request field or call argument as JavaScript sees it. *)
Inductive jsval : Type :=
| JUndefined
| JNull
| JBool (b : bool)
| JNum (n : Z)
| JStr (s : string)
| JObject.

(** [!v] is [negb (truthy v)]. *)
Definition truthy (v : jsval) : bool :=
  match v with
  | JUndefined | JNull => false
  | JBool b => b
  | JNum n => negb (n =? 0)%Z
  | JStr s => negb (s =? "")
  | JObject => true
  end.

(** [v === 'lit'] for a string literal. *)
Definition strictEqStr (v : jsval) (lit : string) : bool :=
  match v with
  | JStr s => s =? lit
  | _ => false
  end.

Definition isUndefined (v : jsval) : bool :=
  match v with JUndefined => true | _ => false end.

Inductive JsError : Type :=
| TypeError (what : string)
| ReferenceError (name : string)
| SystemError (what : string)
| Error (message : string).

(** Outcome of evaluating a statement list: a value or a thrown exception. *)
Inductive Completion (A : Type) : Type :=
| Normal (a : A)
| Abrupt (e : JsError).
Arguments Abrupt {A} e.

Definition newline : ascii := ascii_of_nat 10.
Definition backtick : ascii := ascii_of_nat 96.
Definition nl : string := String newline "".
Definition fence : string := String backtick (String backtick (String backtick "")).

(** Texts made of code units below 128. *)
Definition isAsciiChar (c : ascii) : bool := (nat_of_ascii c <? 128)%nat.

Fixpoint isAscii (s : string) : bool :=
  match s with
  | "" => true
  | String c s' => isAsciiChar c && isAscii s'
  end.

Definition lowerChar (c : ascii) : ascii :=
  let n := nat_of_ascii c in
  if ((65 <=? n) && (n <=? 90))%nat then ascii_of_nat (n + 32) else c.

Fixpoint toLowerCase (s : string) : string :=
  match s with
  | "" => ""
  | String c s' => String (lowerChar c) (toLowerCase s')
  end.

Definition startsWith (s p : string) : bool := String.prefix p s.

Fixpoint includes (s sub : string) : bool :=
  if String.prefix sub s then true
  else match s with
       | "" => false
       | String _ s' => includes s' sub
       end.

Definition endsWith (s p : string) : bool :=
  let ls := String.length s in
  let lp := String.length p in
  (lp <=? ls)%nat && (String.substring (ls - lp) lp s =? p).

(** [s.split(sep)] for a one-character separator. *)
Fixpoint split (sep : ascii) (s : string) : list string :=
  match s with
  | "" => [""]
  | String c s' =>
      if Ascii.eqb c sep then "" :: split sep s'
      else match split sep s' with
           | h :: t => String c h :: t
           | [] => [String c ""]
           end
  end.

(** The class [\w]. *)
Definition isWordChar (c : ascii) : bool :=
  let n := nat_of_ascii c in
  (((48 <=? n) && (n <=? 57)) || ((65 <=? n) && (n <=? 90))
   || ((97 <=? n) && (n <=? 122)) || (n =? 95))%nat.

Definition isSpace (c : ascii) : bool :=
  let n := nat_of_ascii c in
  (((9 <=? n) && (n <=? 13)) || (n =? 32))%nat.

Fixpoint trimStart (s : string) : string :=
  match s with
  | "" => ""
  | String c s' => if isSpace c then trimStart s' else s
  end.

Fixpoint trimEnd (s : string) : string :=
  match s with
  | "" => ""
  | String c s' =>
      match trimEnd s' with
      | "" => if isSpace c then "" else String c ""
      | t => String c t
      end
  end.

Definition trim (s : string) : string := trimEnd (trimStart s).

(** Decimal rendering of a number inside a template literal. *)
Definition showNat (n : nat) : string :=
  NilEmpty.string_of_uint (Nat.to_uint n).

Definition digitOf (c : ascii) : option Z :=
  let n := Z.of_nat (nat_of_ascii c) in
  if ((48 <=? n) && (n <=? 57))%Z then Some (n - 48)%Z else None.

Fixpoint numeral (s : string) (acc : Z) : option Z :=
  match s with
  | "" => Some acc
  | String c s' =>
      match digitOf c with
      | Some d => numeral s' (10 * acc + d)%Z
      | None => None
      end
  end.

(** A property key that is an array index: the canonical decimal numeral of
    an integer from 0 to 2^32 - 2. *)
Definition arrayIndex (k : string) : option Z :=
  match k with
  | "" => None
  | String c rest =>
      if Ascii.eqb c "0"%char && negb (rest =? "") then None
      else match numeral k 0 with
           | Some n => if (n <? 4294967295)%Z then Some n else None
           | None => None
           end
  end.

(** JavaScript objects used as ordered maps: insertion order is kept,
    assigning an existing key overwrites in place. *)
Section Obj.
Variable V : Type.
Definition obj : Type := list (string * V).

Fixpoint get (k : string) (o : obj) : option V :=
    match o with
    | [] => None
    | (k', v) :: o' => if k' =? k then Some v else get k o'
    end.

Fixpoint set (k : string) (v : V) (o : obj) : obj :=
    match o with
    | [] => [(k, v)]
    | (k', v') :: o' => if k' =? k then (k, v) :: o' else (k', v') :: set k v o'
    end.

Definition keys (o : obj) : list string := map fst o.

(** [o[k] = v] on an object created by [{}], for a value [v] that is itself
    an object.  The key [__proto__] names the accessor inherited from
    [Object.prototype]: the assignment replaces the prototype of [o] and
    creates no property. *)
Definition assign (k : string) (v : V) (o : obj) : obj :=
  if k =? "__proto__" then o else set k v o.

(** The own properties in the order in which [Object.keys] and
    [JSON.stringify] visit them: the array indices in ascending order, then
    the other keys in the order of their creation. *)
Fixpoint insertIndexed (n : Z) (p : string * V) (l : list (Z * (string * V)))
  : list (Z * (string * V)) :=
    match l with
    | [] => [(n, p)]
    | (m, q) :: l' => if (n <? m)%Z then (n, p) :: l else (m, q) :: insertIndexed n p l'
    end.

Fixpoint indexed (o : obj) : list (Z * (string * V)) :=
    match o with
    | [] => []
    | (k, v) :: o' =>
        match arrayIndex k with
        | Some n => insertIndexed n (k, v) (indexed o')
        | None => indexed o'
        end
    end.

Definition named (o : obj) : obj :=
  filter (fun p => match arrayIndex (fst p) with Some _ => false | None => true end) o.

Definition ownProperties (o : obj) : obj := (map snd (indexed o) ++ named o)%list.
End Obj.

End Js.
Import Js.

(* ===================================================================== *)
(** ** A state monad with exceptions *)
(* ===================================================================== *)

Definition M (S A : Type) : Type := S -> Completion A * S.

Definition ret {S A} (a : A) : M S A := fun s => (Normal a, s).

Definition bind {S A B} (m : M S A) (k : A -> M S B) : M S B :=
  fun s =>
    match m s with
    | (Normal a, s') => k a s'
    | (Abrupt e, s') => (Abrupt e, s')
    end.

Definition throw {S A} (e : JsError) : M S A := fun s => (Abrupt e, s).

(** [try { m } catch (error) { h error }]. *)
Definition tryCatch {S A} (m : M S A) (h : JsError -> M S A) : M S A :=
  fun s =>
    match m s with
    | (Normal a, s') => (Normal a, s')
    | (Abrupt e, s') => h e s'
    end.

(** [try { m } finally { f }], for a finalizer that does not throw. *)
Definition tryFinally {S A} (m : M S A) (f : M S unit) : M S A :=
  fun s =>
    match m s with
    | (r, s') => (r, snd (f s'))
    end.

Definition gets {S A} (f : S -> A) : M S A := fun s => (Normal (f s), s).
Definition modify {S} (f : S -> S) : M S unit := fun s => (Normal tt, f s).

Declare Scope js_scope.
Delimit Scope js_scope with js.
Notation "x <- m ;; k" := (bind m (fun x => k))
  (at level 100, m at next level, right associativity) : js_scope.
Notation "m ;;; k" := (bind m (fun _ => k))
  (at level 100, right associativity) : js_scope.
Open Scope js_scope.

(** [for (const x of l) body x], stopping at the first exception. *)
Fixpoint forEach {S A} (l : list A) (body : A -> M S unit) : M S unit :=
  match l with
  | [] => ret tt
  | x :: l' => body x ;;; forEach l' body
  end.

(* ===================================================================== *)
(** ** Client: file names for generated code blocks *)
(* ===================================================================== *)

(** The [default:] arm of the switch in [generateFileName]: sniff the content. *)
Definition detectFromContent (content : string) : string * string :=
  if includes content "<!DOCTYPE html>" || includes content "<html" then ("index", "html")
  else if includes content "body {" || includes content "@media" then ("styles", "css")
  else if includes content "function" || includes content "const " || includes content "let "
       then ("script", "js")
  else ("file", "txt").

(** The pair [(baseName, extension)] chosen by the switch on
    [language.toLowerCase()]. *)
Definition baseAndExtension (content language : string) : string * string :=
  let l := toLowerCase language in
  if l =? "html" then ("index", "html")
  else if l =? "css" then ("styles", "css")
  else if (l =? "javascript") || (l =? "js") then ("script", "js")
  else if (l =? "typescript") || (l =? "ts") then ("app", "ts")
  else if (l =? "python") || (l =? "py") then ("main", "py")
  else if l =? "json" then ("package", "json")
  else detectFromContent content.

Definition generateFileName (content language : string) (index : nat) : string :=
  let '(baseName, extension) := baseAndExtension content language in
  match index with
  | 0 => baseName ++ "." ++ extension
  | _ => baseName ++ showNat (index + 1) ++ "." ++ extension
  end.

(** A call [generateFileName(a0, a1, a2)] as JavaScript evaluates it: the
    parameters are bound positionally, and [language.toLowerCase()] throws a
    [TypeError] unless the second argument is a string. *)
Definition call_generateFileName (content : string) (language index : jsval)
  : Completion string :=
  match language with
  | JStr l =>
      match index with
      | JNum i => Normal (generateFileName content l (Z.to_nat i))
      | _ =>
          let '(baseName, extension) := baseAndExtension content l in
          Normal (baseName ++ "NaN." ++ extension)
      end
  | _ => Abrupt (TypeError "language.toLowerCase is not a function")
  end.

(* ===================================================================== *)
(** ** Client: typing simulation *)
(* ===================================================================== *)

Module LiveCodingState.
Record t : Type := mk {
  fileName : string;
  content : string;
  isActive : bool;
  language : string;
  progress : Z;
  complexity : string;
  patterns : list string
}.
End LiveCodingState.
Abbreviation LiveCodingState := LiveCodingState.t.

(** [Math.round((i / total) * 100)], as the nearest integer to the exact
    quotient with halves rounded up.  The double-precision evaluation gives
    the same integer whenever [200 * i] is not an odd multiple of [total]. *)
Definition roundPercent (i total : nat) : Z :=
  (200 * Z.of_nat i + Z.of_nat total) / (2 * Z.of_nat total).

(** The body of the [for] loop of [simulateTyping]: the pair
    [(currentContent, progress)] passed to [setLiveCoding] at each line. *)
Fixpoint typingLoop (total i : nat) (currentContent : string) (lines : list string)
  : list (string * Z) :=
  match lines with
  | [] => []
  | line :: rest =>
      let currentContent' := currentContent ++ line ++ nl in
      (currentContent', roundPercent i total)
        :: typingLoop total (S i) currentContent' rest
  end.

Definition typingFrames (code : string) : list (string * Z) :=
  let lines := split newline code in
  typingLoop (List.length lines) 0 "" lines.

Definition complexityOf (lines : list string) : string :=
  if (50 <? List.length lines)%nat then "complex"
  else if (25 <? List.length lines)%nat then "medium"
  else "simple".

(** Every progress value [simulateTyping] assigns, in order: one per line, then
    the closing [progress: 100]. *)
Definition progressReports (code : string) : list Z :=
  map snd (typingFrames code) ++ [100%Z].

(* ===================================================================== *)
(** ** Client: code blocks of a response text *)
(* ===================================================================== *)

Fixpoint dropChars (n : nat) (s : string) : string :=
  match n, s with
  | S n', String _ s' => dropChars n' s'
  | _, _ => s
  end.

(** Earliest occurrence of the fence: the text before it and the text after it. *)
Fixpoint findFence (s : string) : option (string * string) :=
  if String.prefix fence s then Some ("", dropChars 3 s)
  else match s with
       | "" => None
       | String c s' =>
           match findFence s' with
           | Some (before, after) => Some (String c before, after)
           | None => None
           end
       end.

(** One attempt of the pattern [```[\w+]?\n([\s\S]*?)```] at the start of
    [s]: the matched text and what follows it.  The optional class consumes one
    character when it can; giving it back never helps, because a character of
    the class is not a newline. *)
Definition blockAt (s : string) : option (string * string) :=
  if String.prefix fence s then
    let closeWith (header body : string) :=
      match findFence body with
      | Some (inner, rest) => Some (header ++ inner ++ fence, rest)
      | None => None
      end in
    match dropChars 3 s with
    | String c r =>
        if Ascii.eqb c newline then closeWith (fence ++ nl) r
        else if isWordChar c || Ascii.eqb c "+"%char then
          match r with
          | String d body =>
              if Ascii.eqb d newline then closeWith (fence ++ String c nl) body else None
          | "" => None
          end
        else None
    | "" => None
    end
  else None.

Fixpoint matchBlocksFrom (fuel : nat) (s : string) : list string :=
  match fuel with
  | 0 => []
  | S fuel' =>
      match blockAt s with
      | Some (block, rest) => block :: matchBlocksFrom fuel' rest
      | None =>
          match s with
          | "" => []
          | String _ s' => matchBlocksFrom fuel' s'
          end
      end
  end.

(** [text.match(/```[\w+]?\n([\s\S]*?)```/g) || []]: every step consumes at
    least one character, so [length text + 1] steps reach the end. *)
Definition matchCodeBlocks (text : string) : list string :=
  matchBlocksFrom (S (String.length text)) text.

Fixpoint takeWord (s : string) : string :=
  match s with
  | String c s' => if isWordChar c then String c (takeWord s') else ""
  | "" => ""
  end.

Fixpoint dropWord (s : string) : string :=
  match s with
  | String c s' => if isWordChar c then dropWord s' else s
  | "" => ""
  end.

(** [block.match(/```(\w+)/)]: the first capture, when there is a match. *)
Fixpoint languageMatch (block : string) : option string :=
  let here :=
    if String.prefix fence block then
      match takeWord (dropChars 3 block) with
      | "" => None
      | w => Some w
      end
    else None in
  match here with
  | Some w => Some w
  | None =>
      match block with
      | "" => None
      | String _ rest => languageMatch rest
      end
  end.

(** [block.replace(/```\w*\n/, '')]. *)
Fixpoint removeOpeningFence (block : string) : string :=
  let here :=
    if String.prefix fence block then
      match dropWord (dropChars 3 block) with
      | String c rest => if Ascii.eqb c newline then Some rest else None
      | "" => None
      end
    else None in
  match here with
  | Some rest => rest
  | None =>
      match block with
      | "" => ""
      | String c rest => String c (removeOpeningFence rest)
      end
  end.

(** [text.replace(/```$/, '')]. *)
Definition removeClosingFence (text : string) : string :=
  if endsWith text fence
  then String.substring 0 (String.length text - 3) text
  else text.

Definition languageOfBlock (block : string) : string :=
  match languageMatch block with
  | Some l => l
  | None => "text"
  end.

Definition codeOfBlock (block : string) : string :=
  removeClosingFence (removeOpeningFence block).

(* ===================================================================== *)
(** ** Client: component state *)
(* ===================================================================== *)

Inductive Sender : Type := user | ai.

Inductive MessageType : Type := system | code | normal | response.

Record Metadata : Type := mkMetadata {
  filesGenerated : list string;
  technologies : list string;
  estimatedLines : nat
}.

Module ChatMessage.
Record t : Type := mk {
  id : string;
  sender : Sender;
  content : string;
  timestamp : nat;
  type : MessageType;
  metadata : option Metadata
}.
End ChatMessage.
Abbreviation ChatMessage := ChatMessage.t.

(** Effects the component shows to its environment, in order: calls of the
    [onConsoleLog] and [onFileGenerated] props, every value given to
    [setLiveCoding], and projects handed to [createProject]. *)
Inductive Event : Type :=
| ConsoleLog (message kind : string)
| FileGenerated (fileName code language : string)
| LiveFrame (frame : LiveCodingState)
| ProjectSaved (files : list string).

(** The [useState] cells of [ChatInterface], the heap of token objects
    ([tokens], one [cancelled] flag per object; a [CancelToken] value is the
    address of its object, so the [cancelToken] cell and the [token] argument
    of a running generation alias the same flag), the event trace, and the
    number of suspensions ([await]) passed so far. *)
Record Ui : Type := mkUi {
  messages : list ChatMessage;
  inputValue : string;
  isLoading : bool;
  currentStage : string;
  liveCoding : LiveCodingState;
  isGenerationMode : bool;
  generationComplete : bool;
  errorAlerts : list string;
  cancelToken : option nat;
  tokens : list bool;
  events : list Event;
  awaits : nat
}.

Definition set_messages (f : list ChatMessage -> list ChatMessage) (s : Ui) : Ui :=
  let '(mkUi m iv il cs lc gm gc ea ct tk ev aw) := s in
  mkUi (f m) iv il cs lc gm gc ea ct tk ev aw.
Definition set_inputValue (v : string) (s : Ui) : Ui :=
  let '(mkUi m iv il cs lc gm gc ea ct tk ev aw) := s in
  mkUi m v il cs lc gm gc ea ct tk ev aw.
Definition set_isLoading (v : bool) (s : Ui) : Ui :=
  let '(mkUi m iv il cs lc gm gc ea ct tk ev aw) := s in
  mkUi m iv v cs lc gm gc ea ct tk ev aw.
Definition set_currentStage (v : string) (s : Ui) : Ui :=
  let '(mkUi m iv il cs lc gm gc ea ct tk ev aw) := s in
  mkUi m iv il v lc gm gc ea ct tk ev aw.
Definition set_liveCoding (v : LiveCodingState) (s : Ui) : Ui :=
  let '(mkUi m iv il cs lc gm gc ea ct tk ev aw) := s in
  mkUi m iv il cs v gm gc ea ct tk ev aw.
Definition set_isGenerationMode (v : bool) (s : Ui) : Ui :=
  let '(mkUi m iv il cs lc gm gc ea ct tk ev aw) := s in
  mkUi m iv il cs lc v gc ea ct tk ev aw.
Definition set_generationComplete (v : bool) (s : Ui) : Ui :=
  let '(mkUi m iv il cs lc gm gc ea ct tk ev aw) := s in
  mkUi m iv il cs lc gm v ea ct tk ev aw.
Definition set_errorAlerts (f : list string -> list string) (s : Ui) : Ui :=
  let '(mkUi m iv il cs lc gm gc ea ct tk ev aw) := s in
  mkUi m iv il cs lc gm gc (f ea) ct tk ev aw.
Definition set_cancelToken (v : option nat) (s : Ui) : Ui :=
  let '(mkUi m iv il cs lc gm gc ea ct tk ev aw) := s in
  mkUi m iv il cs lc gm gc ea v tk ev aw.
Definition set_tokens (f : list bool -> list bool) (s : Ui) : Ui :=
  let '(mkUi m iv il cs lc gm gc ea ct tk ev aw) := s in
  mkUi m iv il cs lc gm gc ea ct (f tk) ev aw.
Definition set_events (f : list Event -> list Event) (s : Ui) : Ui :=
  let '(mkUi m iv il cs lc gm gc ea ct tk ev aw) := s in
  mkUi m iv il cs lc gm gc ea ct tk (f ev) aw.
Definition set_awaits (f : nat -> nat) (s : Ui) : Ui :=
  let '(mkUi m iv il cs lc gm gc ea ct tk ev aw) := s in
  mkUi m iv il cs lc gm gc ea ct tk ev (f aw).

(** [token.cancelled = true] on the object at address [t]. *)
Fixpoint markCancelled (t : nat) (heap : list bool) : list bool :=
  match heap, t with
  | [], _ => []
  | _ :: rest, 0 => true :: rest
  | b :: rest, S t' => b :: markCancelled t' rest
  end.

(** The [cancelled] field of the object at address [t]. *)
Definition cancelledAt (t : nat) (heap : list bool) : bool := nth t heap false.
Arguments cancelledAt : simpl never.

(** The state of a freshly mounted component. *)
Definition welcome : string :=
  "Hey! 👋 What do you want to make today?" ++ nl ++ nl
  ++ "I can help you build websites, apps, games, calculators, todo lists, and more! Just tell me your idea and I'll create the code for you."
  ++ nl ++ nl
  ++ "Everything works locally now - no external APIs needed! What would you like to build?".

Definition initialUi (mountedAt : nat) : Ui :=
  mkUi [ChatMessage.mk "1" ai welcome mountedAt system None]
       "" false ""
       (LiveCodingState.mk "" "" false "" 0%Z "" [])
       true false [] None [] [] 0.

(** What [await fetch(...)] followed by [await response.json()] delivers: the
    promise rejects, or a response arrives with its [ok] flag and, when the
    body parses, the [response] and [checkpoint] members of the parsed body. *)
Record FetchData : Type := mkData {
  data_response : jsval;
  data_checkpoint : jsval
}.

Inductive FetchOutcome : Type :=
| Rejected
| Responded (ok : bool) (data : option FetchData).

Definition codeKeywords : list string :=
  ["create"; "build"; "make"; "generate"; "develop"; "write"; "code"; "app"; "application";
   "website"; "web"; "function"; "component"; "class"; "module"; "script"; "program";
   "todo"; "calculator"; "game"; "dashboard"; "form"; "login"; "signup"; "api"; "database";
   "add"; "implement"; "design"; "setup"; "configure"].

Definition isCodeGenerationRequest (input : string) : bool :=
  let lowerInput := trim (toLowerCase input) in
  existsb (fun keyword => includes lowerInput keyword) codeKeywords.

(* ===================================================================== *)
(** ** Client: the orchestrator *)
(* ===================================================================== *)

(** The handlers wired to the interface are [handleSubmit] and [handleCancel];
    [handleSubmit] runs [handleAIResponse], which runs [handleFileGeneration].
    [generateProjectFiles] and [sendChatMessage] are called from nowhere and
    are left out.  Timer lengths and [console] output have no effect on the
    state and are not represented.

    A handler is the callback of the render that shows the current state, the
    one the form and the Cancel button hold: the constants it closes over
    ([inputValue], [isLoading], [isGenerationMode], [cancelToken]) are read
    from the state.  The auto-start path of the mount effect, which keeps the
    [handleSubmit] of the first render, is not represented. *)

(** The environment of one component instance. *)
Record Env : Type := mkEnv {
  cancelDuring : nat -> bool;
    (* the user clicks "Cancel Generation" while the k-th [await] is pending *)
  fetch : string -> string -> FetchOutcome;
    (* endpoint and prompt of a POST request *)
  localCode : string;
    (* the canned text [generateLocalCode] draws with [Math.random] *)
  createProject : option bool;
    (* the [useProjects] mutation: absent, or present and resolving / rejecting *)
  onConsoleLog_given : bool;
  onFileGenerated_given : bool;
    (* whether the optional props were passed *)
  now : nat -> nat
    (* [Date.now()] after the given number of suspensions *)
}.

Section Client.

Variable env : Env.

Definition setMessages (f : list ChatMessage -> list ChatMessage) : M Ui unit :=
  modify (set_messages f).
Definition setInputValue (v : string) : M Ui unit := modify (set_inputValue v).
Definition setIsLoading (v : bool) : M Ui unit := modify (set_isLoading v).
Definition setCurrentStage (v : string) : M Ui unit := modify (set_currentStage v).
Definition setIsGenerationMode (v : bool) : M Ui unit := modify (set_isGenerationMode v).
Definition setGenerationComplete (v : bool) : M Ui unit := modify (set_generationComplete v).
Definition setErrorAlerts (f : list string -> list string) : M Ui unit :=
  modify (set_errorAlerts f).
Definition setCancelToken (v : option nat) : M Ui unit := modify (set_cancelToken v).

Definition emit (e : Event) : M Ui unit := modify (set_events (fun ev => (ev ++ [e])%list)).

(** [setLiveCoding(prev => f prev)]. *)
Definition setLiveCoding (f : LiveCodingState -> LiveCodingState) : M Ui unit :=
  prev <- gets liveCoding ;;
  modify (set_liveCoding (f prev)) ;;;
  emit (LiveFrame (f prev)).

Definition deactivate (prev : LiveCodingState) : LiveCodingState :=
  let '(LiveCodingState.mk fn c _ l p cx pt) := prev in
  LiveCodingState.mk fn c false l p cx pt.

(** [onConsoleLog?.(message, kind)]. *)
Definition optConsoleLog (message kind : string) : M Ui unit :=
  if onConsoleLog_given env then emit (ConsoleLog message kind) else ret tt.

(** [onConsoleLog(message, kind)]: calling an absent prop throws. *)
Definition callConsoleLog (message kind : string) : M Ui unit :=
  if onConsoleLog_given env then emit (ConsoleLog message kind)
  else throw (TypeError "onConsoleLog is not a function").

(** [if (onFileGenerated) onFileGenerated(fileName, code, language)]. *)
Definition notifyFileGenerated (fileName code language : string) : M Ui unit :=
  if onFileGenerated_given env then emit (FileGenerated fileName code language) else ret tt.

Definition createCancelToken : M Ui nat :=
  heap <- gets tokens ;;
  modify (set_tokens (fun tk => (tk ++ [false])%list)) ;;;
  ret (List.length heap).

(** [token.cancel()]. *)
Definition cancel (token : nat) : M Ui unit := modify (set_tokens (markCancelled token)).

(** Reading [token.cancelled]. *)
Definition cancelled (token : nat) : M Ui bool := gets (fun s => cancelledAt token (tokens s)).

Definition handleCancel : M Ui unit :=
  current <- gets cancelToken ;;
  match current with
  | Some token => cancel token ;;; setCancelToken None
  | None => ret tt
  end ;;;
  setIsLoading false ;;;
  setCurrentStage "" ;;;
  setLiveCoding deactivate ;;;
  optConsoleLog "⏹️ Generation cancelled" "info".

(** One suspension of the running handler.  The event loop may run the click
    handler of the Cancel button before the handler resumes. *)
Definition await : M Ui unit :=
  k <- gets awaits ;;
  modify (set_awaits S) ;;;
  if cancelDuring env k then handleCancel else ret tt.

Definition typingPatterns : list string :=
  ["AI-Powered Generation"; "Production Ready"; "Modern Architecture"].

Definition simulateTyping (code fileName language : string) : M Ui unit :=
  let lines := split newline code in
  let complexity := complexityOf lines in
  setLiveCoding (fun prev =>
    LiveCodingState.mk fileName (LiveCodingState.content prev) true language
      (LiveCodingState.progress prev) complexity typingPatterns) ;;;
  forEach (typingLoop (List.length lines) 0 "" lines) (fun '(currentContent, progress) =>
    setLiveCoding (fun prev =>
      LiveCodingState.mk (LiveCodingState.fileName prev) currentContent
        (LiveCodingState.isActive prev) (LiveCodingState.language prev) progress
        (LiveCodingState.complexity prev) (LiveCodingState.patterns prev)) ;;;
    await) ;;;
  setLiveCoding (fun prev =>
    LiveCodingState.mk (LiveCodingState.fileName prev) code false
      (LiveCodingState.language prev) 100%Z
      (LiveCodingState.complexity prev) (LiveCodingState.patterns prev)).

Definition saveProject (prompt : string) (filesCreated codeBlocks : list string) : M Ui unit :=
  match createProject env with
  | None => ret tt
  | Some resolves =>
      await ;;;
      if resolves
      then emit (ProjectSaved filesCreated) ;;;
           optConsoleLog "✅ Project saved successfully!" "success"
      else optConsoleLog "❌ Failed to save project" "error"
  end.

Definition generateLocalCode (prompt : string) : string := localCode env.

(** The [for] loop over the code blocks, shared by the two branches of
    [handleFileGeneration]; [announce] tells whether the branch logs each
    file.  The loop returns [filesCreated].  The call [generateFileName(code, i)]
    passes the loop index where the language is expected. *)
Fixpoint typeBlocks (announce : bool) (token i : nat) (blocks filesCreated : list string)
  : M Ui (list string) :=
  match blocks with
  | [] => ret filesCreated
  | block :: rest =>
      stop <- cancelled token ;;
      if stop then ret filesCreated
      else
        let language := languageOfBlock block in
        let code := codeOfBlock block in
        match call_generateFileName code (JNum (Z.of_nat i)) JUndefined with
        | Abrupt e => throw e
        | Normal fileName =>
            notifyFileGenerated fileName code language ;;;
            simulateTyping code fileName language ;;;
            (if announce
             then callConsoleLog ("📄 Created file: " ++ fileName) "success"
             else ret tt) ;;;
            typeBlocks announce token (S i) rest (filesCreated ++ [fileName])%list
        end
  end.

Definition linesOf (block : string) : nat := List.length (split newline block).

(** The chat message both branches of [handleFileGeneration] build. *)
Definition aiMessage (at_ : nat) (aiResponse : string) (codeBlocks filesCreated : list string)
  : ChatMessage :=
  ChatMessage.mk (showNat at_) ai aiResponse at_
    (match codeBlocks with [] => normal | _ => code end)
    (match filesCreated with
     | [] => None
     | _ => Some (mkMetadata filesCreated ["HTML"; "CSS"; "JavaScript"]
                    (fold_left (fun acc block => acc + linesOf block) codeBlocks 0))
     end).

Definition appendMessage (m : ChatMessage) : M Ui unit := setMessages (fun prev => (prev ++ [m])%list).

Definition dateNow : M Ui nat := gets (fun s => now env (awaits s)).

(** [await fetch(endpoint, ...)], the [response.ok] test and
    [await response.json()]. *)
Definition post (endpoint prompt : string) : M Ui FetchData :=
  await ;;;
  match fetch env endpoint prompt with
  | Rejected => throw (TypeError "Failed to fetch")
  | Responded ok data =>
      if negb ok then throw (Error "Failed to get AI response")
      else
        await ;;;
        match data with
        | None => throw (Error "Unexpected token in JSON")
        | Some d => ret d
        end
  end.

(** The [try] block of [handleFileGeneration]. *)
Definition generateFromServer (userInput : string) (token : nat) : M Ui unit :=
  data <- post "/api/ask" userInput ;;
  match data_response data with
  | JStr aiResponse =>
      let codeBlocks := matchCodeBlocks aiResponse in
      filesCreated <- typeBlocks true token 0 codeBlocks [] ;;
      (match filesCreated with
       | [] => ret tt
       | _ => saveProject userInput filesCreated codeBlocks
       end) ;;;
      at_ <- dateNow ;;
      appendMessage (aiMessage at_ aiResponse codeBlocks filesCreated) ;;;
      match filesCreated with
      | [] => ret tt
      | _ =>
          setGenerationComplete true ;;;
          setIsGenerationMode false ;;;
          callConsoleLog ("✅ Generated " ++ showNat (List.length filesCreated)
                          ++ " files successfully!") "success"
      end
  | _ => throw (TypeError "aiResponse.match is not a function")
  end.

(** The [catch] block of [handleFileGeneration]. *)
Definition generateLocally (userInput : string) (token : nat) : M Ui unit :=
  callConsoleLog "❌ Failed to generate files" "error" ;;;
  let aiResponse := generateLocalCode userInput in
  let codeBlocks := matchCodeBlocks aiResponse in
  filesCreated <- typeBlocks false token 0 codeBlocks [] ;;
  at_ <- dateNow ;;
  appendMessage (aiMessage at_ aiResponse codeBlocks filesCreated).

Definition loadingFrame (prev : LiveCodingState) : LiveCodingState :=
  let '(LiveCodingState.mk _ _ _ l p cx pt) := prev in
  LiveCodingState.mk "Loading..." "" true l p cx pt.

Definition handleFileGeneration (userInput : string) (token : nat) : M Ui unit :=
  setCurrentStage "analysis" ;;;
  setLiveCoding loadingFrame ;;;
  await ;;;
  stop <- cancelled token ;;
  if stop then ret tt else
  setCurrentStage "architecture" ;;;
  await ;;;
  stop <- cancelled token ;;
  if stop then ret tt else
  setCurrentStage "structure" ;;;
  await ;;;
  stop <- cancelled token ;;
  if stop then ret tt else
  tryCatch (generateFromServer userInput token)
           (fun _ => generateLocally userInput token) ;;;
  setCurrentStage "complete".

Definition isAgentMode (userInput : string) : bool :=
  let lower := toLowerCase userInput in
  includes lower "agent" || includes lower "build"
  || includes lower "create" || includes lower "make".

(** The part of [handleAIResponse] before its [try]: it ends by creating the
    token of this attempt and storing it in the [cancelToken] cell. *)
Definition beginAIResponse : M Ui nat :=
  setIsLoading true ;;;
  setCurrentStage "" ;;;
  setLiveCoding deactivate ;;;
  token <- createCancelToken ;;
  setCancelToken (Some token) ;;;
  ret token.

Definition handleAIResponse (userInput : string) : M Ui unit :=
  token <- beginAIResponse ;;
  tryFinally
    (tryCatch
       (generationMode <- gets isGenerationMode ;;
        if isCodeGenerationRequest userInput && generationMode
        then handleFileGeneration userInput token
        else
          let endpoint := if isAgentMode userInput then "/api/agent/generate" else "/api/ask" in
          data <- post endpoint userInput ;;
          if truthy (data_checkpoint data)
          then at_ <- dateNow ;;
               optConsoleLog ("🎯 Replit Agent Checkpoint: " ++ showNat at_) "success"
          else ret tt)
       (fun _ =>
          optConsoleLog "❌ Failed to process request" "error" ;;;
          setErrorAlerts (fun prev => (prev ++ ["Failed to process your request. Please try again."])%list)))
    (setIsLoading false ;;;
     setCurrentStage "" ;;;
     setLiveCoding deactivate ;;;
     setCancelToken None).

Definition handleSubmit (inputText : option string) : M Ui unit :=
  typed <- gets inputValue ;;
  let messageText :=
    match inputText with
    | Some text => if text =? "" then trim typed else text
    | None => trim typed
    end in
  loading <- gets isLoading ;;
  if (messageText =? "") || loading then ret tt
  else
    at_ <- dateNow ;;
    appendMessage (ChatMessage.mk (showNat at_) user messageText at_ normal None) ;;;
    setInputValue "" ;;;
    handleAIResponse messageText.

(** What the user can do to the component. *)
Inductive Action : Type :=
| TypeText (text : string)
| Submit (inputText : option string)
| Cancel.

Definition perform (a : Action) (s : Ui) : Ui :=
  match a with
  | TypeText text => set_inputValue text s
  | Submit inputText => snd (handleSubmit inputText s)
  | Cancel => snd (handleCancel s)
  end.

Definition performAll (actions : list Action) (s : Ui) : Ui :=
  fold_left (fun st a => perform a st) actions s.

End Client.

(* ===================================================================== *)
(** ** Server: data *)
(* ===================================================================== *)

Module FileEntry.
Record t : Type := mk {
  content : string;
  language : string
}.
End FileEntry.
Abbreviation FileEntry := FileEntry.t.

(** A bundle is an object literal: its entries are visited in insertion order. *)
Definition FileBundle : Type := obj FileEntry.

(** The six template payloads of the [/api/ask] handler.  The handler never
    looks inside them, so they are kept abstract. *)
Record Templates : Type := mkTemplates {
  calculator_index_html : string;
  calculator_style_css : string;
  calculator_script_js : string;
  todo_index_html : string;
  todo_style_css : string;
  todo_script_js : string
}.

Definition calculatorFiles (tpl : Templates) : FileBundle :=
  [("index.html", FileEntry.mk (calculator_index_html tpl) "html");
   ("style.css", FileEntry.mk (calculator_style_css tpl) "css");
   ("script.js", FileEntry.mk (calculator_script_js tpl) "javascript")].

Definition todoFiles (tpl : Templates) : FileBundle :=
  [("index.html", FileEntry.mk (todo_index_html tpl) "html");
   ("style.css", FileEntry.mk (todo_style_css tpl) "css");
   ("script.js", FileEntry.mk (todo_script_js tpl) "javascript")].

Definition calculatorIntro : string :=
  "I'll create a modern calculator app with a sleek design and full functionality.".

Definition calculatorCreated : string :=
  "‚úÖ Calculator app created! Your modern calculator includes:"
  ++ nl
  ++ nl
  ++ "üî¢ Full arithmetic operations"
  ++ nl
  ++ "üé® Beautiful glass-morphism design"
  ++ nl
  ++ "‚å®Ô∏è Keyboard support"
  ++ nl
  ++ "üì± Responsive layout"
  ++ nl
  ++ nl
  ++ "Check the preview to see your calculator in action!".

Definition todoIntro : string :=
  "I'll build a feature-rich todo list app with modern design and local storage.".

Definition todoCreated : string :=
  "‚úÖ Todo List app created! Your productivity app includes:"
  ++ nl
  ++ nl
  ++ "üìù Add/edit/delete tasks"
  ++ nl
  ++ "‚úÖ Mark tasks as complete"
  ++ nl
  ++ "üîç Filter by status (All/Active/Completed)"
  ++ nl
  ++ "üíæ Local storage persistence"
  ++ nl
  ++ "üìä Task statistics"
  ++ nl
  ++ "üé® Modern, responsive design"
  ++ nl
  ++ nl
  ++ "Start organizing your tasks now!".

Definition generalReply : string :=
  "I can help you build that! Let me know if you'd like me to create the complete application with all files and functionality.".

Definition emptyReplyFallback : string :=
  "I'm here to help you build amazing applications! What would you like to create?".

Record AppPlan : Type := mkPlan {
  title : string;
  description : string;
  features : list string
}.

Module ListedFile.
Record t : Type := mk {
  content : string;
  type : string
}.
End ListedFile.
Abbreviation ListedFile := ListedFile.t.

(** JSON bodies the handlers send. *)
Inductive Body : Type :=
| AskReply (response : string) (success : bool) (apiUsed : string)
    (showBuildButton : bool) (appPlan : option AppPlan)
    (files : FileBundle) (projectSaved : bool)
| ErrorReply (error : string) (success : option bool)
| CreateReply (success : bool) (fileName : jsval) (path : string)
| ListReply (files : obj ListedFile).

Record Response : Type := mkResponse {
  status : nat;
  body : Body
}.

(** Members of a JSON body as a client reads them; an absent member reads as
    [undefined]. *)
Definition member_success (b : Body) : jsval :=
  match b with
  | AskReply _ ok _ _ _ _ _ => JBool ok
  | ErrorReply _ (Some ok) => JBool ok
  | ErrorReply _ None => JUndefined
  | CreateReply ok _ _ => JBool ok
  | ListReply _ => JUndefined
  end.

Definition member_showBuildButton (b : Body) : jsval :=
  match b with
  | AskReply _ _ _ shown _ _ _ => JBool shown
  | _ => JUndefined
  end.

Definition member_files (b : Body) : option FileBundle :=
  match b with
  | AskReply _ _ _ _ _ files _ => Some files
  | _ => None
  end.

Definition member_response (b : Body) : jsval :=
  match b with
  | AskReply text _ _ _ _ _ _ => JStr text
  | _ => JUndefined
  end.

Definition member_error (b : Body) : jsval :=
  match b with
  | ErrorReply text _ => JStr text
  | _ => JUndefined
  end.

(** The parts of Node the handlers call: [fs.existsSync], [fs.mkdirSync] with
    [recursive: true], [fs.writeFileSync], [process.cwd()], [path.join] on two
    strings and [path.dirname].  The file-system calls may throw and change
    the disk. *)
Class Platform (Disk : Type) : Type := mkPlatform {
  existsSync : string -> Disk -> bool;
  mkdirSync : string -> Disk -> Completion unit * Disk;
  writeFileSync : string -> jsval -> Disk -> Completion unit * Disk;
  cwd : string;
  join : string -> string -> string;
  dirname : string -> string
}.

(** The state of the server process: the global [projectFiles] and the disk. *)
Record Server (Disk : Type) : Type := mkServer {
  projectFiles : option FileBundle;
  disk : Disk
}.
Arguments mkServer {Disk} _ _.
Arguments projectFiles {Disk} _.
Arguments disk {Disk} _.

Record AskRequest : Type := mkAsk {
  prompt : jsval;
  requestType : jsval
}.

Record CreateRequest : Type := mkCreate {
  fileName : jsval;
  content : jsval;
  language : jsval
}.

(* ===================================================================== *)
(** ** Server: the handlers of [/api/ask] and [/api/files/create] *)
(* ===================================================================== *)

Section Handlers.

Context {Disk : Type} {platform : Platform Disk}.
Variable tpl : Templates.

Definition onDisk {A} (op : Disk -> Completion A * Disk) : M (Server Disk) A :=
  fun s =>
    let '(r, d) := op (disk s) in
    (r, mkServer (projectFiles s) d).

Definition setProjectFiles (files : FileBundle) : M (Server Disk) unit :=
  modify (fun s => mkServer (Some files) (disk s)).

(** [if (!fs.existsSync(dir)) fs.mkdirSync(dir, { recursive: true })]. *)
Definition ensureDirectory (dir : string) : M (Server Disk) unit :=
  present <- gets (fun s => existsSync dir (disk s)) ;;
  if present then ret tt else onDisk (mkdirSync dir).

(** [path.join(base, segment)] checks that its arguments are strings. *)
Definition pathJoin (base : string) (segment : jsval) : M (Server Disk) string :=
  match segment with
  | JStr s => ret (join base s)
  | _ => throw (TypeError "The path argument must be of type string")
  end.

(** [Object.entries(files).forEach(([filename, file]) => writeFileSync(...))]. *)
Definition writeBundle (aiGenDir : string) (files : FileBundle) : M (Server Disk) unit :=
  forEach files (fun '(filename, file) =>
    onDisk (writeFileSync (join aiGenDir filename) (JStr (FileEntry.content file)))).

(** Evaluating an identifier whose bindings in scope are [scope]. *)
Definition resolve (scope : obj FileBundle) (name : string) : M (Server Disk) FileBundle :=
  match get name scope with
  | Some v => ret v
  | None => throw (ReferenceError (name ++ " is not defined"))
  end.

(** [prompt.toLowerCase()]. *)
Definition lowerCased (v : jsval) : M (Server Disk) string :=
  match v with
  | JStr s => ret (toLowerCase s)
  | _ => throw (TypeError "prompt.toLowerCase is not a function")
  end.

(** The calculator build branch: [const files = {...}] is in scope of the
    [forEach] and of the assignment to the global. *)
Definition buildCalculator : M (Server Disk) string :=
  let files := calculatorFiles tpl in
  let scope := [("files", files)] in
  let aiGenDir := join cwd "ai-generated" in
  ensureDirectory aiGenDir ;;;
  bundle <- resolve scope "files" ;;
  writeBundle aiGenDir bundle ;;;
  bundle' <- resolve scope "files" ;;
  setProjectFiles bundle' ;;;
  ret calculatorCreated.

(** The todo build branch: the object literal is assigned to the global, and
    no binding named [files] is in scope where [Object.entries(files)] is
    evaluated (the [const files] of the calculator branch is local to its
    block, and neither the handler nor the module declares another). *)
Definition buildTodo : M (Server Disk) string :=
  setProjectFiles (todoFiles tpl) ;;;
  let scope : obj FileBundle := [] in
  let aiGenDir := join cwd "ai-generated" in
  ensureDirectory aiGenDir ;;;
  bundle <- resolve scope "files" ;;
  writeBundle aiGenDir bundle ;;;
  bundle' <- resolve scope "files" ;;
  setProjectFiles bundle' ;;;
  ret todoCreated.

Definition planFor (lower : string) : AppPlan :=
  mkPlan
    (if includes lower "todo" then "Todo List App"
     else if includes lower "calculator" then "Calculator App"
     else "Custom App")
    ("Build a "
     ++ (if includes lower "todo" then "todo list"
         else if includes lower "calculator" then "calculator"
         else "custom")
     ++ " application")
    (if includes lower "todo"
     then ["Add/remove tasks"; "Mark complete"; "Filter tasks"; "Local storage"]
     else if includes lower "calculator"
     then ["Basic arithmetic"; "Keyboard support"; "Modern design"; "Error handling"]
     else ["Custom functionality"; "Modern design"; "Responsive layout"]).

(** [global.projectFiles || {}]: a stored bundle is an object, hence truthy. *)
Definition storedOrEmpty (stored : option FileBundle) : FileBundle :=
  match stored with
  | Some files => files
  | None => []
  end.

(** [const { prompt, requestType = 'chat' } = req.body]: the default applies
    when the member is absent. *)
Definition requestTypeOf (req : AskRequest) : jsval :=
  match requestType req with
  | JUndefined => JStr "chat"
  | given => given
  end.

(** The [if / else if / else] chain on the prompt, which computes [response]. *)
Definition respondTo (lower : string) (requestType : jsval) : M (Server Disk) string :=
  if includes lower "calculator" then
    if strictEqStr requestType "build" then buildCalculator
    else ret calculatorIntro
  else if includes lower "todo" then
    if strictEqStr requestType "build" then buildTodo
    else ret todoIntro
  else ret generalReply.

(** The body of the [try] block of the [/api/ask] handler.
    [prompt.toLowerCase()] is evaluated once here; the later evaluations in
    the source give the same string. *)
Definition answer (prompt requestType : jsval) : M (Server Disk) Response :=
  lower <- lowerCased prompt ;;
  response <- respondTo lower requestType ;;
  let response := if response =? "" then emptyReplyFallback else response in
  let finalResponse := response in
  let planning := strictEqStr requestType "plan" in
  let showBuildButton := planning in
  let appPlan := if planning then Some (planFor lower) else None in
  stored <- gets projectFiles ;;
  ret (mkResponse 200
         (AskReply finalResponse true "local" showBuildButton appPlan
            (storedOrEmpty stored)
            (0 <? List.length (keys (storedOrEmpty stored)))%nat)).

(** The handler of [POST /api/ask]. *)
Definition api_ask (req : AskRequest) : M (Server Disk) Response :=
  let prompt := prompt req in
  let requestType := requestTypeOf req in
  if negb (truthy prompt)
  then ret (mkResponse 400 (ErrorReply "Prompt is required" None))
  else
    tryCatch (answer prompt requestType)
      (fun _ => ret (mkResponse 500 (ErrorReply "Internal server error" (Some false)))).

(** The file-system part of the [/api/files/create] handler; it returns
    [filePath]. *)
Definition createFile (fileName content : jsval) : M (Server Disk) string :=
  let aiGenDir := join cwd "ai-generated" in
  ensureDirectory aiGenDir ;;;
  filePath <- pathJoin aiGenDir fileName ;;
  let dir := dirname filePath in
  ensureDirectory dir ;;;
  onDisk (writeFileSync filePath content) ;;;
  ret filePath.

(** The handler of [POST /api/files/create]. *)
Definition files_create (req : CreateRequest) : M (Server Disk) Response :=
  tryCatch
    (let fileName := fileName req in
     let content := content req in
     if negb (truthy fileName) || isUndefined content
     then ret (mkResponse 400 (ErrorReply "fileName and content are required" None))
     else
       filePath <- createFile fileName content ;;
       ret (mkResponse 200 (CreateReply true fileName filePath)))
    (fun _ => ret (mkResponse 500 (ErrorReply "Failed to create file" None))).

End Handlers.

(* ===================================================================== *)
(** ** Server: the handler of [/api/files/list] *)
(* ===================================================================== *)

(** What the listing handler can meet below [ai-generated]: a regular file
    that [readFileSync] returns or refuses, a directory that [readdirSync]
    lists or refuses, an entry that is neither (socket, device), and an entry
    on which [statSync] throws (dangling link). *)
Inductive Node : Type :=
| File (text : option string)
| Directory (items : list (string * Node))
| LockedDirectory
| Special
| Dangling.

(** [path.extname(item)]: from the last dot to the end, and empty when there is
    no dot or the only dot is the first character. *)
Fixpoint lastDotSuffix (s : string) : option string :=
  match s with
  | "" => None
  | String c s' =>
      match lastDotSuffix s' with
      | Some ext => Some ext
      | None => if Ascii.eqb c "."%char then Some s else None
      end
  end.

Definition extname (item : string) : string :=
  match item with
  | "" => ""
  | String c rest =>
      match lastDotSuffix rest with
      | Some ext => ext
      | None => ""
      end
  end.

Definition typeOfExtension (ext : string) : string :=
  if ext =? ".html" then "html"
  else if ext =? ".css" then "css"
  else if (ext =? ".js") || (ext =? ".jsx") then "javascript"
  else if (ext =? ".ts") || (ext =? ".tsx") then "typescript"
  else if ext =? ".py" then "python"
  else if ext =? ".json" then "json"
  else "text".

(** [relativePath ? path.join(relativePath, item) : item], for a directory
    entry name [item]. *)
Definition relativeTo (relativePath item : string) : string :=
  if relativePath =? "" then item else relativePath ++ "/" ++ item.

(** One iteration of the [for] loop of [scanDirectory] on a visible entry
    ([scanEntry]), and the loop itself ([scanItems]).  [None] stands for an
    exception leaving [scanDirectory]. *)
Fixpoint scanEntry (relativePath item : string) (node : Node) (files : obj ListedFile)
  : option (obj ListedFile) :=
  let relativeFilePath := relativeTo relativePath item in
  match node with
  | Dangling => None
  | File (Some text) =>
      Some (assign relativeFilePath
              (ListedFile.mk text (typeOfExtension (toLowerCase (extname item)))) files)
  | File None => Some files
  | Special => Some files
  | LockedDirectory => None
  | Directory items =>
      (fix scanItems (items : list (string * Node)) (files : obj ListedFile)
         : option (obj ListedFile) :=
         match items with
         | [] => Some files
         | (name, child) :: rest =>
             if startsWith name "." then scanItems rest files
             else match scanEntry relativeFilePath name child files with
                  | Some files' => scanItems rest files'
                  | None => None
                  end
         end) items files
  end.

Fixpoint scanItems (relativePath : string) (items : list (string * Node))
  (files : obj ListedFile) : option (obj ListedFile) :=
  match items with
  | [] => Some files
  | (name, child) :: rest =>
      if startsWith name "." then scanItems relativePath rest files
      else match scanEntry relativePath name child files with
           | Some files' => scanItems relativePath rest files'
           | None => None
           end
  end.

(** [scanDirectory(dir, relativePath)] on what lies at [dir]: [readdirSync]
    throws unless [dir] is a readable directory. *)
Definition scanDirectory (dir : Node) (relativePath : string) (files : obj ListedFile)
  : option (obj ListedFile) :=
  match dir with
  | Directory items => scanItems relativePath items files
  | _ => None
  end.

(** The handler of [GET /api/files/list].  [outputDir] is what
    [process.cwd()/ai-generated] designates, [None] when nothing is there;
    [existsSync] is also false on a dangling link.  [res.json] sends the own
    properties of [files], in the order of [ownProperties]. *)
Definition files_list (outputDir : option Node) : Response :=
  let scanned :=
    match outputDir with
    | None | Some Dangling => Some []
    | Some dir => scanDirectory dir "" []
    end in
  match scanned with
  | Some files => mkResponse 200 (ListReply (ownProperties files))
  | None => mkResponse 200 (ListReply [])
  end.

(* ===================================================================== *)
(** ** A concrete platform and environment, for running the model *)
(* ===================================================================== *)

(** An in-memory disk: the directories made, the files written (latest
    first), and whether the medium refuses writes. *)
Record MemDisk : Type := mkDisk {
  directories : list string;
  written : list (string * string);
  readOnly : bool
}.

Definition mem_existsSync (path : string) (d : MemDisk) : bool :=
  existsb (String.eqb path) (directories d)
  || existsb (fun entry => String.eqb path (fst entry)) (written d).

Definition mem_mkdirSync (path : string) (d : MemDisk) : Completion unit * MemDisk :=
  if readOnly d then (Abrupt (SystemError "EROFS"), d)
  else (Normal tt, mkDisk (path :: directories d) (written d) false).

Definition mem_writeFileSync (path : string) (data : jsval) (d : MemDisk)
  : Completion unit * MemDisk :=
  match data with
  | JStr text =>
      if readOnly d then (Abrupt (SystemError "EROFS"), d)
      else (Normal tt, mkDisk (directories d) ((path, text) :: written d) false)
  | _ => (Abrupt (TypeError "The data argument must be of type string"), d)
  end.

Fixpoint mem_dirname (path : string) : string :=
  match path with
  | "" => ""
  | String c rest =>
      if includes rest "/" then String c (mem_dirname rest) else ""
  end.

#[export] Instance memPlatform : Platform MemDisk :=
  mkPlatform mem_existsSync mem_mkdirSync mem_writeFileSync
    "/app" (fun a b => a ++ "/" ++ b) mem_dirname.

Definition emptyDisk : MemDisk := mkDisk [] [] false.
Definition fullDisk : MemDisk := mkDisk [] [] true.

(** A process that has served no request yet. *)
Definition freshServer : Server MemDisk := mkServer None emptyDisk.

(** First lines of the six templates. *)
Definition sampleTemplates : Templates :=
  mkTemplates "<!DOCTYPE html>" "* {" "let display = document.getElementById('result');"
              "<!DOCTYPE html>" "* {" "let todos = JSON.parse(localStorage.getItem('todos')) || [];".

(** How the client sees the outcome of the [/api/ask] handler; a handler that
    throws sends nothing. *)
Definition toFetchOutcome (outcome : Completion Response) : FetchOutcome :=
  match outcome with
  | Normal r =>
      Responded ((200 <=? status r) && (status r <? 300))%nat
                (Some (mkData (member_response (body r)) JUndefined))
  | Abrupt _ => Rejected
  end.

(** A client with both props given and the project mutation resolving; its
    local fallback text is a short text with one fenced HTML block, like the
    two canned ones. *)
Definition envWith (cancelDuring : nat -> bool) (fetch : string -> string -> FetchOutcome)
  : Env :=
  mkEnv cancelDuring fetch
        ("Here is your app:" ++ nl ++ fence ++ "html" ++ nl ++ "<!DOCTYPE html>" ++ nl ++ fence)
        (Some true) true true (fun k => 1000 + k).

(** Requests that reach a server process which has served nothing yet. *)
Definition askFreshServer (endpoint prompt : string) : FetchOutcome :=
  toFetchOutcome (fst (api_ask sampleTemplates (mkAsk (JStr prompt) JUndefined) freshServer)).

Definition neverCancel (k : nat) : bool := false.
Definition cancelAt (n k : nat) : bool := (k =? n)%nat.

Definition demoTree : Node :=
  Directory [("index.html", File (Some "<p>")); (".git", Directory [("HEAD", File (Some "x"))]);
             ("src", Directory [("app.TS", File (Some "let")); ("secret", File None); (".env", File (Some "k"))]);
             ("sock", Special)].


(* ===================================================================== *)
(** ** Vocabulary of the properties *)
(* ===================================================================== *)

(** *** File names *)







(** *** Typing progress *)

Definition lineCount (code : string) : nat := List.length (split newline code).

(** "The value 100 is reported only at the final line": a report of 100 is
    that of the last line, or the closing report that follows it. *)
Definition hundredOnlyAtFinalLine (code : string) : Prop :=
  forall j, j < List.length (progressReports code) ->
            nth j (progressReports code) 0%Z = 100%Z ->
            lineCount code - 1 <= j.

Fixpoint repeatString (n : nat) (s : string) : string :=
  match n with
  | 0 => ""
  | S n' => s ++ repeatString n' s
  end.

(** A file of 401 lines. *)
Definition longFile : string := repeatString 400 ("x" ++ nl) ++ "x".

(** *** Directory listings *)



(** The tree without the entries that [keep] rejects, at every depth. *)
Fixpoint prune (keep : string -> Node -> bool) (node : Node) : Node :=
  match node with
  | Directory items =>
      Directory
        ((fix pruneItems (items : list (string * Node)) : list (string * Node) :=
            match items with
            | [] => []
            | (name, child) :: rest =>
                if keep name child
                then (name, prune keep child) :: pruneItems rest
                else pruneItems rest
            end) items)
  | other => other
  end.

Fixpoint pruneItems (keep : string -> Node -> bool) (items : list (string * Node))
  : list (string * Node) :=
  match items with
  | [] => []
  | (name, child) :: rest =>
      if keep name child
      then (name, prune keep child) :: pruneItems keep rest
      else pruneItems keep rest
  end.





(** Induction on a tree, with the property available for every item of a
    directory. *)
Section NodeInduction.

Variable P : Node -> Prop.
Hypothesis onFile : forall text, P (File text).
Hypothesis onDirectory :
  forall items, Forall (fun item => P (snd item)) items -> P (Directory items).
Hypothesis onLockedDirectory : P LockedDirectory.
Hypothesis onSpecial : P Special.
Hypothesis onDangling : P Dangling.


End NodeInduction.

(** *** Component histories *)

(** [evolves s s']: the message log of [s'] extends that of [s], every token
    object of [s] is still there, and those that were cancelled still are. *)
Definition evolves (s s' : Ui) : Prop :=
  (exists added, messages s' = (messages s ++ added)%list)
  /\ (forall t, cancelledAt t (tokens s) = true -> cancelledAt t (tokens s') = true)
  /\ List.length (tokens s) <= List.length (tokens s').

(** [keeps m]: running [m] from any state leads to a state that evolves it. *)
Definition keeps {A : Type} (m : M Ui A) : Prop :=
  forall s, evolves s (snd (m s)).

(** *** Scenarios *)

(** A server reply whose text holds one code block. *)
Definition codeReply (endpoint prompt : string) : FetchOutcome :=
  Responded true (Some (mkData (JStr (fence ++ nl ++ "hello" ++ fence)) JUndefined)).

(** The end-to-end expectation for the prompt "build me a todo app" sent
    without a request type: three files in the reply, no [showBuildButton]
    member, and a chat message whose metadata lists three generated files. *)
Definition todoChatClaim (r : Response) (log : list ChatMessage) : Prop :=
  (exists files, member_files (body r) = Some files /\ List.length files = 3)
  /\ member_showBuildButton (body r) = JUndefined
  /\ (exists m md, In m log /\ ChatMessage.metadata m = Some md
                   /\ List.length (filesGenerated md) = 3).

(** *** The process over several requests *)

Section Process.

Context {Disk : Type} {platform : Platform Disk}.
Variable tpl : Templates.

(** A build request, as the handler tests it. *)
Definition buildRequest (req : AskRequest) : bool :=
  strictEqStr (requestTypeOf req) "build".

(** The process answers the requests to [/api/ask] one after the other (the
    handler has no suspension point); the state it is left in. *)
Fixpoint serveAll (requests : list AskRequest) (st : Server Disk) : Server Disk :=
  match requests with
  | [] => st
  | req :: rest => serveAll rest (snd (api_ask tpl req st))
  end.

End Process.

(** *** The token of one attempt *)

(** The [cancelToken] cell is empty or holds this token. *)
Definition currentOrNone (token : nat) (s : Ui) : Prop :=
  cancelToken s = None \/ cancelToken s = Some token.

(** [ownsToken token s s']: from [s] to [s'] no suspension is undone, and if
    the only token a click on Cancel can reach in [s] is [token], that is
    still so in [s'], no token has been created and every other token has
    the flag it had. *)
Definition ownsToken (token : nat) (s s' : Ui) : Prop :=
  awaits s <= awaits s'
  /\ (currentOrNone token s ->
      currentOrNone token s'
      /\ List.length (tokens s') = List.length (tokens s)
      /\ forall t, t <> token -> cancelledAt t (tokens s') = cancelledAt t (tokens s)).

(** [suspends m]: running [m] goes through at least one suspension. *)
Definition suspends {A : Type} (m : M Ui A) : Prop :=
  forall s, awaits s < awaits (snd (m s)).

(* ===================================================================== *)
(** ** Client: stage progress ([useProgress]) *)
(* ===================================================================== *)

Record GenerationStage : Type := mkStage {
  key : string;
  name : string;
  duration : nat
}.

Definition GENERATION_STAGES : list GenerationStage :=
  [mkStage "analysis" "Analyzing Requirements" 15;
   mkStage "architecture" "Designing Architecture" 25;
   mkStage "structure" "Creating File Structure" 20;
   mkStage "implementation" "Implementing Features" 30;
   mkStage "optimization" "Optimizing Performance" 10].

(** [stages.findIndex(p)]; [None] stands for -1. *)
Fixpoint findIndex {A : Type} (p : A -> bool) (l : list A) : option nat :=
  match l with
  | [] => None
  | x :: rest =>
      if p x then Some 0
      else match findIndex p rest with
           | Some i => Some (S i)
           | None => None
           end
  end.

(** [stages.reduce((sum, stage) => sum + stage.duration, 0)]. *)
Definition sumDurations (stages : list GenerationStage) : nat :=
  fold_left (fun sum stage => sum + duration stage) stages 0.

(** The value of the [useProgress] hook; [None] stands for [NaN], which is
    what [Math.round((0 / 0) * 100)] gives when the durations add up to 0. *)
Definition useProgress (stages : list GenerationStage) (currentStage : string) : option Z :=
  match findIndex (fun stage => key stage =? currentStage) stages with
  | None => Some 0%Z
  | Some stageIndex =>
      let completedDuration := sumDurations (firstn stageIndex stages) in
      let totalDuration := sumDurations stages in
      if (totalDuration =? 0)%nat then None
      else Some (roundPercent completedDuration totalDuration)
  end.

(** [GENERATION_STAGES.find(stage => stage.key === currentStage)?.name || '']. *)
Definition currentStageName (currentStage : string) : string :=
  match find (fun stage => key stage =? currentStage) GENERATION_STAGES with
  | Some stage => name stage
  | None => ""
  end.

(* ===================================================================== *)
(** ** Vocabulary of the further properties *)
(* ===================================================================== *)

(** The given lines, each followed by a line break. *)
Fixpoint typedText (lines : list string) : string :=
  match lines with
  | [] => ""
  | line :: rest => line ++ nl ++ typedText rest
  end.

(** The fields of the live-coding cell that only the opening update of
    [simulateTyping] assigns. *)
Definition sameFile (a b : LiveCodingState) : Prop :=
  LiveCodingState.fileName a = LiveCodingState.fileName b
  /\ LiveCodingState.language a = LiveCodingState.language b
  /\ LiveCodingState.complexity a = LiveCodingState.complexity b
  /\ LiveCodingState.patterns a = LiveCodingState.patterns b.

(** One pass through the body of the typing loop: it ends normally after one
    suspension and leaves the log and the file being typed as they are. *)
Definition typesOneLine (body : string * Z -> M Ui unit) : Prop :=
  forall frame s,
    exists s',
      body frame s = (Normal tt, s')
      /\ awaits s' = S (awaits s)
      /\ messages s' = messages s
      /\ sameFile (liveCoding s') (liveCoding s).

(** Relations between a state and a later one that hold of a whole run when
    they hold of each step. *)
Class Cumulative (R : Ui -> Ui -> Prop) : Prop := mkCumulative {
  cumulative_refl : forall s, R s s;
  cumulative_trans : forall s1 s2 s3, R s1 s2 -> R s2 s3 -> R s1 s3
}.

(** [preserves R m]: running [m] from any state leads to a state related to
    it by [R], whether [m] ends normally or throws. *)
Definition preserves (R : Ui -> Ui -> Prop) {A : Type} (m : M Ui A) : Prop :=
  forall s, R s (snd (m s)).

(** The message log is the same. *)
Definition sameLog (s s' : Ui) : Prop := messages s' = messages s.

(** Events other than a call of [onFileGenerated] or a saved project. *)
Definition quietEvent (e : Event) : Prop :=
  match e with
  | FileGenerated _ _ _ => False
  | ProjectSaved _ => False
  | _ => True
  end.

(** The component is in the same mode, and what it has shown since is no
    generated file and no saved project. *)
Definition staysInGeneration (s s' : Ui) : Prop :=
  isGenerationMode s' = isGenerationMode s
  /\ generationComplete s' = generationComplete s
  /\ exists added, events s' = (events s ++ added)%list /\ Forall quietEvent added.

(** The text [handleSubmit] works with: [inputText || inputValue.trim()]. *)
Definition submittedText (inputText : option string) (s : Ui) : string :=
  match inputText with
  | Some text => if text =? "" then trim (inputValue s) else text
  | None => trim (inputValue s)
  end.

(** The texts [handleSubmit] reads are ASCII. *)
Definition asciiInput (inputText : option string) (s : Ui) : bool :=
  isAscii (inputValue s)
  && match inputText with
     | Some text => isAscii text
     | None => true
     end.

(** The message [handleSubmit] appends for the user. *)
Definition userMessage (env : Env) (messageText : string) (s : Ui) : ChatMessage :=
  ChatMessage.mk (showNat (now env (awaits s))) user messageText (now env (awaits s))
    normal None.

(** A message of the assistant without metadata. *)
Definition plainReply (m : ChatMessage) : Prop :=
  ChatMessage.sender m = ai /\ ChatMessage.metadata m = None.

(** The log has gained at most one message, a plain reply. *)
Definition appendsReply (s s' : Ui) : Prop :=
  exists reply,
    messages s' = (messages s ++ reply)%list
    /\ List.length reply <= 1
    /\ Forall plainReply reply.

(** A branch of [handleFileGeneration] either throws and leaves the log as
    it was, or ends normally having appended one plain reply. *)
Definition repliesOrThrows (m : M Ui unit) : Prop :=
  forall s,
    (exists e, fst (m s) = Abrupt e /\ sameLog s (snd (m s)))
    \/ (fst (m s) = Normal tt
        /\ exists reply, messages (snd (m s)) = (messages s ++ [reply])%list
                         /\ plainReply reply).

(** A non-empty text without white space. *)
Fixpoint spaceless (s : string) : bool :=
  match s with
  | "" => true
  | String c rest => negb (isSpace c) && spaceless rest
  end.

Definition solid (s : string) : bool := negb (s =? "") && spaceless s.

(** A text without a backtick. *)
Fixpoint plain (s : string) : bool :=
  match s with
  | "" => true
  | String c rest => negb (Ascii.eqb c backtick) && plain rest
  end.

Fixpoint wordOnly (s : string) : bool :=
  match s with
  | "" => true
  | String c rest => isWordChar c && wordOnly rest
  end.

(** A fenced block as it is written in a reply: the opening fence, a language
    tag, a line break, the body and the closing fence. *)
Definition fencedBlock (tag body : string) : string :=
  fence ++ tag ++ nl ++ body ++ fence.

(** A reply made of untagged blocks, each after some leading text, and a
    closing text. *)
Fixpoint replyWith (segments : list (string * string)) (closing : string) : string :=
  match segments with
  | [] => closing
  | (lead, body) :: rest => lead ++ fencedBlock "" body ++ replyWith rest closing
  end.

Definition plainSegment (segment : string * string) : bool :=
  plain (fst segment) && plain (snd segment).

(** The pattern matches at no position of [s]. *)
Fixpoint noBlockFrom (s : string) : Prop :=
  blockAt s = None /\
  match s with
  | "" => True
  | String _ rest => noBlockFrom rest
  end.

Definition member_appPlan (b : Body) : option AppPlan :=
  match b with
  | AskReply _ _ _ _ plan _ _ => plan
  | _ => None
  end.



(* ===================================================================== *)
(** * Running the model *)
(* ===================================================================== *)

(** The block pattern allows at most one character between the opening fence
    and the line break: a block tagged [html] is not matched, an untagged one
    is. *)
Example matchCodeBlocks_tagged :
  matchCodeBlocks ("Here:" ++ nl ++ fence ++ "html" ++ nl ++ "<p>" ++ nl ++ fence) = [].
Proof. vm_compute. reflexivity. Qed.

Example matchCodeBlocks_untagged :
  matchCodeBlocks ("Here:" ++ nl ++ fence ++ nl ++ "<p>" ++ nl ++ fence ++ " done")
  = [fence ++ nl ++ "<p>" ++ nl ++ fence].
Proof. vm_compute. reflexivity. Qed.

Example codeOfBlock_untagged :
  codeOfBlock (fence ++ nl ++ "<p>" ++ nl ++ fence) = "<p>" ++ nl
  /\ languageOfBlock (fence ++ nl ++ "<p>" ++ nl ++ fence) = "text".
Proof. vm_compute. split; reflexivity. Qed.

(** [handleFileGeneration] calls [generateFileName(code, i)]: the index lands
    in the language parameter. *)
Example generateFileName_called_with_index :
  call_generateFileName "<p>" (JNum 0) JUndefined
  = Abrupt (TypeError "language.toLowerCase is not a function").
Proof. reflexivity. Qed.

Example generateFileName_examples :
  generateFileName "<p>" "html" 0 = "index.html"
  /\ generateFileName "p {}" "CSS" 1 = "styles2.css"
  /\ generateFileName "print(1)" "py" 2 = "main3.py".
Proof. vm_compute. repeat split; reflexivity. Qed.

Example progressReports_three_lines :
  progressReports ("<h1>" ++ nl ++ "Hello" ++ nl ++ "</h1>") = [0; 33; 67; 100]%Z.
Proof. vm_compute. reflexivity. Qed.

Example files_list_demoTree :
  files_list (Some demoTree)
  = mkResponse 200
      (ListReply [("index.html", ListedFile.mk "<p>" "html");
                  ("src/app.TS", ListedFile.mk "let" "typescript")]).
Proof. vm_compute. reflexivity. Qed.

(** A calculator build request on a fresh process writes the three files and
    answers with them. *)
Example calculator_build :
  exists text d,
    api_ask sampleTemplates (mkAsk (JStr "a Calculator please") (JStr "build")) freshServer
    = (Normal (mkResponse 200
                 (AskReply text true "local" false None
                    (calculatorFiles sampleTemplates) true)),
       mkServer (Some (calculatorFiles sampleTemplates)) d)
    /\ map fst (written d)
       = ["/app/ai-generated/script.js"; "/app/ai-generated/style.css";
          "/app/ai-generated/index.html"].
Proof. do 2 eexists. vm_compute. split; reflexivity. Qed.

(* ===================================================================== *)
(** * Properties *)
(* ===================================================================== *)

(** ** File names ([generateFileName]) *)







(** ** Typing progress ([simulateTyping]) *)

Lemma split_nonempty (sep : ascii) (s : string) : split sep s <> [].
Proof.
  induction s as [|c s IH]; simpl; [discriminate|].
  destruct (Ascii.eqb c sep); [discriminate|].
  destruct (split sep s); [contradiction|discriminate].
Qed.

Lemma lineCount_positive (code : string) : 0 < lineCount code.
Proof.
  unfold lineCount. pose proof (split_nonempty newline code) as H.
  destruct (split newline code); [contradiction|simpl; lia].
Qed.

Lemma typingLoop_progress (total : nat) (lines : list string) :
  forall i currentContent,
    map snd (typingLoop total i currentContent lines)
    = map (fun k => roundPercent k total) (seq i (List.length lines)).
Proof.
  induction lines as [|line rest IH]; intros i currentContent; simpl.
  - reflexivity.
  - f_equal. apply IH.
Qed.

Lemma progressReports_eq (code : string) :
  progressReports code
  = (map (fun k => roundPercent k (lineCount code)) (seq 0 (lineCount code))
     ++ [100%Z])%list.
Proof.
  unfold progressReports, typingFrames, lineCount.
  rewrite typingLoop_progress. reflexivity.
Qed.

Lemma roundPercent_mono (total i j : nat) :
  i <= j -> (roundPercent i total <= roundPercent j total)%Z.
Proof.
  intros Hij. unfold roundPercent.
  destruct total as [|t].
  - simpl. rewrite !Z.div_0_r. lia.
  - apply Z.div_le_mono; lia.
Qed.

Lemma roundPercent_le_100 (total i : nat) :
  i <= total -> (roundPercent i total <= 100)%Z.
Proof.
  intros Hi. unfold roundPercent.
  destruct total as [|t].
  - simpl. rewrite Z.div_0_r. lia.
  - enough ((200 * Z.of_nat i + Z.of_nat (S t)) / (2 * Z.of_nat (S t)) < 101)%Z by lia.
    apply Z.div_lt_upper_bound; lia.
Qed.

(** A line reports 100 only within the last half percent of the file. *)
Lemma roundPercent_100 (total i : nat) :
  0 < total -> roundPercent i total = 100%Z -> 200 * (total - i) <= total.
Proof.
  intros Ht H. unfold roundPercent in H.
  assert (Hd : (100 * (2 * Z.of_nat total) <= 200 * Z.of_nat i + Z.of_nat total)%Z).
  { rewrite <- H. rewrite Z.mul_comm. apply Z.mul_div_le. lia. }
  lia.
Qed.

Lemma sorted_reports (total : nat) :
  forall len i, i + len <= total ->
    StronglySorted Z.le
      (map (fun k => roundPercent k total) (seq i len) ++ [100%Z])%list.
Proof.
  induction len as [|len IH]; intros i Hi; simpl.
  - constructor; constructor.
  - constructor.
    + apply IH. lia.
    + apply Forall_app. split.
      * apply Forall_forall. intros x Hx.
        apply in_map_iff in Hx. destruct Hx as [k [<- Hk]].
        apply in_seq in Hk. apply roundPercent_mono. lia.
      * constructor; [|constructor]. apply roundPercent_le_100. lia.
Qed.

(** C3, as the code has it by design: the progress values reported while a
    file is typed never decrease, and for a file of fewer than 400 lines the
    value 100 is reported only at the final line. *)
Theorem progress_by_design (code : string) :
  StronglySorted Z.le (progressReports code)
  /\ (lineCount code < 400 -> hundredOnlyAtFinalLine code).
Proof.
  split.
  - rewrite progressReports_eq. apply sorted_reports. lia.
  - intros Hshort j Hj H100.
    destruct (le_lt_dec (lineCount code - 1) j) as [|Hearly]; [assumption|exfalso].
    rewrite progressReports_eq in H100.
    rewrite app_nth1 in H100 by (rewrite length_map, length_seq; lia).
    rewrite (nth_indep _ 0%Z (roundPercent 0 (lineCount code))) in H100
      by (rewrite length_map, length_seq; lia).
    rewrite (map_nth (fun k => roundPercent k (lineCount code))) in H100.
    rewrite seq_nth in H100 by lia. simpl in H100.
    apply roundPercent_100 in H100; [lia|apply lineCount_positive].
Qed.

Lemma progress_by_design_witness :
  StronglySorted Z.le (progressReports ("<h1>" ++ nl ++ "Hello" ++ nl ++ "</h1>"))
  /\ hundredOnlyAtFinalLine ("<h1>" ++ nl ++ "Hello" ++ nl ++ "</h1>").
Proof.
  destruct (progress_by_design ("<h1>" ++ nl ++ "Hello" ++ nl ++ "</h1>")) as [Hsorted Hfinal].
  split; [exact Hsorted|].
  apply Hfinal. vm_compute. lia.
Defined.

(** C3 as stated fails: in a file of 401 lines the line before the last, line
    400, already reports [Math.round(399 / 401 * 100) = 100]. *)
Lemma progress_counterexample :
  lineCount longFile = 401
  /\ nth 399 (progressReports longFile) 0%Z = 100%Z
  /\ ~ hundredOnlyAtFinalLine longFile.
Proof.
  assert (Hn : lineCount longFile = 401) by (vm_compute; reflexivity).
  assert (Hval : nth 399 (progressReports longFile) 0%Z = 100%Z) by (vm_compute; reflexivity).
  split; [exact Hn|]. split; [exact Hval|].
  intros H. specialize (H 399).
  assert (Hlen : 399 < List.length (progressReports longFile)) by (vm_compute; lia).
  specialize (H Hlen Hval). rewrite Hn in H. lia.
Qed.

(** ** The [/api/ask] handler *)

Section AskProperties.

Context {Disk : Type} {platform : Platform Disk}.
Variable tpl : Templates.

(** A normal end of the [try] block: the prompt is a string, the reply chain
    ended normally, and the reply carries the bundle stored at that moment. *)
Lemma answer_normal (prompt requestType : jsval) (st st' : Server Disk) (r : Response) :
  answer tpl prompt requestType st = (Normal r, st') ->
  exists text reply,
    prompt = JStr text
    /\ respondTo tpl (toLowerCase text) requestType st = (Normal reply, st')
    /\ r = mkResponse 200
             (AskReply (if reply =? "" then emptyReplyFallback else reply) true "local"
                (strictEqStr requestType "plan")
                (if strictEqStr requestType "plan"
                 then Some (planFor (toLowerCase text)) else None)
                (storedOrEmpty (projectFiles st'))
                (0 <? List.length (keys (storedOrEmpty (projectFiles st'))))%nat).
Proof.
  unfold answer, bind, lowerCased.
  destruct prompt as [| | | |text|]; unfold throw, ret; try discriminate.
  destruct (respondTo tpl (toLowerCase text) requestType st) as [[reply|e] s1] eqn:E;
    [|discriminate].
  unfold gets. intros H. inversion H; subst. exists text, reply. auto.
Qed.

(** The three ways the handler ends; it always sends a response. *)
Lemma api_ask_cases (req : AskRequest) (st : Server Disk) :
  (truthy (prompt req) = false
   /\ api_ask tpl req st = (Normal (mkResponse 400 (ErrorReply "Prompt is required" None)), st))
  \/ (exists r st', answer tpl (prompt req) (requestTypeOf req) st = (Normal r, st')
                    /\ api_ask tpl req st = (Normal r, st'))
  \/ (exists e st', answer tpl (prompt req) (requestTypeOf req) st = (Abrupt e, st')
        /\ api_ask tpl req st
           = (Normal (mkResponse 500 (ErrorReply "Internal server error" (Some false))), st')).
Proof.
  unfold api_ask, tryCatch.
  destruct (truthy (prompt req)); simpl.
  - right.
    destruct (answer tpl (prompt req) (requestTypeOf req) st) as [[r|e] s1].
    + left. exists r, s1. auto.
    + right. exists e, s1. auto.
  - left. auto.
Qed.

Lemma api_ask_success (req : AskRequest) (st st' : Server Disk) (r : Response) :
  api_ask tpl req st = (Normal r, st') -> status r = 200 ->
  answer tpl (prompt req) (requestTypeOf req) st = (Normal r, st').
Proof.
  intros Hrun Hok.
  destruct (api_ask_cases req st) as [[_ H]|[(r1 & s1 & Ha & H)|(e & s1 & _ & H)]];
    rewrite H in Hrun; inversion Hrun; subst; try discriminate Hok.
  exact Ha.
Qed.

(** Only a build request assigns the global. *)
Lemma respondTo_keeps_bundle (lower : string) (requestType : jsval)
  (st st' : Server Disk) (out : Completion string) :
  strictEqStr requestType "build" = false ->
  respondTo tpl lower requestType st = (out, st') -> st' = st.
Proof.
  intros Hb. unfold respondTo. rewrite Hb.
  destruct (includes lower "calculator"); [|destruct (includes lower "todo")];
    unfold ret; intros H; inversion H; reflexivity.
Qed.

Lemma respondTo_no_keyword (lower : string) (requestType : jsval) (st : Server Disk) :
  includes lower "calculator" = false -> includes lower "todo" = false ->
  respondTo tpl lower requestType st = (Normal generalReply, st).
Proof.
  intros Hc Ht. unfold respondTo. rewrite Hc, Ht. reflexivity.
Qed.

(** C9: a request without a prompt is answered with status 400 and
    [{error: "Prompt is required"}], and leaves the stored bundle and the disk
    as they were. *)
Theorem ask_without_prompt (requestType : jsval) (st : Server Disk) :
  api_ask tpl (mkAsk JUndefined requestType) st
  = (Normal (mkResponse 400 (ErrorReply "Prompt is required" None)), st).
Proof. reflexivity. Qed.

Lemma answer_state (prompt requestType : jsval) (st st' : Server Disk)
  (out : Completion Response) :
  strictEqStr requestType "build" = false ->
  answer tpl prompt requestType st = (out, st') -> st' = st.
Proof.
  intros Hb. unfold answer, bind, lowerCased.
  destruct prompt as [| | | |text|]; unfold throw, ret;
    try (intros H; inversion H; reflexivity).
  destruct (respondTo tpl (toLowerCase text) requestType st) as [[reply|e] s1] eqn:E;
    (eapply respondTo_keeps_bundle in E; [|exact Hb]); subst s1;
    unfold gets; intros H; inversion H; reflexivity.
Qed.

Lemma onDisk_bundle {A} (op : Disk -> Completion A * Disk) (st st' : Server Disk)
  (out : Completion A) :
  onDisk op st = (out, st') -> projectFiles st' = projectFiles st.
Proof.
  unfold onDisk. destruct (op (disk st)) as [r d]. intros H. inversion H. reflexivity.
Qed.

Lemma ensureDirectory_bundle (dir : string) (st st' : Server Disk) (out : Completion unit) :
  ensureDirectory dir st = (out, st') -> projectFiles st' = projectFiles st.
Proof.
  unfold ensureDirectory, bind, gets. simpl.
  destruct (existsSync dir (disk st)).
  - unfold ret. intros H. inversion H. reflexivity.
  - apply onDisk_bundle.
Qed.

Lemma writeBundle_bundle (aiGenDir : string) (files : FileBundle) :
  forall (st st' : Server Disk) (out : Completion unit),
    writeBundle aiGenDir files st = (out, st') -> projectFiles st' = projectFiles st.
Proof.
  unfold writeBundle. induction files as [|[filename file] files IH]; intros st st' out.
  - simpl. unfold ret. intros H. inversion H. reflexivity.
  - simpl. unfold bind at 1.
    destruct (onDisk (writeFileSync (join aiGenDir filename) (JStr (FileEntry.content file))) st)
      as [[[]|e] s1] eqn:E; apply onDisk_bundle in E.
    + intros H. apply IH in H. congruence.
    + intros H. inversion H; subst. exact E.
Qed.

(** The calculator build: [files] is bound where it is used, and the global
    is assigned last. *)
Lemma buildCalculator_steps (st : Server Disk) :
  buildCalculator tpl st
  = (ensureDirectory (join cwd "ai-generated") ;;;
     writeBundle (join cwd "ai-generated") (calculatorFiles tpl) ;;;
     setProjectFiles (calculatorFiles tpl) ;;;
     ret calculatorCreated) st.
Proof. reflexivity. Qed.

Lemma buildCalculator_outcome (st : Server Disk) :
  (exists d, buildCalculator tpl st
             = (Normal calculatorCreated, mkServer (Some (calculatorFiles tpl)) d))
  \/ (exists e d, buildCalculator tpl st = (Abrupt e, mkServer (projectFiles st) d)).
Proof.
  rewrite buildCalculator_steps. unfold bind.
  destruct (ensureDirectory (join cwd "ai-generated") st) as [[[]|e] s1] eqn:E1;
    pose proof E1 as H1; apply ensureDirectory_bundle in H1.
  2:{ right. exists e, (disk s1). destruct s1 as [p d]. simpl in *. subst. reflexivity. }
  destruct (writeBundle (join cwd "ai-generated") (calculatorFiles tpl) s1)
    as [[[]|e] s2] eqn:E2; pose proof E2 as H2; apply writeBundle_bundle in H2.
  2:{ right. exists e, (disk s2). destruct s2 as [p d]. simpl in *. subst. congruence. }
  left. exists (disk s2). reflexivity.
Qed.

Lemma buildTodo_outcome (st : Server Disk) :
  exists e d, buildTodo tpl st = (Abrupt e, mkServer (Some (todoFiles tpl)) d).
Proof.
  unfold buildTodo, setProjectFiles, modify, ensureDirectory, gets, onDisk, resolve,
    bind, ret, throw. simpl.
  destruct (existsSync (join cwd "ai-generated") (disk st)).
  - simpl. do 2 eexists. reflexivity.
  - simpl. destruct (mkdirSync (join cwd "ai-generated") (disk st)) as [[[]|e] d]; simpl;
      do 2 eexists; reflexivity.
Qed.

(** The handler on a prompt that is a non-empty string. *)
Lemma api_ask_string (req : AskRequest) (text : string) (st : Server Disk) :
  prompt req = JStr text -> text <> "" ->
  api_ask tpl req st
  = match respondTo tpl (toLowerCase text) (requestTypeOf req) st with
    | (Normal reply, s1) =>
        (Normal (mkResponse 200
           (AskReply (if reply =? "" then emptyReplyFallback else reply) true "local"
              (strictEqStr (requestTypeOf req) "plan")
              (if strictEqStr (requestTypeOf req) "plan"
               then Some (planFor (toLowerCase text)) else None)
              (storedOrEmpty (projectFiles s1))
              (0 <? List.length (keys (storedOrEmpty (projectFiles s1))))%nat)), s1)
    | (Abrupt _, s1) =>
        (Normal (mkResponse 500 (ErrorReply "Internal server error" (Some false))), s1)
    end.
Proof.
  intros Hp Hne. unfold api_ask, tryCatch, answer, bind, lowerCased. rewrite Hp. simpl.
  destruct (String.eqb_spec text ""); [contradiction|]. simpl.
  unfold ret at 1.
  destruct (respondTo tpl (toLowerCase text) (requestTypeOf req) st) as [[reply|e] s1];
    reflexivity.
Qed.

Lemma api_ask_state (req : AskRequest) (st st' : Server Disk) (out : Completion Response) :
  buildRequest req = false -> api_ask tpl req st = (out, st') -> st' = st.
Proof.
  intros Hb Hrun.
  destruct (api_ask_cases req st) as [[_ H]|[(r & s1 & Ha & H)|(e & s1 & Ha & H)]];
    rewrite H in Hrun; inversion Hrun; subst; [reflexivity| |];
    eapply answer_state; eassumption.
Qed.

Lemma serveAll_idle (later : list AskRequest) (st : Server Disk) :
  Forall (fun request => buildRequest request = false) later ->
  serveAll tpl later st = st.
Proof.
  intros H. revert st. induction H as [|req later Hreq _ IH]; intros st; [reflexivity|].
  simpl. destruct (api_ask tpl req st) as [out s1] eqn:E.
  eapply api_ask_state in E; [|exact Hreq]. subst s1. apply IH.
Qed.

(** C5: the [files] member of every successful reply is the bundle held by
    the global [projectFiles] when the reply is sent, and the empty object when
    none is held; a request that is not a build request leaves the global as
    it was; and a prompt without a keyword is answered successfully with the
    bundle stored before it.  The global is assigned by the build requests: a
    calculator build that is answered 200 has stored the calculator bundle
    (one that fails leaves the global as it was), a todo build stores the todo
    bundle before it fails, and a build without keyword stores nothing.  What
    a request has left in the global is what every later successful reply
    carries, until the next build request; so after a successful build a
    prompt without keyword is answered with the files of that build. *)
Theorem ask_files_are_the_stored_bundle
  (req : AskRequest) (st st' : Server Disk) (r : Response) :
  api_ask tpl req st = (Normal r, st') ->
  (status r = 200 -> member_files (body r) = Some (storedOrEmpty (projectFiles st')))
  /\ (status r = 200 -> strictEqStr (requestTypeOf req) "build" = false ->
      projectFiles st' = projectFiles st)
  /\ (forall text, prompt req = JStr text -> text <> "" ->
        includes (toLowerCase text) "calculator" = false ->
        includes (toLowerCase text) "todo" = false ->
        status r = 200
        /\ member_success (body r) = JBool true
        /\ member_files (body r) = Some (storedOrEmpty (projectFiles st)))
  /\ (forall text, prompt req = JStr text -> buildRequest req = true ->
        (includes (toLowerCase text) "calculator" = true ->
           (status r = 200 /\ projectFiles st' = Some (calculatorFiles tpl))
           \/ (status r = 500 /\ projectFiles st' = projectFiles st))
        /\ (includes (toLowerCase text) "calculator" = false ->
            includes (toLowerCase text) "todo" = true ->
            status r = 500 /\ projectFiles st' = Some (todoFiles tpl))
        /\ (includes (toLowerCase text) "calculator" = false ->
            includes (toLowerCase text) "todo" = false ->
            projectFiles st' = projectFiles st))
  /\ (forall later next r' st'',
        Forall (fun request => buildRequest request = false) later ->
        buildRequest next = false ->
        api_ask tpl next (serveAll tpl later st') = (Normal r', st'') ->
        status r' = 200 ->
        member_files (body r') = Some (storedOrEmpty (projectFiles st')))
  /\ (forall text later text',
        prompt req = JStr text -> buildRequest req = true ->
        includes (toLowerCase text) "calculator" = true -> status r = 200 ->
        Forall (fun request => buildRequest request = false) later ->
        text' <> "" ->
        includes (toLowerCase text') "calculator" = false ->
        includes (toLowerCase text') "todo" = false ->
        exists r',
          api_ask tpl (mkAsk (JStr text') JUndefined) (serveAll tpl later st')
          = (Normal r', st')
          /\ status r' = 200
          /\ member_files (body r') = Some (calculatorFiles tpl)).
Proof.
  intros Hrun.
  assert (Hfiles : forall q s s' a, api_ask tpl q s = (Normal a, s') -> status a = 200 ->
                     member_files (body a) = Some (storedOrEmpty (projectFiles s'))).
  { intros q s s' a Hq Hok. apply (api_ask_success _ _ Hq) in Hok.
    apply answer_normal in Hok. destruct Hok as (text & reply & _ & _ & ->). reflexivity. }
  assert (Hplain : forall text s, text <> "" ->
            includes (toLowerCase text) "calculator" = false ->
            includes (toLowerCase text) "todo" = false ->
            forall q, prompt q = JStr text ->
            exists a, api_ask tpl q s = (Normal a, s) /\ status a = 200
                      /\ member_success (body a) = JBool true
                      /\ member_files (body a) = Some (storedOrEmpty (projectFiles s))).
  { intros text s Hne Hc Ht q Hq. rewrite (@api_ask_string q text s Hq Hne).
    rewrite respondTo_no_keyword by assumption. eexists. split; [reflexivity|].
    simpl. auto. }
  assert (Hbuild : forall text, prompt req = JStr text -> buildRequest req = true ->
            includes (toLowerCase text) "calculator" = true ->
            (status r = 200 /\ projectFiles st' = Some (calculatorFiles tpl))
            \/ (status r = 500 /\ projectFiles st' = projectFiles st)).
  { intros text Hp Hb Hc.
    assert (Hne : text <> "") by (intros ->; discriminate Hc).
    rewrite (@api_ask_string req text st Hp Hne) in Hrun.
    unfold buildRequest in Hb. unfold respondTo in Hrun. rewrite Hc, Hb in Hrun.
    destruct (buildCalculator_outcome st) as [(d & H)|(e & d & H)]; rewrite H in Hrun;
      inversion Hrun; subst; simpl; auto. }
  split; [exact (Hfiles _ _ _ _ Hrun)|].
  split.
  { intros Hok Hb. apply (api_ask_success _ _ Hrun) in Hok.
    apply answer_normal in Hok. destruct Hok as (text & reply & _ & Hr & _).
    eapply respondTo_keeps_bundle in Hr; [|exact Hb]. subst. reflexivity. }
  split.
  { intros text Hp Hne Hc Ht.
    destruct (Hplain text st Hne Hc Ht req Hp) as (a & Ha & Hs & Hy & Hf).
    rewrite Ha in Hrun. inversion Hrun; subst. auto. }
  split.
  { intros text Hp Hb. split; [exact (Hbuild text Hp Hb)|]. split.
    - intros Hc Ht.
      assert (Hne : text <> "") by (intros ->; discriminate Ht).
      rewrite (@api_ask_string req text st Hp Hne) in Hrun.
      unfold buildRequest in Hb. unfold respondTo in Hrun. rewrite Hc, Ht, Hb in Hrun.
      destruct (buildTodo_outcome st) as (e & d & H). rewrite H in Hrun.
      inversion Hrun; subst. simpl. auto.
    - intros Hc Ht. destruct (String.eqb_spec text "") as [->|Hne].
      + unfold api_ask in Hrun. rewrite Hp in Hrun. simpl in Hrun. unfold ret in Hrun.
        inversion Hrun; subst. reflexivity.
      + destruct (Hplain text st Hne Hc Ht req Hp) as (a & Ha & _).
        rewrite Ha in Hrun. inversion Hrun; subst. reflexivity. }
  split.
  { intros later next r' st'' Hlater Hnext Hnextrun Hok.
    rewrite (@serveAll_idle later st' Hlater) in Hnextrun.
    pose proof (@api_ask_state _ _ _ _ Hnext Hnextrun) as Hsame. subst st''.
    exact (Hfiles _ _ _ _ Hnextrun Hok). }
  intros text later text' Hp Hb Hc Hok Hlater Hne' Hc' Ht'.
  rewrite (@serveAll_idle later st' Hlater).
  destruct (Hplain text' st' Hne' Hc' Ht' (mkAsk (JStr text') JUndefined) eq_refl)
    as (a & Ha & Hs & _ & Hf).
  exists a. split; [exact Ha|]. split; [exact Hs|].
  destruct (Hbuild text Hp Hb Hc) as [[_ Hstored]|[H500 _]]; [|congruence].
  rewrite Hf, Hstored. reflexivity.
Qed.

(** C1 fails on the code: a build request whose prompt has the todo keyword
    (and not the calculator keyword, which is tested first) stores the todo
    bundle in the global and then stops on the unbound identifier [files]; the
    handler answers with status 500 and [{error, success: false}], and no
    file has been written. *)
Theorem todo_build_is_an_internal_error (text : string) (st : Server Disk) :
  includes (toLowerCase text) "calculator" = false ->
  includes (toLowerCase text) "todo" = true ->
  exists d,
    api_ask tpl (mkAsk (JStr text) (JStr "build")) st
    = (Normal (mkResponse 500 (ErrorReply "Internal server error" (Some false))),
       mkServer (Some (todoFiles tpl)) d)
    /\ (d = disk st \/ d = snd (mkdirSync (join cwd "ai-generated") (disk st))).
Proof.
  intros Hc Ht.
  assert (Hne : text <> "") by (intros ->; discriminate Ht).
  unfold api_ask, tryCatch, answer, bind, lowerCased. simpl.
  destruct (String.eqb_spec text ""); [contradiction|]. simpl.
  unfold ret at 1. unfold respondTo. rewrite Hc, Ht. simpl.
  unfold buildTodo, setProjectFiles, modify, ensureDirectory, gets, onDisk, resolve,
    bind, ret, throw.
  simpl.
  destruct (existsSync (join cwd "ai-generated") (disk st)).
  - simpl. exists (disk st). auto.
  - simpl.
    destruct (mkdirSync (join cwd "ai-generated") (disk st)) as [[[]|e] d]; simpl;
      exists d; (split; [reflexivity|right; reflexivity]).
Qed.

End AskProperties.

Lemma ask_files_are_the_stored_bundle_witness :
  let build := mkAsk (JStr "Build a calculator") (JStr "build") in
  let built := snd (api_ask sampleTemplates build freshServer) in
  projectFiles freshServer = None
  /\ projectFiles built = Some (calculatorFiles sampleTemplates)
  /\ exists r',
       api_ask sampleTemplates (mkAsk (JStr "draw me a sheep") JUndefined)
         (serveAll sampleTemplates [mkAsk (JStr "a todo list?") (JStr "plan")] built)
       = (Normal r', built)
       /\ status r' = 200
       /\ member_files (body r') = Some (calculatorFiles sampleTemplates).
Proof.
  cbv zeta. split; [reflexivity|]. split; [vm_compute; reflexivity|].
  apply (@ask_files_are_the_stored_bundle MemDisk memPlatform sampleTemplates
           (mkAsk (JStr "Build a calculator") (JStr "build")) freshServer
           (snd (api_ask sampleTemplates (mkAsk (JStr "Build a calculator") (JStr "build"))
                   freshServer))
           (mkResponse 200
              (AskReply calculatorCreated true "local" false None
                 (calculatorFiles sampleTemplates) true)))
    with (text := "Build a calculator").
  - vm_compute. reflexivity.
  - reflexivity.
  - reflexivity.
  - vm_compute. reflexivity.
  - reflexivity.
  - repeat constructor.
  - discriminate.
  - vm_compute. reflexivity.
  - vm_compute. reflexivity.
Defined.

Lemma todo_build_is_an_internal_error_witness :
  exists d,
    api_ask sampleTemplates (mkAsk (JStr "Build me a TODO list") (JStr "build")) freshServer
    = (Normal (mkResponse 500 (ErrorReply "Internal server error" (Some false))),
       mkServer (Some (todoFiles sampleTemplates)) d)
    /\ (d = disk freshServer
        \/ d = snd (mkdirSync (join cwd "ai-generated") (disk freshServer))).
Proof.
  apply (todo_build_is_an_internal_error sampleTemplates "Build me a TODO list" freshServer);
    vm_compute; reflexivity.
Defined.

(** ** The [/api/files/create] handler *)

Section CreateProperties.

Context {Disk : Type} {platform : Platform Disk}.

(** When the file-system part ends normally, the file name is a string and
    the path is [ai-generated/<fileName>] below the working directory. *)
Lemma createFile_path (fileName content : jsval) (st st' : Server Disk) (filePath : string) :
  createFile fileName content st = (Normal filePath, st') ->
  exists name, fileName = JStr name /\ filePath = join (join cwd "ai-generated") name.
Proof.
  unfold createFile, bind, pathJoin.
  destruct (ensureDirectory (join cwd "ai-generated") st) as [[[]|e] s1]; [|discriminate].
  destruct fileName as [| | | |name|]; unfold throw, ret; try discriminate.
  destruct (ensureDirectory (dirname (join (join cwd "ai-generated") name)) s1)
    as [[[]|e] s2]; [|discriminate].
  destruct (onDisk (writeFileSync (join (join cwd "ai-generated") name) content) s2)
    as [[[]|e] s3]; [|discriminate].
  intros H. inversion H; subst. exists name. auto.
Qed.

Lemma files_create_invalid (req : CreateRequest) (st : Server Disk) :
  truthy (fileName req) = false \/ content req = JUndefined ->
  files_create req st
  = (Normal (mkResponse 400 (ErrorReply "fileName and content are required" None)), st).
Proof.
  unfold files_create, tryCatch.
  intros [H|H]; rewrite H; simpl; [reflexivity|].
  destruct (truthy (fileName req)); reflexivity.
Qed.

Lemma files_create_valid (req : CreateRequest) (st : Server Disk) :
  truthy (fileName req) = true -> content req <> JUndefined ->
  files_create req st
  = match createFile (fileName req) (content req) st with
    | (Normal filePath, st') =>
        (Normal (mkResponse 200 (CreateReply true (fileName req) filePath)), st')
    | (Abrupt _, st') =>
        (Normal (mkResponse 500 (ErrorReply "Failed to create file" None)), st')
    end.
Proof.
  intros Hname Hcontent. unfold files_create, tryCatch, bind.
  rewrite Hname.
  assert (Hu : isUndefined (content req) = false)
    by (destruct (content req); try reflexivity; contradiction).
  rewrite Hu. simpl.
  destruct (createFile (fileName req) (content req) st) as [[filePath|e] s1]; reflexivity.
Qed.

(** C8, as the code has it by design: the handler always answers; the status
    is 400 exactly when [fileName] is falsy (absent, [null], empty, [false] or
    [0]) or [content] is absent; it is 200, with
    [{success: true, fileName, path}], exactly when the request passes that
    test and creating the directories and writing the file end normally; and
    it is 500 exactly when the request passes the test and one of those steps
    throws. *)
Theorem files_create_by_design (req : CreateRequest) (st : Server Disk) :
  exists r st',
    files_create req st = (Normal r, st')
    /\ (status r = 400 <-> truthy (fileName req) = false \/ content req = JUndefined)
    /\ (status r = 400 -> st' = st)
    /\ (status r = 200 <->
        truthy (fileName req) = true /\ content req <> JUndefined
        /\ exists filePath,
             createFile (fileName req) (content req) st = (Normal filePath, st')
             /\ body r = CreateReply true (fileName req) filePath)
    /\ (status r = 500 <->
        truthy (fileName req) = true /\ content req <> JUndefined
        /\ exists e, createFile (fileName req) (content req) st = (Abrupt e, st')).
Proof.
  assert (Hdec : (truthy (fileName req) = false \/ content req = JUndefined)
                 \/ (truthy (fileName req) = true /\ content req <> JUndefined)).
  { destruct (truthy (fileName req)); [|auto].
    destruct (content req); auto; right; split; auto; discriminate. }
  destruct Hdec as [Hbad|[Hname Hcontent]].
  - rewrite (files_create_invalid _ st Hbad). do 2 eexists. split; [reflexivity|]. simpl.
    split; [tauto|]. split; [reflexivity|].
    split; (split; [discriminate|]).
    + intros (H1 & H2 & _). destruct Hbad; congruence.
    + intros (H1 & H2 & _). destruct Hbad; congruence.
  - rewrite (files_create_valid _ st Hname Hcontent).
    destruct (createFile (fileName req) (content req) st) as [[filePath|e] s1];
      do 2 eexists; (split; [reflexivity|]); simpl.
    + split; [split; [discriminate|intros [H|H]; congruence]|].
      split; [discriminate|].
      split; split.
      * intros _. repeat split; auto. exists filePath. auto.
      * reflexivity.
      * discriminate.
      * intros (_ & _ & e & H). discriminate H.
    + split; [split; [discriminate|intros [H|H]; congruence]|].
      split; [discriminate|].
      split; split.
      * discriminate.
      * intros (_ & _ & p & H & _). discriminate H.
      * intros _. repeat split; auto. exists e. reflexivity.
      * reflexivity.
Qed.

End CreateProperties.

(** C8 as stated fails: a request whose [fileName] is the empty string has
    both members and is answered with status 400. *)
Lemma files_create_counterexample :
  let req := mkCreate (JStr "") (JStr "<p>Hello</p>") JUndefined in
  exists r st',
    files_create req freshServer = (Normal r, st')
    /\ ~ (status r = 400 <-> fileName req = JUndefined \/ content req = JUndefined).
Proof.
  cbv zeta. do 2 eexists. split; [vm_compute; reflexivity|].
  simpl. intros [H _]. destruct (H eq_refl); discriminate.
Qed.

(** ** The [/api/files/list] handler *)


























(** ** The client: what every operation preserves *)

Lemma evolves_refl (s : Ui) : evolves s s.
Proof.
  split; [exists []; rewrite app_nil_r; reflexivity|]. split; auto.
Qed.

Lemma evolves_trans (s1 s2 s3 : Ui) : evolves s1 s2 -> evolves s2 s3 -> evolves s1 s3.
Proof.
  intros ([a1 H1] & T1 & L1) ([a2 H2] & T2 & L2).
  split; [exists (a1 ++ a2)%list; rewrite H2, H1, app_assoc; reflexivity|].
  split; [auto|lia].
Qed.

Lemma keeps_ret (A : Type) (a : A) : keeps (ret a).
Proof. intros s. apply evolves_refl. Qed.

Lemma keeps_throw (A : Type) (e : JsError) : keeps (@throw Ui A e).
Proof. intros s. apply evolves_refl. Qed.

Lemma keeps_gets (A : Type) (f : Ui -> A) : keeps (gets f).
Proof. intros s. apply evolves_refl. Qed.

Lemma keeps_bind (A B : Type) (m : M Ui A) (k : A -> M Ui B) :
  keeps m -> (forall a, keeps (k a)) -> keeps (bind m k).
Proof.
  intros Hm Hk s. unfold bind. specialize (Hm s).
  destruct (m s) as [[a|e] s1]; simpl in *; [|exact Hm].
  eapply evolves_trans; [exact Hm|apply Hk].
Qed.

Lemma keeps_tryCatch (A : Type) (m : M Ui A) (h : JsError -> M Ui A) :
  keeps m -> (forall e, keeps (h e)) -> keeps (tryCatch m h).
Proof.
  intros Hm Hh s. unfold tryCatch. specialize (Hm s).
  destruct (m s) as [[a|e] s1]; simpl in *; [exact Hm|].
  eapply evolves_trans; [exact Hm|apply Hh].
Qed.

Lemma keeps_tryFinally (A : Type) (m : M Ui A) (f : M Ui unit) :
  keeps m -> keeps f -> keeps (tryFinally m f).
Proof.
  intros Hm Hf s. unfold tryFinally. specialize (Hm s).
  destruct (m s) as [r s1]; simpl in *.
  eapply evolves_trans; [exact Hm|apply Hf].
Qed.

Lemma keeps_forEach (A : Type) (l : list A) (body : A -> M Ui unit) :
  (forall a, keeps (body a)) -> keeps (forEach l body).
Proof.
  intros Hb. induction l as [|a l IH]; simpl.
  - apply keeps_ret.
  - apply keeps_bind; [apply Hb|intros _; exact IH].
Qed.

(** A state update that leaves the log and the token objects alone. *)
Lemma keeps_modify (f : Ui -> Ui) :
  (forall s, messages (f s) = messages s /\ tokens (f s) = tokens s) ->
  keeps (modify f).
Proof.
  intros Hf s. unfold modify. simpl. destruct (Hf s) as [Hm Ht].
  split; [exists []; rewrite Hm, app_nil_r; reflexivity|].
  rewrite Ht. split; auto.
Qed.

Lemma cancelledAt_fresh (heap : list bool) :
  cancelledAt (List.length heap) (heap ++ [false]) = false.
Proof.
  unfold cancelledAt. rewrite app_nth2 by lia. rewrite Nat.sub_diag. reflexivity.
Qed.

Lemma cancelledAt_old (heap extra : list bool) (t : nat) :
  t < List.length heap -> cancelledAt t (heap ++ extra) = cancelledAt t heap.
Proof. intros H. unfold cancelledAt. apply app_nth1. exact H. Qed.

Lemma cancelledAt_inside (heap : list bool) (t : nat) :
  cancelledAt t heap = true -> t < List.length heap.
Proof.
  unfold cancelledAt. intros H.
  destruct (le_lt_dec (List.length heap) t) as [Hge|]; [|assumption].
  rewrite nth_overflow in H by exact Hge. discriminate.
Qed.

Lemma markCancelled_length (t : nat) (heap : list bool) :
  List.length (markCancelled t heap) = List.length heap.
Proof.
  revert t. induction heap as [|b heap IH]; intros [|t]; simpl; auto.
Qed.

Lemma markCancelled_at (heap : list bool) (t u : nat) :
  cancelledAt u (markCancelled t heap)
  = if (u =? t)%nat then (u <? List.length heap)%nat else cancelledAt u heap.
Proof.
  unfold cancelledAt. revert t u.
  induction heap as [|b heap IH]; intros t u; simpl.
  - destruct t, u; simpl; try reflexivity; destruct (u =? t)%nat; reflexivity.
  - destruct t as [|t], u as [|u]; simpl; try reflexivity.
    rewrite IH. reflexivity.
Qed.

Section ClientInvariant.

Variable env : Env.

Ltac quiet_update :=
  apply keeps_modify; intros [m iv il cs lc gm gc ea ct tk ev aw]; split; reflexivity.

Lemma keeps_appendMessage (m : ChatMessage) : keeps (appendMessage m).
Proof.
  intros [ms iv il cs lc gm gc ea ct tk ev aw]. unfold evolves. simpl.
  split; [exists [m]; reflexivity|]. split; auto.
Qed.

Lemma keeps_emit (e : Event) : keeps (emit e).
Proof. unfold emit. quiet_update. Qed.

Lemma keeps_setLiveCoding (f : LiveCodingState -> LiveCodingState) :
  keeps (setLiveCoding f).
Proof.
  unfold setLiveCoding.
  apply keeps_bind; [apply keeps_gets|intros prev].
  apply keeps_bind; [quiet_update|intros _; apply keeps_emit].
Qed.

Lemma keeps_createCancelToken : keeps createCancelToken.
Proof.
  intros [ms iv il cs lc gm gc ea ct tk ev aw]. unfold evolves. simpl.
  split; [exists []; rewrite app_nil_r; reflexivity|]. split.
  - intros t Ht. rewrite cancelledAt_old; [exact Ht|].
    apply cancelledAt_inside. exact Ht.
  - rewrite length_app. lia.
Qed.

Lemma keeps_cancel (token : nat) : keeps (cancel token).
Proof.
  intros [ms iv il cs lc gm gc ea ct tk ev aw]. unfold evolves. simpl.
  split; [exists []; rewrite app_nil_r; reflexivity|]. split.
  - intros t Ht. rewrite markCancelled_at.
    destruct (t =? token)%nat; [|exact Ht].
    apply Nat.ltb_lt. apply cancelledAt_inside. exact Ht.
  - rewrite markCancelled_length. lia.
Qed.

Ltac keeps_step :=
  first
    [ simple apply keeps_ret | simple apply keeps_throw | simple apply keeps_gets
    | simple apply keeps_emit | simple apply keeps_setLiveCoding
    | simple apply keeps_appendMessage
    | simple apply keeps_createCancelToken | simple apply keeps_cancel
    | match goal with H : _ |- keeps _ => solve [simple apply H] end
    | simple apply keeps_bind; [|intros ?]
    | simple apply keeps_tryCatch; [|intros ?]
    | simple apply keeps_tryFinally
    | simple apply keeps_forEach; intros ?
    | match goal with
      | |- keeps (if ?b then _ else _) => destruct b
      | |- keeps (match ?x with _ => _ end) => destruct x
      end
    | quiet_update ].

Lemma keeps_optConsoleLog (message kind : string) : keeps (optConsoleLog env message kind).
Proof. unfold optConsoleLog. repeat keeps_step. Qed.

Lemma keeps_callConsoleLog (message kind : string) : keeps (callConsoleLog env message kind).
Proof. unfold callConsoleLog. repeat keeps_step. Qed.

Lemma keeps_notifyFileGenerated (fileName code language : string) :
  keeps (notifyFileGenerated env fileName code language).
Proof. unfold notifyFileGenerated. repeat keeps_step. Qed.

Lemma keeps_handleCancel : keeps (handleCancel env).
Proof.
  pose proof keeps_optConsoleLog.
  unfold handleCancel, setCancelToken, setIsLoading, setCurrentStage.
  repeat keeps_step.
Qed.

Lemma keeps_await : keeps (await env).
Proof.
  pose proof keeps_handleCancel.
  unfold await. repeat keeps_step.
Qed.

Lemma keeps_simulateTyping (code fileName language : string) :
  keeps (simulateTyping env code fileName language).
Proof.
  pose proof keeps_await.
  unfold simulateTyping. repeat keeps_step.
Qed.

Lemma keeps_saveProject (prompt : string) (filesCreated codeBlocks : list string) :
  keeps (saveProject env prompt filesCreated codeBlocks).
Proof.
  pose proof keeps_await. pose proof keeps_optConsoleLog.
  unfold saveProject. repeat keeps_step.
Qed.

Lemma keeps_typeBlocks (announce : bool) (token : nat) (blocks : list string) :
  forall i filesCreated, keeps (typeBlocks env announce token i blocks filesCreated).
Proof.
  pose proof keeps_simulateTyping. pose proof keeps_callConsoleLog.
  pose proof keeps_notifyFileGenerated.
  induction blocks as [|block rest IH]; intros i filesCreated; simpl.
  - apply keeps_ret.
  - unfold cancelled. repeat keeps_step.
Qed.

Lemma keeps_post (endpoint prompt : string) : keeps (post env endpoint prompt).
Proof.
  pose proof keeps_await.
  unfold post. repeat keeps_step.
Qed.

Lemma keeps_generateFromServer (userInput : string) (token : nat) :
  keeps (generateFromServer env userInput token).
Proof.
  pose proof keeps_post. pose proof keeps_typeBlocks. pose proof keeps_saveProject.
  pose proof keeps_callConsoleLog.
  unfold generateFromServer, dateNow, setGenerationComplete, setIsGenerationMode.
  repeat keeps_step.
Qed.

Lemma keeps_generateLocally (userInput : string) (token : nat) :
  keeps (generateLocally env userInput token).
Proof.
  pose proof keeps_typeBlocks. pose proof keeps_callConsoleLog.
  unfold generateLocally, dateNow.
  repeat keeps_step.
Qed.

Lemma keeps_handleFileGeneration (userInput : string) (token : nat) :
  keeps (handleFileGeneration env userInput token).
Proof.
  pose proof keeps_await. pose proof keeps_generateFromServer.
  pose proof keeps_generateLocally.
  unfold handleFileGeneration, setCurrentStage, cancelled.
  repeat keeps_step.
Qed.

Lemma keeps_beginAIResponse : keeps beginAIResponse.
Proof.
  unfold beginAIResponse, setIsLoading, setCurrentStage, setCancelToken.
  repeat keeps_step.
Qed.

Lemma keeps_handleAIResponse (userInput : string) : keeps (handleAIResponse env userInput).
Proof.
  pose proof keeps_beginAIResponse. pose proof keeps_handleFileGeneration.
  pose proof keeps_post. pose proof keeps_optConsoleLog.
  unfold handleAIResponse, dateNow, setErrorAlerts, setIsLoading, setCurrentStage,
    setCancelToken.
  repeat keeps_step.
Qed.

Lemma keeps_handleSubmit (inputText : option string) : keeps (handleSubmit env inputText).
Proof.
  pose proof keeps_handleAIResponse.
  unfold handleSubmit, dateNow, setInputValue.
  repeat keeps_step.
Qed.

Lemma evolves_perform (a : Action) (s : Ui) : evolves s (perform env a s).
Proof.
  destruct a as [text|inputText|]; simpl.
  - destruct s. unfold evolves. simpl.
    split; [exists []; rewrite app_nil_r; reflexivity|]. split; auto.
  - apply keeps_handleSubmit.
  - apply keeps_handleCancel.
Qed.

Lemma evolves_performAll (actions : list Action) :
  forall s, evolves s (performAll env actions s).
Proof.
  unfold performAll.
  induction actions as [|a actions IH]; intros s; simpl.
  - apply evolves_refl.
  - eapply evolves_trans; [apply evolves_perform|apply IH].
Qed.

End ClientInvariant.

(** ** The end-to-end scenario "build me a todo app" *)

Lemma await_quiet (env : Env) (s : Ui) :
  cancelDuring env (awaits s) = false -> await env s = (Normal tt, set_awaits S s).
Proof.
  intros H. unfold await, bind, gets, modify. rewrite H. reflexivity.
Qed.

Lemma todoIntro_has_no_block : matchCodeBlocks todoIntro = [].
Proof. vm_compute. reflexivity. Qed.

Arguments matchCodeBlocks : simpl never.

Section TodoChat.

Variable env : Env.
Hypothesis quiet : forall k, cancelDuring env k = false.
Variable checkpoint : jsval.
Hypothesis reply : fetch env "/api/ask" "build me a todo app" = Responded true (Some (mkData (JStr todoIntro) checkpoint)).

Lemma post_quiet (s : Ui) :
  post env "/api/ask" "build me a todo app" s
  = (Normal (mkData (JStr todoIntro) checkpoint), set_awaits S (set_awaits S s)).
Proof.
  unfold post, bind. rewrite (await_quiet _ _ (quiet _)). rewrite reply. simpl.
  rewrite (await_quiet _ _ (quiet _)). reflexivity.
Qed.

Lemma generateFromServer_todo (token : nat) (s : Ui) :
  generateFromServer env "build me a todo app" token s
  = (Normal tt,
     set_messages (fun prev => prev ++ [aiMessage (now env (S (S (awaits s)))) todoIntro [] []])%list
       (set_awaits S (set_awaits S s))).
Proof.
  unfold generateFromServer, bind. rewrite post_quiet. simpl.
  rewrite todoIntro_has_no_block. simpl.
  destruct s; reflexivity.
Qed.

Lemma handleFileGeneration_todo (token : nat) (s : Ui) :
  cancelledAt token (tokens s) = false ->
  exists s',
    handleFileGeneration env "build me a todo app" token s = (Normal tt, s')
    /\ messages s' = (messages s ++ [aiMessage (now env (5 + awaits s)) todoIntro [] []])%list.
Proof.
  intros Hlive. unfold handleFileGeneration.
  destruct s as [ms iv il cs lc gm gc ea ct tk ev aw]. simpl in Hlive.
  unfold bind, setCurrentStage, setLiveCoding, modify, gets, emit, cancelled, tryCatch. simpl.
  rewrite (await_quiet _ _ (quiet _)). simpl. rewrite Hlive.
  rewrite (await_quiet _ _ (quiet _)). simpl. rewrite Hlive.
  rewrite (await_quiet _ _ (quiet _)). simpl. rewrite Hlive.
  rewrite generateFromServer_todo. simpl.
  eexists. split; reflexivity.
Qed.

Lemma handleSubmit_todo (s : Ui) :
  isLoading s = false -> isGenerationMode s = true ->
  messages (snd (handleSubmit env (Some "build me a todo app") s))
  = (messages s
     ++ [ChatMessage.mk (showNat (now env (awaits s))) user "build me a todo app"
           (now env (awaits s)) normal None;
         aiMessage (now env (5 + awaits s)) todoIntro [] []])%list.
Proof.
  intros Hidle Hmode.
  destruct s as [ms iv il cs lc gm gc ea ct tk ev aw]. simpl in Hidle, Hmode. subst il gm.
  unfold handleSubmit, handleAIResponse, tryFinally, tryCatch, bind. simpl.

  match goal with
  | |- context [handleFileGeneration env _ ?t ?s0] =>
      destruct (@handleFileGeneration_todo t s0) as (s' & Hrun & Hlog);
        [simpl; apply cancelledAt_fresh|]
  end.
  rewrite Hrun. simpl.
  destruct s'. simpl in *. rewrite Hlog. rewrite <- app_assoc. reflexivity.
Qed.
End TodoChat.

(** C4, as the code has it by design: the request is answered with status
    200 and [success: true]; without a request type no bundle is built, so the
    [files] member is the bundle already stored in the process (the empty
    object in a fresh process) and the server state is unchanged; the
    [showBuildButton] member is present and [false]; and the client, when the
    user does not cancel, appends the user's message and then one message
    carrying the reply text, of type [normal] and without metadata. *)
Theorem todo_chat_by_design (Disk : Type) (platform : Platform Disk) (tpl : Templates)
  (st : Server Disk) (env : Env) (s : Ui) :
  let text := "build me a todo app" in
  let req := mkAsk (JStr text) JUndefined in
  (forall k, cancelDuring env k = false) ->
  fetch env "/api/ask" text = toFetchOutcome (fst (api_ask tpl req st)) ->
  isLoading s = false ->
  isGenerationMode s = true ->
  exists r,
    api_ask tpl req st = (Normal r, st)
    /\ status r = 200
    /\ member_success (body r) = JBool true
    /\ member_files (body r) = Some (storedOrEmpty (projectFiles st))
    /\ member_showBuildButton (body r) = JBool false
    /\ messages (snd (handleSubmit env (Some text) s))
       = (messages s
          ++ [ChatMessage.mk (showNat (now env (awaits s))) user text
                (now env (awaits s)) normal None;
              ChatMessage.mk (showNat (now env (5 + awaits s))) ai todoIntro
                (now env (5 + awaits s)) normal None])%list.
Proof.
  intros text req Hquiet Hfetch Hidle Hmode.
  assert (Hserver : api_ask tpl req st
                    = (Normal (mkResponse 200
                                 (AskReply todoIntro true "local" false None
                                    (storedOrEmpty (projectFiles st))
                                    (0 <? List.length (keys (storedOrEmpty (projectFiles st))))%nat)),
                       st)) by reflexivity.
  rewrite Hserver in Hfetch. simpl in Hfetch.
  eexists. split; [exact Hserver|]. simpl.
  repeat (split; [reflexivity|]).
  eapply handleSubmit_todo; [exact Hquiet|exact Hfetch|exact Hidle|exact Hmode].
Qed.


Lemma todo_chat_by_design_witness :
  exists r,
    api_ask sampleTemplates (mkAsk (JStr "build me a todo app") JUndefined) freshServer
    = (Normal r, freshServer)
    /\ status r = 200
    /\ member_success (body r) = JBool true
    /\ member_files (body r) = Some []
    /\ member_showBuildButton (body r) = JBool false
    /\ messages (snd (handleSubmit (envWith neverCancel askFreshServer)
                        (Some "build me a todo app") (initialUi 0)))
       = (messages (initialUi 0)
          ++ [ChatMessage.mk "1000" user "build me a todo app" 1000 normal None;
              ChatMessage.mk "1005" ai todoIntro 1005 normal None])%list.
Proof.
  apply (@todo_chat_by_design MemDisk memPlatform sampleTemplates freshServer
           (envWith neverCancel askFreshServer) (initialUi 0)).
  - intros k. reflexivity.
  - reflexivity.
  - reflexivity.
  - reflexivity.
Defined.

(** C4 as stated fails: in a fresh process the reply to "build me a todo app"
    has no file, its [showBuildButton] member is [false], and no message of
    the log has metadata. *)
Lemma todo_chat_counterexample :
  exists r st',
    api_ask sampleTemplates (mkAsk (JStr "build me a todo app") JUndefined) freshServer
    = (Normal r, st')
    /\ member_files (body r) = Some []
    /\ member_showBuildButton (body r) = JBool false
    /\ Forall (fun m => ChatMessage.metadata m = None)
         (messages (snd (handleSubmit (envWith neverCancel askFreshServer)
                           (Some "build me a todo app") (initialUi 0))))
    /\ ~ todoChatClaim r
           (messages (snd (handleSubmit (envWith neverCancel askFreshServer)
                             (Some "build me a todo app") (initialUi 0)))).
Proof.
  do 2 eexists. split; [vm_compute; reflexivity|].
  split; [reflexivity|]. split; [reflexivity|].
  split; [vm_compute; repeat constructor|].
  intros (_ & Hbutton & _). discriminate Hbutton.
Qed.

(** ** Cancellation *)

(** Once the token is cancelled, the loop over the code blocks types nothing
    more: it returns the files made so far and leaves the state as it is. *)
Lemma typeBlocks_cancelled (env : Env) (announce : bool) (token i : nat)
  (blocks filesCreated : list string) (s : Ui) :
  cancelledAt token (tokens s) = true ->
  typeBlocks env announce token i blocks filesCreated s = (Normal filesCreated, s).
Proof.
  intros H. destruct blocks as [|block rest]; [reflexivity|].
  simpl. unfold bind, cancelled, gets. rewrite H. reflexivity.
Qed.

(** A cancellation seen at the first stage boundary ends the generation
    without a message. *)
Lemma cancelled_at_stage_boundary (env : Env) (userInput : string) (token : nat) (s : Ui) :
  cancelToken s = Some token ->
  token < List.length (tokens s) ->
  cancelDuring env (awaits s) = true ->
  messages (snd (handleFileGeneration env userInput token s)) = messages s.
Proof.
  intros Hcurrent Hvalid Hclick.
  destruct s as [ms iv il cs lc gm gc ea ct tk ev aw]. simpl in *. subst ct.
  unfold handleFileGeneration, bind, setCurrentStage, setLiveCoding, cancelled, gets,
    modify, emit, await. simpl.
  unfold bind, gets, modify. simpl. rewrite Hclick.
  unfold handleCancel, bind, gets, cancel, setCancelToken, setIsLoading, setCurrentStage,
    setLiveCoding, optConsoleLog, emit, modify, ret. simpl.
  assert (Hset : cancelledAt token (markCancelled token tk) = true).
  { rewrite markCancelled_at, Nat.eqb_refl. apply Nat.ltb_lt. exact Hvalid. }
  destruct (onConsoleLog_given env); simpl; rewrite Hset; reflexivity.
Qed.

(** Whatever the user does and whenever cancellations arrive, the messages
    already in the log stay where they are. *)
Lemma log_is_append_only (env : Env) (actions : list Action) (s : Ui) :
  exists added, messages (performAll env actions s) = (messages s ++ added)%list.
Proof. destruct (evolves_performAll env actions s) as (H & _). exact H. Qed.

(** C2 fails on the code: the user cancels while the request to [/api/ask]
    is pending, that is after the last stage check and before the check at the
    first file boundary; the reply holds one code block.  The check at the
    file boundary sees the token cancelled and leaves the loop, no file is
    typed, and the handler goes on to append the chat message of the
    generation. *)
Theorem cancel_before_file_boundary_still_appends :
  let env := envWith (cancelAt 3) codeReply in
  let after := snd (handleSubmit env (Some "build me an app") (initialUi 0)) in
  tokens after = [true]
  /\ In (ConsoleLog "⏹️ Generation cancelled" "info") (events after)
  /\ (forall fileName code language,
        ~ In (FileGenerated fileName code language) (events after))
  /\ messages after
     = (messages (initialUi 0)
        ++ [ChatMessage.mk "1000" user "build me an app" 1000 normal None;
            ChatMessage.mk "1005" ai (fence ++ nl ++ "hello" ++ fence) 1005 code None])%list.
Proof.
  cbv zeta. split; [vm_compute; reflexivity|].
  split; [vm_compute; tauto|].
  split; [|vm_compute; reflexivity].
  intros fileName code language Hin. vm_compute in Hin.
  repeat (destruct Hin as [Hin|Hin]; [discriminate Hin|]). exact Hin.
Qed.

(* ===================================================================== *)
(** * Further properties of the code *)
(* ===================================================================== *)

(** ** Stage progress ([useProgress]) *)

Lemma sumDurations_from (stages : list GenerationStage) (start : nat) :
  fold_left (fun sum stage => sum + duration stage) stages start
  = start + sumDurations stages.
Proof.
  unfold sumDurations. revert start.
  induction stages as [|st rest IH]; intros start; simpl; [lia|].
  rewrite IH, (IH (duration st)). lia.
Qed.

Lemma sumDurations_cons (st : GenerationStage) (rest : list GenerationStage) :
  sumDurations (st :: rest) = duration st + sumDurations rest.
Proof. unfold sumDurations at 1. simpl. apply sumDurations_from. Qed.

Lemma sumDurations_firstn_le (stages : list GenerationStage) :
  forall i j, i <= j ->
    sumDurations (firstn i stages) <= sumDurations (firstn j stages)
    /\ sumDurations (firstn j stages) <= sumDurations stages.
Proof.
  induction stages as [|st rest IH]; intros i j Hij.
  - rewrite !firstn_nil. lia.
  - destruct j as [|j].
    + assert (i = 0) by lia. subst. simpl. change (sumDurations []) with 0. lia.
    + destruct i as [|i]; simpl; rewrite ?sumDurations_cons.
      * destruct (IH 0 j) as [_ H]; [lia|]. change (sumDurations []) with 0. lia.
      * destruct (IH i j) as [H1 H2]; [lia|]. lia.
Qed.

Lemma findIndex_nodup (stages : list GenerationStage) :
  NoDup (map key stages) ->
  forall i stage, nth_error stages i = Some stage ->
    findIndex (fun st => key st =? key stage) stages = Some i.
Proof.
  induction stages as [|st rest IH]; intros Hnd i stage Hi.
  - destruct i; discriminate.
  - simpl in Hnd. inversion Hnd as [|? ? Hnotin Hnd']; subst.
    destruct i as [|i]; simpl in Hi.
    + inversion Hi; subst. simpl. rewrite String.eqb_refl. reflexivity.
    + simpl. destruct (String.eqb_spec (key st) (key stage)) as [Heq|_].
      * exfalso. apply Hnotin. rewrite Heq. apply in_map.
        eapply nth_error_In. exact Hi.
      * rewrite (IH Hnd' i stage Hi). reflexivity.
Qed.

Lemma findIndex_absent (stages : list GenerationStage) (currentStage : string) :
  ~ In currentStage (map key stages) ->
  findIndex (fun st => key st =? currentStage) stages = None.
Proof.
  induction stages as [|st rest IH]; intros Hno; simpl; [reflexivity|].
  destruct (String.eqb_spec (key st) currentStage) as [Heq|_].
  - exfalso. apply Hno. left. exact Heq.
  - rewrite IH; [reflexivity|]. intros H. apply Hno. right. exact H.
Qed.

(** X1 ([useProgress]): for stages with distinct keys and a positive total
    duration, the progress shown for a stage is a percentage between 0 and
    100 that never decreases from a stage to a later one; for a stage key
    that is not in the list the progress is 0. *)
Theorem useProgress_by_stage (stages : list GenerationStage) :
  NoDup (map key stages) ->
  0 < sumDurations stages ->
  (forall i j earlier later,
      nth_error stages i = Some earlier ->
      nth_error stages j = Some later ->
      i <= j ->
      exists p q,
        useProgress stages (key earlier) = Some p
        /\ useProgress stages (key later) = Some q
        /\ (0 <= p <= q)%Z /\ (q <= 100)%Z)
  /\ (forall currentStage,
        ~ In currentStage (map key stages) ->
        useProgress stages currentStage = Some 0%Z).
Proof.
  intros Hnd Htotal. split.
  - intros i j earlier later Hi Hj Hij.
    unfold useProgress.
    rewrite (findIndex_nodup _ Hnd _ Hi), (findIndex_nodup _ Hnd _ Hj).
    destruct (Nat.eqb_spec (sumDurations stages) 0) as [H0|_]; [lia|].
    do 2 eexists. split; [reflexivity|]. split; [reflexivity|].
    destruct (sumDurations_firstn_le stages Hij) as [H1 H2].
    split; [split|].
    + unfold roundPercent. apply Z.div_pos; lia.
    + apply roundPercent_mono. exact H1.
    + apply roundPercent_le_100. exact H2.
  - intros currentStage H. unfold useProgress.
    rewrite (findIndex_absent _ _ H). reflexivity.
Qed.

Lemma useProgress_by_stage_witness :
  (exists p q,
      useProgress GENERATION_STAGES "architecture" = Some p
      /\ useProgress GENERATION_STAGES "implementation" = Some q
      /\ (0 <= p <= q)%Z /\ (q <= 100)%Z)
  /\ useProgress GENERATION_STAGES "complete" = Some 0%Z.
Proof.
  assert (Hnd : NoDup (map key GENERATION_STAGES)).
  { simpl. repeat constructor; simpl; intuition discriminate. }
  assert (Htotal : 0 < sumDurations GENERATION_STAGES) by (vm_compute; lia).
  destruct (@useProgress_by_stage GENERATION_STAGES Hnd Htotal) as [Hmono Hunknown].
  split.
  - apply (Hmono 1 3 (mkStage "architecture" "Designing Architecture" 25)
                     (mkStage "implementation" "Implementing Features" 30));
      [reflexivity|reflexivity|lia].
  - apply Hunknown. simpl. intuition discriminate.
Defined.

(** ** The typed content ([simulateTyping]) *)

Lemma append_assoc (a b c : string) : (a ++ b) ++ c = a ++ (b ++ c).
Proof. induction a as [|x a IH]; simpl; [reflexivity|]. rewrite IH. reflexivity. Qed.

Lemma append_empty_r (a : string) : a ++ "" = a.
Proof. induction a as [|x a IH]; simpl; [reflexivity|]. rewrite IH. reflexivity. Qed.

(** Splitting at the line breaks and putting a line break after every line
    gives the text back, with one line break more. *)
Lemma typedText_split (code : string) : typedText (split newline code) = code ++ nl.
Proof.
  induction code as [|c code IH]; simpl; [reflexivity|].
  destruct (Ascii.eqb_spec c newline) as [->|_].
  - simpl. rewrite IH. reflexivity.
  - destruct (split newline code) as [|h t] eqn:Hs.
    + exfalso. exact (split_nonempty _ _ Hs).
    + simpl in *. rewrite IH. reflexivity.
Qed.

Lemma typedText_app (xs ys : list string) :
  typedText (xs ++ ys) = typedText xs ++ typedText ys.
Proof.
  induction xs as [|x xs IH]; simpl; [reflexivity|].
  rewrite IH, !append_assoc. reflexivity.
Qed.

Lemma typingLoop_content (total : nat) (lines : list string) :
  forall i currentContent j,
    j < List.length lines ->
    nth j (map fst (typingLoop total i currentContent lines)) ""
    = currentContent ++ typedText (firstn (S j) lines).
Proof.
  induction lines as [|line rest IH]; intros i currentContent j Hj; simpl in Hj; [lia|].
  destruct j as [|j].
  - simpl. reflexivity.
  - cbn [typingLoop map nth fst]. rewrite IH by lia.
    cbn [firstn typedText]. rewrite !append_assoc. reflexivity.
Qed.

Lemma typingLoop_length (total : nat) (lines : list string) :
  forall i currentContent,
    List.length (typingLoop total i currentContent lines) = List.length lines.
Proof.
  induction lines as [|line rest IH]; intros i c; simpl; [reflexivity|].
  rewrite IH. reflexivity.
Qed.

Lemma last_is_nth (A : Type) (l : list A) (d : A) :
  last l d = nth (List.length l - 1) l d.
Proof.
  induction l as [|x l IH]; [reflexivity|].
  destruct l as [|y l]; [reflexivity|].
  change (last (x :: y :: l) d) with (last (y :: l) d). rewrite IH.
  simpl. rewrite Nat.sub_0_r. reflexivity.
Qed.

(** X2 ([simulateTyping], loop body): the content shown after line j is the
    first j + 1 lines of the code, each followed by a line break; there is
    one such content per line, and the last one is the whole code followed by
    one line break. *)
Theorem typed_content_grows_to_code (code : string) :
  let lines := split newline code in
  let contents := map fst (typingFrames code) in
  List.length contents = lineCount code
  /\ (forall j, j < lineCount code -> nth j contents "" = typedText (firstn (S j) lines))
  /\ last contents "" = code ++ nl.
Proof.
  cbv zeta. unfold typingFrames, lineCount.
  pose proof (lineCount_positive code) as Hpos. unfold lineCount in Hpos.
  set (lines := split newline code) in *.
  assert (Hlen : List.length (map fst (typingLoop (List.length lines) 0 "" lines))
                 = List.length lines)
    by (rewrite length_map; apply typingLoop_length).
  split; [exact Hlen|]. split.
  - intros j Hj. rewrite typingLoop_content by exact Hj. reflexivity.
  - rewrite last_is_nth, Hlen, typingLoop_content by lia.
    replace (S (List.length lines - 1)) with (List.length lines) by lia.
    rewrite firstn_all. simpl. unfold lines. apply typedText_split.
Qed.

(** ** [simulateTyping] as it runs *)

Lemma handleCancel_effect (env : Env) (s : Ui) :
  exists s',
    handleCancel env s = (Normal tt, s')
    /\ awaits s' = awaits s
    /\ messages s' = messages s
    /\ liveCoding s' = deactivate (liveCoding s).
Proof.
  destruct s as [ms iv il cs lc gm gc ea ct tk ev aw].
  unfold handleCancel, bind, gets, cancel, setCancelToken, setIsLoading, setCurrentStage,
    setLiveCoding, optConsoleLog, emit, modify, ret. simpl.
  destruct ct; simpl; destruct (onConsoleLog_given env); simpl; eexists; repeat split.
Qed.

Lemma await_effect (env : Env) (s : Ui) :
  exists s',
    await env s = (Normal tt, s')
    /\ awaits s' = S (awaits s)
    /\ messages s' = messages s
    /\ (liveCoding s' = liveCoding s \/ liveCoding s' = deactivate (liveCoding s)).
Proof.
  unfold await, bind, gets, modify. simpl.
  destruct (cancelDuring env (awaits s)).
  - destruct (handleCancel_effect env (set_awaits S s)) as (s' & Hrun & Ha & Hm & Hl).
    exists s'. rewrite Hrun. destruct s; simpl in *. auto.
  - eexists. split; [reflexivity|]. destruct s; simpl. auto.
Qed.

Lemma sameFile_deactivate (a : LiveCodingState) : sameFile (deactivate a) a.
Proof. destruct a. repeat split. Qed.

Lemma typing_loop_runs (body : string * Z -> M Ui unit) (frames : list (string * Z)) :
  typesOneLine body ->
  forall s,
    exists s',
      forEach frames body s = (Normal tt, s')
      /\ awaits s' = awaits s + List.length frames
      /\ messages s' = messages s
      /\ sameFile (liveCoding s') (liveCoding s).
Proof.
  intros Hbody.
  induction frames as [|frame rest IH]; intros s.
  - exists s. simpl. repeat split; lia.
  - cbn [forEach]. unfold bind.
    destruct (Hbody frame s) as (s1 & Hrun & Ha & Hm & F1 & F2 & F3 & F4). rewrite Hrun.
    destruct (IH s1) as (s2 & Hrun2 & Ha2 & Hm2 & G1 & G2 & G3 & G4).
    exists s2. split; [exact Hrun2|]. split; [simpl; lia|]. split; [congruence|].
    repeat split; congruence.
Qed.

Lemma typing_body_types_one_line (env : Env) :
  typesOneLine (fun '(currentContent, progress) =>
    setLiveCoding (fun prev =>
      LiveCodingState.mk (LiveCodingState.fileName prev) currentContent
        (LiveCodingState.isActive prev) (LiveCodingState.language prev) progress
        (LiveCodingState.complexity prev) (LiveCodingState.patterns prev)) ;;;
    await env).
Proof.
  intros [currentContent progress] s.
  unfold setLiveCoding, bind, gets, modify, emit.
  destruct s as [ms iv il cs lc gm gc ea ct tk ev aw]. simpl.
  match goal with
  | |- context [await env ?s0] =>
      destruct (await_effect env s0) as (s1 & Hrun & Ha & Hm & Hl); rewrite Hrun
  end.
  exists s1. simpl in *. split; [reflexivity|]. split; [exact Ha|]. split; [exact Hm|].
  destruct Hl as [Hl|Hl]; rewrite Hl; destruct lc; repeat split.
Qed.

(** X3 ([simulateTyping]): whatever the user clicks meanwhile, the typing
    of a file ends normally, after exactly one suspension per line, with the
    live-coding cell holding this file name and language, the whole code,
    progress 100 and the inactive flag, and with the message log untouched. *)
Theorem simulateTyping_ends_complete (env : Env) (code fileName language : string) (s : Ui) :
  exists s',
    simulateTyping env code fileName language s = (Normal tt, s')
    /\ liveCoding s'
       = LiveCodingState.mk fileName code false language 100%Z
           (complexityOf (split newline code)) typingPatterns
    /\ awaits s' = awaits s + lineCount code
    /\ messages s' = messages s.
Proof.
  unfold simulateTyping.
  set (frames := typingLoop _ 0 "" _).
  set (body := fun '(currentContent, progress) => _).
  set (opening := fun prev : LiveCodingState => _).
  set (closing := fun prev : LiveCodingState => _).
  assert (Hopen : exists s0, setLiveCoding opening s = (Normal tt, s0)
                    /\ awaits s0 = awaits s /\ messages s0 = messages s
                    /\ liveCoding s0 = opening (liveCoding s)).
  { destruct s. eexists. split; [reflexivity|]. simpl. auto. }
  destruct Hopen as (s0 & Hrun0 & Ha0 & Hm0 & Hl0).
  destruct (typing_loop_runs frames (typing_body_types_one_line env) s0)
    as (s1 & Hrun1 & Ha1 & Hm1 & F1 & F2 & F3 & F4).
  fold body in Hrun1.
  unfold bind. rewrite Hrun0, Hrun1.
  destruct s1 as [ms1 iv1 il1 cs1 lc1 gm1 gc1 ea1 ct1 tk1 ev1 aw1].
  eexists. split; [reflexivity|]. simpl in *.
  rewrite Hl0 in F1, F2, F3, F4. unfold opening in F1, F2, F3, F4. simpl in *.
  unfold closing. rewrite F1, F2, F3, F4.
  split; [reflexivity|]. split; [|congruence].
  rewrite Ha1, Ha0. unfold frames. rewrite typingLoop_length. reflexivity.
Qed.

(** ** What a generation never does *)

Lemma preserves_ret (R : Ui -> Ui -> Prop) (C : Cumulative R) (A : Type) (a : A) :
  preserves R (ret a).
Proof. intros s. apply cumulative_refl. Qed.

Lemma preserves_throw (R : Ui -> Ui -> Prop) (C : Cumulative R) (A : Type) (e : JsError) :
  preserves R (@throw Ui A e).
Proof. intros s. apply cumulative_refl. Qed.

Lemma preserves_gets (R : Ui -> Ui -> Prop) (C : Cumulative R) (A : Type) (f : Ui -> A) :
  preserves R (gets f).
Proof. intros s. apply cumulative_refl. Qed.

Lemma preserves_bind (R : Ui -> Ui -> Prop) (C : Cumulative R) (A B : Type)
  (m : M Ui A) (k : A -> M Ui B) :
  preserves R m -> (forall a, preserves R (k a)) -> preserves R (bind m k).
Proof.
  intros Hm Hk s. unfold bind. specialize (Hm s).
  destruct (m s) as [[a|e] s1]; simpl in *; [|exact Hm].
  eapply cumulative_trans; [exact Hm|apply Hk].
Qed.

Lemma preserves_tryCatch (R : Ui -> Ui -> Prop) (C : Cumulative R) (A : Type)
  (m : M Ui A) (h : JsError -> M Ui A) :
  preserves R m -> (forall e, preserves R (h e)) -> preserves R (tryCatch m h).
Proof.
  intros Hm Hh s. unfold tryCatch. specialize (Hm s).
  destruct (m s) as [[a|e] s1]; simpl in *; [exact Hm|].
  eapply cumulative_trans; [exact Hm|apply Hh].
Qed.

Lemma preserves_tryFinally (R : Ui -> Ui -> Prop) (C : Cumulative R) (A : Type)
  (m : M Ui A) (f : M Ui unit) :
  preserves R m -> preserves R f -> preserves R (tryFinally m f).
Proof.
  intros Hm Hf s. unfold tryFinally. specialize (Hm s).
  destruct (m s) as [r s1]; simpl in *.
  eapply cumulative_trans; [exact Hm|apply Hf].
Qed.

Lemma preserves_forEach (R : Ui -> Ui -> Prop) (C : Cumulative R) (A : Type)
  (l : list A) (body : A -> M Ui unit) :
  (forall a, preserves R (body a)) -> preserves R (forEach l body).
Proof.
  intros Hb. induction l as [|a l IH]; simpl.
  - apply (preserves_ret C).
  - apply (preserves_bind C); [apply Hb|intros _; exact IH].
Qed.

(** The loop over the code blocks never reaches a file: at a block it either
    sees the token cancelled and stops, or throws on the call of
    [generateFileName]; in both cases the state is left as it is. *)
Lemma typeBlocks_outcome (env : Env) (announce : bool) (token i : nat)
  (blocks filesCreated : list string) (s : Ui) :
  typeBlocks env announce token i blocks filesCreated s
  = (match blocks with
     | [] => Normal filesCreated
     | _ :: _ =>
         if cancelledAt token (tokens s) then Normal filesCreated
         else Abrupt (TypeError "language.toLowerCase is not a function")
     end, s).
Proof.
  destruct blocks as [|block rest]; [reflexivity|].
  simpl. unfold bind, cancelled, gets.
  destruct (cancelledAt token (tokens s)); reflexivity.
Qed.

Lemma preserves_after_typeBlocks (R : Ui -> Ui -> Prop) (C : Cumulative R) (A : Type)
  (env : Env) (announce : bool) (token : nat) (blocks : list string)
  (k : list string -> M Ui A) :
  preserves R (k []) ->
  preserves R (bind (typeBlocks env announce token 0 blocks []) k).
Proof.
  intros Hk s. unfold bind. rewrite typeBlocks_outcome.
  destruct blocks as [|block rest]; [apply Hk|].
  destruct (cancelledAt token (tokens s)); [apply Hk|apply cumulative_refl].
Qed.

Lemma sameLog_cumulative : Cumulative sameLog.
Proof.
  split; unfold sameLog; intros; congruence.
Qed.

Lemma staysInGeneration_cumulative : Cumulative staysInGeneration.
Proof.
  split.
  - intros s. split; [reflexivity|]. split; [reflexivity|].
    exists []. rewrite app_nil_r. split; [reflexivity|constructor].
  - intros s1 s2 s3 (M1 & C1 & a1 & E1 & Q1) (M2 & C2 & a2 & E2 & Q2).
    split; [congruence|]. split; [congruence|].
    exists (a1 ++ a2)%list. rewrite E2, E1, app_assoc. split; [reflexivity|].
    apply Forall_app. auto.
Qed.

Section NeverGenerates.

Variable env : Env.

Ltac still_update :=
  intros [? ? ? ? ? ? ? ? ? ? ? ?]; unfold modify, staysInGeneration; simpl;
  split; [reflexivity|]; split; [reflexivity|];
  exists []; rewrite app_nil_r; split; [reflexivity|constructor].

Lemma still_emit (e : Event) : quietEvent e -> preserves staysInGeneration (emit e).
Proof.
  intros He [? ? ? ? ? ? ? ? ? ? ? ?]. unfold emit, modify, staysInGeneration.
  simpl. split; [reflexivity|]. split; [reflexivity|].
  exists [e]. split; [reflexivity|]. constructor; [exact He|constructor].
Qed.

Ltac still_step :=
  first
    [ simple apply (preserves_ret staysInGeneration_cumulative)
    | simple apply (preserves_throw staysInGeneration_cumulative)
    | simple apply (preserves_gets staysInGeneration_cumulative)
    | simple apply still_emit; exact I
    | match goal with H : _ |- preserves _ _ => solve [simple apply H] end
    | simple apply (preserves_after_typeBlocks staysInGeneration_cumulative)
    | simple apply (preserves_bind staysInGeneration_cumulative); [|intros ?]
    | simple apply (preserves_tryCatch staysInGeneration_cumulative); [|intros ?]
    | simple apply (preserves_tryFinally staysInGeneration_cumulative)
    | simple apply (preserves_forEach staysInGeneration_cumulative); intros ?
    | match goal with
      | |- preserves _ (if ?b then _ else _) => destruct b
      | |- preserves _ (match ?x with _ => _ end) => destruct x
      end
    | still_update ].

Lemma still_setLiveCoding (f : LiveCodingState -> LiveCodingState) :
  preserves staysInGeneration (setLiveCoding f).
Proof. unfold setLiveCoding. repeat still_step. Qed.

Lemma still_appendMessage (m : ChatMessage) : preserves staysInGeneration (appendMessage m).
Proof. unfold appendMessage, setMessages. repeat still_step. Qed.

Lemma still_optConsoleLog (message kind : string) :
  preserves staysInGeneration (optConsoleLog env message kind).
Proof. unfold optConsoleLog. repeat still_step. Qed.

Lemma still_callConsoleLog (message kind : string) :
  preserves staysInGeneration (callConsoleLog env message kind).
Proof. unfold callConsoleLog. repeat still_step. Qed.

Lemma still_handleCancel : preserves staysInGeneration (handleCancel env).
Proof.
  pose proof still_setLiveCoding. pose proof still_optConsoleLog.
  unfold handleCancel, cancel, setCancelToken, setIsLoading, setCurrentStage.
  repeat still_step.
Qed.

Lemma still_await : preserves staysInGeneration (await env).
Proof. pose proof still_handleCancel. unfold await. repeat still_step. Qed.

Lemma still_post (endpoint prompt : string) :
  preserves staysInGeneration (post env endpoint prompt).
Proof. pose proof still_await. unfold post. repeat still_step. Qed.

Lemma still_generateFromServer (userInput : string) (token : nat) :
  preserves staysInGeneration (generateFromServer env userInput token).
Proof.
  pose proof still_post. pose proof still_appendMessage.
  unfold generateFromServer, dateNow.
  repeat still_step.
Qed.

Lemma still_generateLocally (userInput : string) (token : nat) :
  preserves staysInGeneration (generateLocally env userInput token).
Proof.
  pose proof still_callConsoleLog. pose proof still_appendMessage.
  unfold generateLocally, dateNow.
  repeat still_step.
Qed.

Lemma still_handleFileGeneration (userInput : string) (token : nat) :
  preserves staysInGeneration (handleFileGeneration env userInput token).
Proof.
  pose proof still_await. pose proof still_generateFromServer.
  pose proof still_generateLocally. pose proof still_setLiveCoding.
  unfold handleFileGeneration, setCurrentStage, cancelled.
  repeat still_step.
Qed.

Lemma still_handleAIResponse (userInput : string) :
  preserves staysInGeneration (handleAIResponse env userInput).
Proof.
  pose proof still_handleFileGeneration. pose proof still_post.
  pose proof still_optConsoleLog. pose proof still_setLiveCoding.
  unfold handleAIResponse, beginAIResponse, createCancelToken, dateNow, setErrorAlerts,
    setIsLoading, setCurrentStage, setCancelToken.
  repeat still_step.
Qed.

Lemma still_handleSubmit (inputText : option string) :
  preserves staysInGeneration (handleSubmit env inputText).
Proof.
  pose proof still_handleAIResponse. pose proof still_appendMessage.
  unfold handleSubmit, dateNow, setInputValue.
  repeat still_step.
Qed.

End NeverGenerates.

(** X4 ([typeBlocks], the loop of [handleFileGeneration] over the code
    blocks): the loop never names, announces or types a file.  With no
    block, or with the token already cancelled, it returns the list of files
    it was given; otherwise the call [generateFileName(code, i)] throws a
    [TypeError], the index standing where the language is expected.  In every
    case the state is left exactly as it was. *)
Theorem typeBlocks_never_reaches_a_file (env : Env) (announce : bool) (token i : nat)
  (blocks filesCreated : list string) (s : Ui) :
  typeBlocks env announce token i blocks filesCreated s
  = ((if match blocks with [] => true | _ => cancelledAt token (tokens s) end
      then Normal filesCreated
      else Abrupt (TypeError "language.toLowerCase is not a function")),
     s).
Proof.
  rewrite typeBlocks_outcome. destruct blocks; reflexivity.
Qed.

(** X5 (the component as a whole): whatever the user types, submits or
    cancels, and whatever the server answers, [onFileGenerated] is never
    called, no project is saved, and the generation-mode and
    generation-complete flags keep their values. *)
Theorem component_never_generates (env : Env) (actions : list Action) (s : Ui) :
  staysInGeneration s (performAll env actions s).
Proof.
  unfold performAll. revert s.
  induction actions as [|a actions IH]; intros s; simpl.
  - apply (cumulative_refl (Cumulative := staysInGeneration_cumulative)).
  - eapply (cumulative_trans (Cumulative := staysInGeneration_cumulative)); [|apply IH].
    destruct a as [text|inputText|]; simpl.
    + destruct s. unfold staysInGeneration. simpl.
      split; [reflexivity|]. split; [reflexivity|].
      exists []. rewrite app_nil_r. split; [reflexivity|constructor].
    + apply still_handleSubmit.
    + apply still_handleCancel.
Qed.

(** ** The message log across a submit *)

Section LogGrowth.

Variable env : Env.

Ltac log_update :=
  intros [? ? ? ? ? ? ? ? ? ? ? ?]; unfold modify, sameLog; reflexivity.

Ltac log_step :=
  first
    [ simple apply (preserves_ret sameLog_cumulative)
    | simple apply (preserves_throw sameLog_cumulative)
    | simple apply (preserves_gets sameLog_cumulative)
    | match goal with H : _ |- preserves _ _ => solve [simple apply H] end
    | simple apply (preserves_bind sameLog_cumulative); [|intros ?]
    | simple apply (preserves_tryCatch sameLog_cumulative); [|intros ?]
    | simple apply (preserves_tryFinally sameLog_cumulative)
    | simple apply (preserves_forEach sameLog_cumulative); intros ?
    | match goal with
      | |- preserves _ (if ?b then _ else _) => destruct b
      | |- preserves _ (match ?x with _ => _ end) => destruct x
      end
    | log_update ].

Lemma log_emit (e : Event) : preserves sameLog (emit e).
Proof. unfold emit. repeat log_step. Qed.

Lemma log_setLiveCoding (f : LiveCodingState -> LiveCodingState) :
  preserves sameLog (setLiveCoding f).
Proof. pose proof log_emit. unfold setLiveCoding. repeat log_step. Qed.

Lemma log_optConsoleLog (message kind : string) :
  preserves sameLog (optConsoleLog env message kind).
Proof. pose proof log_emit. unfold optConsoleLog. repeat log_step. Qed.

Lemma log_callConsoleLog (message kind : string) :
  preserves sameLog (callConsoleLog env message kind).
Proof. pose proof log_emit. unfold callConsoleLog. repeat log_step. Qed.

Lemma log_handleCancel : preserves sameLog (handleCancel env).
Proof.
  pose proof log_setLiveCoding. pose proof log_optConsoleLog.
  unfold handleCancel, cancel, setCancelToken, setIsLoading, setCurrentStage.
  repeat log_step.
Qed.

Lemma log_await : preserves sameLog (await env).
Proof. pose proof log_handleCancel. unfold await. repeat log_step. Qed.

Lemma log_post (endpoint prompt : string) : preserves sameLog (post env endpoint prompt).
Proof. pose proof log_await. unfold post. repeat log_step. Qed.

Lemma log_beginAIResponse : preserves sameLog beginAIResponse.
Proof.
  pose proof log_setLiveCoding.
  unfold beginAIResponse, createCancelToken, setIsLoading, setCurrentStage, setCancelToken.
  repeat log_step.
Qed.

Lemma appendsReply_same (s : Ui) : appendsReply s s.
Proof. exists []. rewrite app_nil_r. repeat split; [simpl; lia|constructor]. Qed.

Lemma appendsReply_after (s1 s2 s3 : Ui) :
  sameLog s1 s2 -> appendsReply s2 s3 -> appendsReply s1 s3.
Proof.
  unfold sameLog. intros H12 (reply & H & Hlen & Hall).
  exists reply. rewrite H, H12. auto.
Qed.

Lemma appendsReply_before (s1 s2 s3 : Ui) :
  appendsReply s1 s2 -> sameLog s2 s3 -> appendsReply s1 s3.
Proof.
  unfold sameLog. intros (reply & H & Hlen & Hall) H23.
  exists reply. rewrite H23, H. auto.
Qed.

(** Sequencing a part that leaves the log alone with a part that replies. *)
Lemma replies_bind_after (A B : Type) (m : M Ui A) (k : A -> M Ui B) :
  preserves sameLog m -> (forall a, preserves appendsReply (k a)) ->
  preserves appendsReply (bind m k).
Proof.
  intros Hm Hk s. unfold bind. specialize (Hm s).
  destruct (m s) as [[a|e] s1]; simpl in *.
  - eapply appendsReply_after; [exact Hm|apply Hk].
  - eapply appendsReply_after; [exact Hm|apply appendsReply_same].
Qed.

Lemma replies_bind_before (A B : Type) (m : M Ui A) (k : A -> M Ui B) :
  preserves appendsReply m -> (forall a, preserves sameLog (k a)) ->
  preserves appendsReply (bind m k).
Proof.
  intros Hm Hk s. unfold bind. specialize (Hm s).
  destruct (m s) as [[a|e] s1]; simpl in *; [|exact Hm].
  eapply appendsReply_before; [exact Hm|apply Hk].
Qed.

Lemma replies_ret (A : Type) (a : A) : preserves appendsReply (ret a).
Proof. intros s. apply appendsReply_same. Qed.

(** The end of both branches of [handleFileGeneration]: the message is built
    from an empty list of files. *)
Lemma reply_appended (aiResponse : string) (codeBlocks : list string) (s : Ui) :
  exists m,
    (at_ <- dateNow env ;; appendMessage (aiMessage at_ aiResponse codeBlocks [])) s
    = (Normal tt, set_messages (fun prev => prev ++ [m])%list s)
    /\ plainReply m.
Proof.
  eexists. split; [reflexivity|]. split; reflexivity.
Qed.

Lemma bind_typeBlocks (A : Type) (announce : bool) (token : nat) (blocks : list string)
  (k : list string -> M Ui A) (s : Ui) :
  bind (typeBlocks env announce token 0 blocks []) k s
  = match blocks with
    | [] => k [] s
    | _ :: _ =>
        if cancelledAt token (tokens s) then k [] s
        else (Abrupt (TypeError "language.toLowerCase is not a function"), s)
    end.
Proof.
  unfold bind. rewrite typeBlocks_outcome.
  destruct blocks; [reflexivity|]. destruct (cancelledAt token (tokens s)); reflexivity.
Qed.

Lemma checked_reply (announce : bool) (token : nat) (aiResponse : string) :
  repliesOrThrows
    (filesCreated <- typeBlocks env announce token 0 (matchCodeBlocks aiResponse) [] ;;
     at_ <- dateNow env ;;
     appendMessage (aiMessage at_ aiResponse (matchCodeBlocks aiResponse) filesCreated)).
Proof.
  intros s. rewrite bind_typeBlocks.
  destruct (reply_appended aiResponse (matchCodeBlocks aiResponse) s) as (m & Hrun & Hm).
  assert (Hok : (fst (Normal tt, set_messages (fun prev => prev ++ [m])%list s) = Normal tt
           /\ exists reply,
                messages (snd (Normal tt, set_messages (fun prev => prev ++ [m])%list s))
                = (messages s ++ [reply])%list /\ plainReply reply)).
  { split; [reflexivity|]. exists m. destruct s; simpl. auto. }
  destruct (matchCodeBlocks aiResponse) as [|block rest].
  - right. rewrite Hrun. exact Hok.
  - destruct (cancelledAt token (tokens s)).
    + right. rewrite Hrun. exact Hok.
    + left. eexists. split; reflexivity.
Qed.

Lemma repliesOrThrows_bind (A : Type) (m : M Ui A) (k : A -> M Ui unit) :
  preserves sameLog m -> (forall a, repliesOrThrows (k a)) ->
  repliesOrThrows (bind m k).
Proof.
  intros Hm Hk s. unfold bind. specialize (Hm s). unfold sameLog in Hm.
  destruct (m s) as [[a|e] s1]; simpl in Hm.
  - destruct (Hk a s1) as [(e & He & Hs)|(Hn & reply & Hr & Hp)].
    + left. exists e. split; [exact He|]. unfold sameLog in *. congruence.
    + right. split; [exact Hn|]. exists reply. rewrite Hr, Hm. auto.
  - left. exists e. split; [reflexivity|exact Hm].
Qed.

Lemma repliesOrThrows_throw (e : JsError) : repliesOrThrows (throw e).
Proof. intros s. left. exists e. split; reflexivity. Qed.

Lemma generateLocally_replies (userInput : string) (token : nat) :
  repliesOrThrows (generateLocally env userInput token).
Proof.
  unfold generateLocally.
  apply repliesOrThrows_bind; [apply log_callConsoleLog|intros _].
  apply checked_reply.
Qed.

(** After the reply is appended nothing more happens: the list of files is
    empty. *)
Lemma generateFromServer_tail (token : nat) (aiResponse : string) (userInput : string) (s : Ui) :
  (filesCreated <- typeBlocks env true token 0 (matchCodeBlocks aiResponse) [] ;;
   (match filesCreated with
    | [] => ret tt
    | _ => saveProject env userInput filesCreated (matchCodeBlocks aiResponse)
    end) ;;;
   at_ <- dateNow env ;;
   appendMessage (aiMessage at_ aiResponse (matchCodeBlocks aiResponse) filesCreated) ;;;
   match filesCreated with
   | [] => ret tt
   | _ =>
       setGenerationComplete true ;;;
       setIsGenerationMode false ;;;
       callConsoleLog env ("✅ Generated " ++ showNat (List.length filesCreated)
                           ++ " files successfully!") "success"
   end) s
  = (filesCreated <- typeBlocks env true token 0 (matchCodeBlocks aiResponse) [] ;;
     at_ <- dateNow env ;;
     appendMessage (aiMessage at_ aiResponse (matchCodeBlocks aiResponse) filesCreated)) s.
Proof.
  rewrite !bind_typeBlocks.
  destruct (matchCodeBlocks aiResponse) as [|block rest];
    [|destruct (cancelledAt token (tokens s)); [|reflexivity]];
    destruct s; reflexivity.
Qed.

Lemma generateFromServer_replies (userInput : string) (token : nat) :
  repliesOrThrows (generateFromServer env userInput token).
Proof.
  unfold generateFromServer.
  apply repliesOrThrows_bind; [apply log_post|intros data].
  destruct (data_response data) as [| | | |aiResponse|];
    try apply repliesOrThrows_throw.
  intros s. rewrite generateFromServer_tail. apply checked_reply.
Qed.

Lemma replies_generation (userInput : string) (token : nat) :
  preserves appendsReply
    (tryCatch (generateFromServer env userInput token)
              (fun _ => generateLocally env userInput token)).
Proof.
  intros s. unfold tryCatch.
  destruct (generateFromServer_replies userInput token s) as [(e & He & Hs)|(Hn & reply & Hr & Hp)].
  - destruct (generateFromServer env userInput token s) as [r s1]. simpl in *. subst r.
    destruct (generateLocally_replies userInput token s1)
      as [(e' & He' & Hs')|(Hn' & reply & Hr & Hp)].
    + exists []. unfold sameLog in *. rewrite app_nil_r.
      split; [congruence|]. split; [simpl; lia|constructor].
    + exists [reply]. unfold sameLog in *. rewrite Hr, Hs.
      split; [reflexivity|]. split; [simpl; lia|]. constructor; [exact Hp|constructor].
  - destruct (generateFromServer env userInput token s) as [r s1]. simpl in *. subst r.
    exists [reply]. split; [exact Hr|]. split; [simpl; lia|].
    constructor; [exact Hp|constructor].
Qed.

Ltac reply_step :=
  first
    [ simple apply replies_ret
    | match goal with H : _ |- preserves appendsReply _ => solve [simple apply H] end
    | simple apply replies_bind_after; [solve [repeat log_step]|intros ?]
    | match goal with
      | |- preserves _ (if ?b then _ else _) => destruct b
      end ].

Lemma replies_handleFileGeneration (userInput : string) (token : nat) :
  preserves appendsReply (handleFileGeneration env userInput token).
Proof.
  pose proof log_await. pose proof log_setLiveCoding.
  unfold handleFileGeneration, setCurrentStage, cancelled.
  repeat reply_step.
  apply replies_bind_before; [apply replies_generation|intros _; repeat log_step].
Qed.


Lemma log_chat_branch (userInput : string) :
  preserves sameLog
    (data <- post env (if isAgentMode userInput then "/api/agent/generate" else "/api/ask")
                  userInput ;;
     if truthy (data_checkpoint data)
     then at_ <- dateNow env ;;
          optConsoleLog env ("🎯 Replit Agent Checkpoint: " ++ showNat at_) "success"
     else ret tt).
Proof.
  pose proof log_post. pose proof log_optConsoleLog.
  unfold dateNow. repeat log_step.
Qed.

Lemma log_failure_handler :
  preserves sameLog
    (optConsoleLog env "❌ Failed to process request" "error" ;;;
     setErrorAlerts (fun prev => prev ++ ["Failed to process your request. Please try again."])%list).
Proof. pose proof log_optConsoleLog. unfold setErrorAlerts. repeat log_step. Qed.

Lemma log_finalizer :
  preserves sameLog
    (setIsLoading false ;;; setCurrentStage "" ;;; setLiveCoding deactivate ;;;
     setCancelToken None).
Proof.
  pose proof log_setLiveCoding. unfold setIsLoading, setCurrentStage, setCancelToken.
  repeat log_step.
Qed.

Lemma replies_handleAIResponse (userInput : string) :
  preserves appendsReply (handleAIResponse env userInput).
Proof.
  unfold handleAIResponse.
  apply replies_bind_after; [apply log_beginAIResponse|intros token].
  intros s. unfold tryFinally, tryCatch.
  set (attempt := bind (gets isGenerationMode) _).
  assert (Hattempt : preserves appendsReply attempt).
  { unfold attempt. apply replies_bind_after; [repeat log_step|intros mode].
    destruct (isCodeGenerationRequest userInput && mode).
    - apply replies_handleFileGeneration.
    - intros s0. eapply appendsReply_after; [apply log_chat_branch|apply appendsReply_same]. }
  specialize (Hattempt s).
  destruct (attempt s) as [[[]|e] s1]; simpl in *.
  - eapply appendsReply_before; [exact Hattempt|apply log_finalizer].
  - pose proof (log_failure_handler s1) as Hh.
    match goal with
    | |- context [bind ?m ?k s1] => change (bind m k s1) with
        ((optConsoleLog env "❌ Failed to process request" "error" ;;;
          setErrorAlerts (fun prev => prev ++ ["Failed to process your request. Please try again."])%list) s1)
    end.
    destruct ((optConsoleLog env "❌ Failed to process request" "error" ;;;
               setErrorAlerts (fun prev => prev ++ ["Failed to process your request. Please try again."])%list) s1)
      as [r s2].
    simpl in *.
    eapply appendsReply_before; [|apply log_finalizer].
    eapply appendsReply_before; [exact Hattempt|exact Hh].
Qed.

End LogGrowth.

Lemma handleSubmit_accepts (env : Env) (inputText : option string) (s : Ui) :
  submittedText inputText s <> "" ->
  isLoading s = false ->
  handleSubmit env inputText s
  = handleAIResponse env (submittedText inputText s)
      (set_inputValue ""
         (set_messages (fun prev => prev ++ [userMessage env (submittedText inputText s) s])%list
            s)).
Proof.
  intros Htext Hidle.
  unfold handleSubmit, bind, gets, dateNow, appendMessage, setMessages, setInputValue, modify.
  fold (submittedText inputText s).
  destruct (String.eqb_spec (submittedText inputText s) "") as [|_]; [contradiction|].
  rewrite Hidle. simpl. destruct s; reflexivity.
Qed.

(** X8 ([handleSubmit] with [handleAIResponse] and [handleFileGeneration]):
    for texts in ASCII, an accepted submit appends the user's message and then
    at most one message, which is from the assistant and carries no metadata;
    when the text has no code keyword (or generation mode is off) it appends
    the user's message only, so such a prompt gets no reply in the log. *)
Theorem handleSubmit_log_growth (env : Env) (inputText : option string) (s : Ui) :
  asciiInput inputText s = true ->
  submittedText inputText s <> "" ->
  isLoading s = false ->
  exists reply,
    messages (snd (handleSubmit env inputText s))
    = (messages s ++ userMessage env (submittedText inputText s) s :: reply)%list
    /\ List.length reply <= 1
    /\ Forall plainReply reply
    /\ (isCodeGenerationRequest (submittedText inputText s) = false
        \/ isGenerationMode s = false -> reply = []).
Proof.
  intros _ Htext Hidle. rewrite handleSubmit_accepts by assumption.
  set (text := submittedText inputText s).
  set (s0 := set_inputValue "" _).
  destruct (replies_handleAIResponse env text s0) as (reply & Hr & Hlen & Hall).
  exists reply. split; [|split; [exact Hlen|split; [exact Hall|]]].
  - rewrite Hr. unfold s0. destruct s; simpl. rewrite <- app_assoc. reflexivity.
  - intros Hchat.
    assert (Hsame : messages (snd (handleAIResponse env text s0)) = messages s0).
    { unfold handleAIResponse.
      assert (Hmode : isCodeGenerationRequest text && isGenerationMode s = false).
      { destruct Hchat as [H|H]; rewrite H; [reflexivity|apply andb_false_r]. }
      clear Hr.
      unfold bind at 1.
      pose proof (log_beginAIResponse s0) as Hb. unfold sameLog in Hb.
      assert (Hgm : isGenerationMode (snd (beginAIResponse s0)) = isGenerationMode s).
      { unfold s0. destruct s; reflexivity. }
      destruct (beginAIResponse s0) as [[token|e] s1]; simpl in Hb, Hgm; [|exact Hb].
      unfold tryFinally, tryCatch. unfold bind at 1. unfold gets at 1.
      rewrite Hgm, Hmode.
      pose proof (log_chat_branch env text s1) as Hc. unfold sameLog in Hc.
      destruct (bind (post env _ text) _ s1) as [[[]|e] s2]; simpl in Hc.
      - pose proof (log_finalizer s2) as Hf. unfold sameLog in Hf. simpl in *. congruence.
      - pose proof (log_failure_handler env s2) as Hh. unfold sameLog in Hh.
        match goal with
        | |- context [bind ?m ?k s2] =>
            change (bind m k s2) with
              ((optConsoleLog env "❌ Failed to process request" "error" ;;;
                setErrorAlerts (fun prev => prev ++ ["Failed to process your request. Please try again."])%list) s2) in *
        end.
        destruct ((optConsoleLog env "❌ Failed to process request" "error" ;;;
                   setErrorAlerts (fun prev => prev ++ ["Failed to process your request. Please try again."])%list) s2)
          as [r s3].
        pose proof (log_finalizer s3) as Hf. unfold sameLog in Hf. simpl in *. congruence. }
    rewrite Hr in Hsame.
    apply (f_equal (@List.length ChatMessage)) in Hsame. rewrite length_app in Hsame.
    destruct reply; [reflexivity|simpl in Hsame; lia].
Qed.


Lemma handleSubmit_log_growth_witness :
  exists reply,
    messages (snd (handleSubmit (envWith neverCancel askFreshServer)
                     (Some "hello there") (initialUi 0)))
    = (messages (initialUi 0)
       ++ userMessage (envWith neverCancel askFreshServer) "hello there" (initialUi 0)
       :: reply)%list
    /\ List.length reply <= 1
    /\ Forall plainReply reply
    /\ (isCodeGenerationRequest "hello there" = false
        \/ isGenerationMode (initialUi 0) = false -> reply = []).
Proof.
  apply (@handleSubmit_log_growth (envWith neverCancel askFreshServer)
           (Some "hello there") (initialUi 0)).
  - reflexivity.
  - vm_compute. discriminate.
  - reflexivity.
Defined.

(** ** How an attempt ends *)

Lemma finalizer_effect (s : Ui) :
  exists s',
    (setIsLoading false ;;; setCurrentStage "" ;;; setLiveCoding deactivate ;;;
     setCancelToken None) s = (Normal tt, s')
    /\ isLoading s' = false
    /\ currentStage s' = ""
    /\ cancelToken s' = None
    /\ LiveCodingState.isActive (liveCoding s') = false
    /\ errorAlerts s' = errorAlerts s.
Proof.
  destruct s as [ms iv il cs lc gm gc ea ct tk ev aw]. eexists.
  split; [reflexivity|]. simpl. destruct lc. simpl. auto.
Qed.

Lemma failure_handler_effect (env : Env) (s : Ui) :
  exists s',
    (optConsoleLog env "❌ Failed to process request" "error" ;;;
     setErrorAlerts (fun prev => prev ++ ["Failed to process your request. Please try again."])%list) s
    = (Normal tt, s')
    /\ errorAlerts s'
       = (errorAlerts s ++ ["Failed to process your request. Please try again."])%list.
Proof.
  destruct s as [ms iv il cs lc gm gc ea ct tk ev aw].
  unfold optConsoleLog, bind, emit, setErrorAlerts, modify, ret.
  destruct (onConsoleLog_given env); eexists; split; reflexivity.
Qed.

(** X6 ([handleAIResponse]): an attempt never throws and never leaves the
    component busy.  Whatever the server answers, whether the generation
    fails and whenever the user cancels, it ends normally with the loading
    flag off, the stage cleared, no current token and the live-coding cell
    inactive. *)
Theorem handleAIResponse_always_settles (env : Env) (userInput : string) (s : Ui) :
  exists s',
    handleAIResponse env userInput s = (Normal tt, s')
    /\ isLoading s' = false
    /\ currentStage s' = ""
    /\ cancelToken s' = None
    /\ LiveCodingState.isActive (liveCoding s') = false.
Proof.
  unfold handleAIResponse. unfold bind at 1.
  assert (Hbegin : exists token s0, beginAIResponse s = (Normal token, s0)).
  { destruct s. do 2 eexists. reflexivity. }
  destruct Hbegin as (token & s0 & Hrun). rewrite Hrun.
  unfold tryFinally, tryCatch.
  set (attempt := bind (gets isGenerationMode) _).
  destruct (attempt s0) as [[[]|e] s1].
  - destruct (finalizer_effect s1) as (s' & Hf & H1 & H2 & H3 & H4 & _).
    exists s'. rewrite Hf. simpl. auto.
  - destruct (failure_handler_effect env s1) as (s2 & Hh & _). rewrite Hh.
    destruct (finalizer_effect s2) as (s' & Hf & H1 & H2 & H3 & H4 & _).
    exists s'. rewrite Hf. simpl. auto.
Qed.

(** X9 ([handleCancel]): a click on Cancel ends normally; it clears the
    loading flag, the stage and the current token, leaves the log alone, and
    sets the flag of the current token only: every other token keeps its
    flag, and with no current token no flag changes. *)
Theorem handleCancel_cancels_only_the_current_token (env : Env) (s : Ui) :
  exists s',
    handleCancel env s = (Normal tt, s')
    /\ isLoading s' = false
    /\ currentStage s' = ""
    /\ cancelToken s' = None
    /\ messages s' = messages s
    /\ match cancelToken s with
       | Some token =>
           forall t, cancelledAt t (tokens s')
                     = if (t =? token)%nat then (t <? List.length (tokens s))%nat
                       else cancelledAt t (tokens s)
       | None => tokens s' = tokens s
       end.
Proof.
  destruct s as [ms iv il cs lc gm gc ea ct tk ev aw].
  unfold handleCancel, bind, gets, cancel, setCancelToken, setIsLoading, setCurrentStage,
    setLiveCoding, optConsoleLog, emit, modify, ret. simpl.
  destruct ct as [token|]; simpl; destruct (onConsoleLog_given env); simpl;
    eexists; (split; [reflexivity|]); simpl; repeat (split; [reflexivity|]);
    try reflexivity; intros t; apply markCancelled_at.
Qed.

Lemma await_click (env : Env) (s : Ui) :
  cancelDuring env (awaits s) = true -> await env s = handleCancel env (set_awaits S s).
Proof.
  intros H. unfold await, bind, gets, modify. rewrite H. reflexivity.
Qed.

(** A click on Cancel while this token is the current one. *)
Lemma handleCancel_current (env : Env) (token : nat) (s : Ui) :
  cancelToken s = Some token ->
  token < List.length (tokens s) ->
  exists s',
    handleCancel env s = (Normal tt, s')
    /\ messages s' = messages s
    /\ awaits s' = awaits s
    /\ currentStage s' = ""
    /\ cancelledAt token (tokens s') = true.
Proof.
  intros Hcurrent Hvalid.
  destruct s as [ms iv il cs lc gm gc ea ct tk ev aw]. simpl in *. subst ct.
  unfold handleCancel, bind, gets, cancel, setCancelToken, setIsLoading, setCurrentStage,
    setLiveCoding, optConsoleLog, emit, modify, ret. simpl.
  assert (Hset : cancelledAt token (markCancelled token tk) = true).
  { rewrite markCancelled_at, Nat.eqb_refl. apply Nat.ltb_lt. exact Hvalid. }
  destruct (onConsoleLog_given env); simpl; eexists; (split; [reflexivity|]); simpl; auto.
Qed.

(** A stage boundary of [handleFileGeneration]: the handler waits and then
    reads the token. *)
Lemma boundary_passes (env : Env) (token : nat) (rest : M Ui unit) (s : Ui) :
  cancelDuring env (awaits s) = false ->
  cancelledAt token (tokens s) = false ->
  (await env ;;; stop <- cancelled token ;; if stop then ret tt else rest) s
  = rest (set_awaits S s).
Proof.
  intros Hquiet Hlive.
  unfold bind at 1. rewrite await_quiet by exact Hquiet.
  unfold bind, cancelled, gets.
  replace (cancelledAt token (tokens (set_awaits S s))) with false
    by (destruct s; simpl in *; congruence).
  reflexivity.
Qed.

Lemma boundary_cancelled (env : Env) (token : nat) (rest : M Ui unit) (s : Ui) :
  cancelDuring env (awaits s) = true ->
  cancelToken s = Some token ->
  token < List.length (tokens s) ->
  (await env ;;; stop <- cancelled token ;; if stop then ret tt else rest) s
  = (Normal tt, snd (handleCancel env (set_awaits S s))).
Proof.
  intros Hclick Hcurrent Hvalid.
  unfold bind at 1. rewrite await_click by exact Hclick.
  destruct (@handleCancel_current env token (set_awaits S s))
    as (s' & Hrun & Hm & Ha & Hs & Hflag);
    [destruct s; exact Hcurrent|destruct s; exact Hvalid|].
  rewrite Hrun. unfold bind, cancelled, gets. rewrite Hflag. reflexivity.
Qed.

Lemma stage_shown (stage : string) (next : M Ui unit) (s : Ui) :
  (setCurrentStage stage ;;; next) s = next (set_currentStage stage s).
Proof. reflexivity. Qed.

Lemma loading_shown (next : M Ui unit) (s : Ui) :
  (setLiveCoding loadingFrame ;;; next) s
  = next (set_events (fun ev => (ev ++ [LiveFrame (loadingFrame (liveCoding s))])%list)
            (set_liveCoding (loadingFrame (liveCoding s)) s)).
Proof. destruct s; reflexivity. Qed.

(** A first click during one of the three stage waits. *)
Lemma handleFileGeneration_stops_at_stage (env : Env) (userInput : string)
  (token k : nat) (s : Ui) :
  k < 3 ->
  cancelToken s = Some token ->
  token < List.length (tokens s) ->
  cancelledAt token (tokens s) = false ->
  (forall j, j < k -> cancelDuring env (awaits s + j) = false) ->
  cancelDuring env (awaits s + k) = true ->
  exists s',
    handleFileGeneration env userInput token s = (Normal tt, s')
    /\ messages s' = messages s
    /\ awaits s' = awaits s + S k
    /\ currentStage s' = ""
    /\ cancelledAt token (tokens s') = true.
Proof.
  intros Hk Hcurrent Hvalid Hlive Hquiet Hclick.
  assert (Hend : forall s0,
             cancelToken s0 = Some token -> token < List.length (tokens s0) ->
             messages s0 = messages s -> awaits s0 = awaits s + S k ->
             exists s',
               (Normal tt, snd (handleCancel env s0)) = (Normal tt, s')
               /\ messages s' = messages s
               /\ awaits s' = awaits s + S k
               /\ currentStage s' = ""
               /\ cancelledAt token (tokens s') = true).
  { intros s0 Hc Hv Hm Ha.
    destruct (handleCancel_current env s0 Hc Hv) as (s' & Hrun & Hm' & Ha' & Hs & Hflag).
    exists s'. rewrite Hrun. simpl. split; [reflexivity|]. repeat split; congruence. }
  unfold handleFileGeneration. rewrite stage_shown, loading_shown.
  destruct s as [ms iv il cs lc gm gc ea ct tk ev aw]. simpl in *. subst ct.
  destruct k as [|k].
  - rewrite Nat.add_0_r in Hclick.
    rewrite (@boundary_cancelled env token) by (simpl; auto).
    apply Hend; simpl; auto; lia.
  - pose proof (Hquiet 0 ltac:(lia)) as H0. rewrite Nat.add_0_r in H0.
    rewrite boundary_passes by (simpl; auto).
    rewrite stage_shown.
    destruct k as [|k].
    + rewrite Nat.add_1_r in Hclick.
      rewrite (@boundary_cancelled env token) by (simpl; auto).
      apply Hend; simpl; auto; lia.
    + pose proof (Hquiet 1 ltac:(lia)) as H1. rewrite Nat.add_1_r in H1.
      rewrite boundary_passes by (simpl; auto).
      rewrite stage_shown.
      assert (k = 0) by lia. subst k.
      replace (aw + 2) with (S (S aw)) in Hclick by lia.
      rewrite (@boundary_cancelled env token) by (simpl; auto).
      apply Hend; simpl; auto; lia.
Qed.

(** X10 ([handleFileGeneration], stage boundaries): when the first click on
    Cancel arrives during the wait of stage k + 1 (k = 0, 1, 2), the handler
    returns right after that wait: it has suspended k + 1 times, so the
    request to the server is never sent, the token is cancelled, the stage is
    cleared and the message log is as it was. *)
Theorem cancelled_at_a_stage_sends_nothing (env : Env) (userInput : string)
  (token k : nat) (s : Ui) :
  k < 3 ->
  cancelToken s = Some token ->
  token < List.length (tokens s) ->
  cancelledAt token (tokens s) = false ->
  (forall j, j < k -> cancelDuring env (awaits s + j) = false) ->
  cancelDuring env (awaits s + k) = true ->
  exists s',
    handleFileGeneration env userInput token s = (Normal tt, s')
    /\ messages s' = messages s
    /\ awaits s' = awaits s + S k
    /\ currentStage s' = ""
    /\ cancelledAt token (tokens s') = true.
Proof.
  intros Hk Hcurrent Hvalid Hlive Hquiet Hclick.
  destruct (@handleFileGeneration_stops_at_stage env userInput token k s
              Hk Hcurrent Hvalid Hlive Hquiet Hclick) as (s' & Hrun & Hlog & Hwaits & Hstage & Hflag).
  exists s'. repeat split; assumption.
Qed.

Lemma cancelled_at_a_stage_sends_nothing_witness :
  let env := envWith (cancelAt 1) askFreshServer in
  let s := snd (beginAIResponse (initialUi 0)) in
  exists s',
    handleFileGeneration env "build me a todo app" 0 s = (Normal tt, s')
    /\ messages s' = messages s
    /\ awaits s' = awaits s + 2
    /\ currentStage s' = ""
    /\ cancelledAt 0 (tokens s') = true.
Proof.
  cbv zeta.
  apply (@cancelled_at_a_stage_sends_nothing (envWith (cancelAt 1) askFreshServer)
           "build me a todo app" 0 1 (snd (beginAIResponse (initialUi 0)))).
  - lia.
  - reflexivity.
  - vm_compute. lia.
  - reflexivity.
  - intros j Hj. assert (j = 0) by lia. subst j. reflexivity.
  - reflexivity.
Defined.

(** ** Keyword detection ([isCodeGenerationRequest]) *)

Lemma toLowerCase_app (a b : string) :
  toLowerCase (a ++ b) = toLowerCase a ++ toLowerCase b.
Proof. induction a as [|c a IH]; simpl; [reflexivity|]. rewrite IH. reflexivity. Qed.

Lemma prefix_app (k rest : string) : String.prefix k (k ++ rest) = true.
Proof.
  induction k as [|c k IH]; simpl.
  - destruct rest; reflexivity.
  - destruct (ascii_dec c c) as [_|Hne]; [exact IH|contradiction].
Qed.

Lemma includes_unfold (s sub : string) :
  includes s sub =
  if String.prefix sub s then true
  else match s with "" => false | String _ s' => includes s' sub end.
Proof. destruct s; reflexivity. Qed.

Lemma includes_inside (before k after : string) : includes (before ++ k ++ after) k = true.
Proof.
  induction before as [|c before IH].
  - rewrite includes_unfold. simpl append. rewrite prefix_app. reflexivity.
  - rewrite includes_unfold.
    destruct (String.prefix k (String c before ++ k ++ after)); [reflexivity|exact IH].
Qed.

Lemma trimStart_keeps (before rest : string) (c : ascii) :
  isSpace c = false ->
  exists before', trimStart (before ++ String c rest) = before' ++ String c rest.
Proof.
  intros Hc. induction before as [|x before IH]; simpl.
  - rewrite Hc. exists "". reflexivity.
  - destruct (isSpace x).
    + exact IH.
    + exists (String x before). reflexivity.
Qed.

Lemma trimEnd_keeps (before t : string) :
  trimEnd t <> "" -> trimEnd (before ++ t) = before ++ trimEnd t.
Proof.
  intros Ht. induction before as [|x before IH]; simpl; [reflexivity|].
  rewrite IH. destruct (before ++ trimEnd t) eqn:E; [|reflexivity].
  exfalso. destruct before; simpl in E; [contradiction|discriminate].
Qed.

Lemma trimEnd_solid (k after : string) :
  solid k = true -> exists after', trimEnd (k ++ after) = k ++ after'.
Proof.
  unfold solid. intros H. apply andb_true_iff in H. destruct H as [Hne Hk].
  induction k as [|c k IH]; [discriminate Hne|].
  simpl in Hk. apply andb_true_iff in Hk. destruct Hk as [Hc Hk].
  apply negb_true_iff in Hc. simpl.
  destruct k as [|d k].
  - simpl. destruct (trimEnd after) as [|y t]; rewrite ?Hc.
    + exists "". reflexivity.
    + exists (String y t). reflexivity.
  - destruct (IH eq_refl Hk) as [after' Hafter]. rewrite Hafter. simpl.
    exists after'. reflexivity.
Qed.

Lemma trim_keeps (before k after : string) :
  solid k = true ->
  exists before' after', trim (before ++ k ++ after) = before' ++ k ++ after'.
Proof.
  intros Hk. unfold trim.
  assert (Hhead : exists c rest, k = String c rest /\ isSpace c = false).
  { unfold solid in Hk. destruct k as [|c rest]; [discriminate Hk|].
    simpl in Hk. exists c, rest. split; [reflexivity|].
    destruct (isSpace c); [discriminate Hk|reflexivity]. }
  destruct Hhead as (c & rest & Hkeq & Hc).
  assert (Hstart : exists before', trimStart (before ++ k ++ after) = before' ++ k ++ after).
  { rewrite Hkeq. simpl append. apply trimStart_keeps. exact Hc. }
  destruct Hstart as [before' Hstart]. rewrite Hstart.
  destruct (@trimEnd_solid k after Hk) as [after' Hafter].
  exists before', after'. rewrite trimEnd_keeps; rewrite Hafter; [reflexivity|].
  rewrite Hkeq. discriminate.
Qed.

Lemma codeKeywords_solid : forallb solid codeKeywords = true.
Proof. vm_compute. reflexivity. Qed.

Lemma prefix_split (k s : string) :
  String.prefix k s = true -> exists rest, s = k ++ rest.
Proof.
  revert s. induction k as [|c k IH]; intros s H.
  - exists s. reflexivity.
  - destruct s as [|d s]; [discriminate H|]. simpl in H.
    destruct (ascii_dec c d) as [->|]; [|discriminate H].
    destruct (IH s H) as [rest Hs]. exists rest. simpl. rewrite <- Hs. reflexivity.
Qed.

Lemma includes_split (s k : string) :
  includes s k = true -> exists before after, s = before ++ k ++ after.
Proof.
  induction s as [|c s IH]; rewrite includes_unfold.
  - destruct (String.prefix k "") eqn:E; [|discriminate].
    intros _. destruct k; [|discriminate E]. exists "", "". reflexivity.
  - destruct (String.prefix k (String c s)) eqn:E.
    + intros _. destruct (prefix_split _ _ E) as [after Hs].
      exists "", after. exact Hs.
    + intros H. destruct (IH H) as (before & after & Hs).
      exists (String c before), after. simpl. rewrite Hs. reflexivity.
Qed.

Lemma trimStart_suffix (s : string) : exists before, s = before ++ trimStart s.
Proof.
  induction s as [|c s IH]; simpl.
  - exists "". reflexivity.
  - destruct (isSpace c).
    + destruct IH as [before Hs]. exists (String c before). simpl. rewrite <- Hs. reflexivity.
    + exists "". reflexivity.
Qed.

Lemma trimEnd_prefix (s : string) : exists after, s = trimEnd s ++ after.
Proof.
  induction s as [|c s IH]; simpl.
  - exists "". reflexivity.
  - destruct IH as [after Hs]. destruct (trimEnd s) as [|d t].
    + simpl in Hs. destruct (isSpace c).
      * exists (String c s). reflexivity.
      * exists s. reflexivity.
    + exists after. simpl. simpl in Hs. rewrite <- Hs. reflexivity.
Qed.

(** X11.  On an ASCII input [isCodeGenerationRequest] is exactly a
    substring test on the lower-cased input: it holds precisely when one of
    the keywords occurs somewhere in it, whatever the letter case and the
    surrounding text. *)
Theorem isCodeGenerationRequest_is_a_substring_test (input : string) :
  isAscii input = true ->
  (isCodeGenerationRequest input = true <->
   exists keyword before after,
     In keyword codeKeywords /\ toLowerCase input = before ++ keyword ++ after).
Proof.
  intros _.
  unfold isCodeGenerationRequest. rewrite existsb_exists. split.
  - intros (keyword & Hin & Hinc).
    destruct (includes_split _ _ Hinc) as (before & after & Htrim).
    unfold trim in Htrim.
    destruct (trimStart_suffix (toLowerCase input)) as [lead Hlead].
    destruct (trimEnd_prefix (trimStart (toLowerCase input))) as [trail Htrail].
    exists keyword, (lead ++ before), (after ++ trail). split; [exact Hin|].
    rewrite Hlead at 1. rewrite Htrail at 1. rewrite Htrim.
    rewrite !append_assoc. reflexivity.
  - intros (keyword & before & after & Hin & Hlower).
    exists keyword. split; [exact Hin|].
    assert (Hsolid : solid keyword = true).
    { pose proof codeKeywords_solid as H. rewrite forallb_forall in H. apply H. exact Hin. }
    destruct (@trim_keeps before keyword after Hsolid) as (before' & after' & Htrim).
    rewrite Hlower, Htrim. apply includes_inside.
Qed.

Lemma isCodeGenerationRequest_is_a_substring_test_witness :
  isCodeGenerationRequest "  Please BUILD it " = true <->
  exists keyword before after,
    In keyword codeKeywords
    /\ toLowerCase "  Please BUILD it " = before ++ keyword ++ after.
Proof.
  apply (isCodeGenerationRequest_is_a_substring_test "  Please BUILD it ").
  reflexivity.
Defined.

(** ** Code blocks of a reply ([matchCodeBlocks], [codeOfBlock]) *)

Lemma length_app (a b : string) :
  String.length (a ++ b) = (String.length a + String.length b)%nat.
Proof. induction a as [|c a IH]; simpl; [reflexivity|]. rewrite IH. reflexivity. Qed.

Lemma prefix_cons (a b : ascii) (s t : string) :
  String.prefix (String a s) (String b t) =
  if ascii_dec a b then String.prefix s t else false.
Proof. reflexivity. Qed.

Lemma differs (c : ascii) : Ascii.eqb c backtick = false -> backtick <> c.
Proof. intros Hc <-. rewrite Ascii.eqb_refl in Hc. discriminate. Qed.

Lemma prefix_fence_other (c : ascii) (t : string) :
  Ascii.eqb c backtick = false -> String.prefix fence (String c t) = false.
Proof.
  intros Hc. unfold fence. rewrite prefix_cons.
  destruct (ascii_dec backtick c) as [E|_]; [|reflexivity].
  destruct (differs Hc E).
Qed.

Lemma prefix_fence_third (a b c : ascii) (t : string) :
  Ascii.eqb c backtick = false ->
  String.prefix fence (String a (String b (String c t))) = false.
Proof.
  intros Hc. unfold fence. rewrite !prefix_cons.
  destruct (ascii_dec backtick a); [|reflexivity].
  destruct (ascii_dec backtick b); [|reflexivity].
  destruct (ascii_dec backtick c) as [E|_]; [|reflexivity].
  destruct (differs Hc E).
Qed.

Lemma prefix_fence_second (a b : ascii) (t : string) :
  Ascii.eqb b backtick = false ->
  String.prefix fence (String a (String b t)) = false.
Proof.
  intros Hc. unfold fence. rewrite !prefix_cons.
  destruct (ascii_dec backtick a); [|reflexivity].
  destruct (ascii_dec backtick b) as [E|_]; [|reflexivity].
  destruct (differs Hc E).
Qed.

Lemma noBlockFrom_cons (c : ascii) (rest : string) :
  noBlockFrom (String c rest) <-> blockAt (String c rest) = None /\ noBlockFrom rest.
Proof. reflexivity. Qed.

Lemma blockAt_unfenced (s : string) : String.prefix fence s = false -> blockAt s = None.
Proof. intros H. unfold blockAt. rewrite H. reflexivity. Qed.

Lemma blockAt_other (c : ascii) (t : string) :
  Ascii.eqb c backtick = false -> blockAt (String c t) = None.
Proof. intros Hc. unfold blockAt. rewrite prefix_fence_other by exact Hc. reflexivity. Qed.

Lemma findFence_unfold (s : string) :
  findFence s =
  if String.prefix fence s then Some ("", dropChars 3 s)
  else match s with
       | "" => None
       | String c s' =>
           match findFence s' with
           | Some (before, after) => Some (String c before, after)
           | None => None
           end
       end.
Proof. destruct s; reflexivity. Qed.

Lemma findFence_plain (body rest : string) :
  plain body = true -> findFence (body ++ fence ++ rest) = Some (body, rest).
Proof.
  induction body as [|c body IH]; intros Hp; rewrite findFence_unfold.
  - change ("" ++ fence ++ rest) with (fence ++ rest). rewrite prefix_app. reflexivity.
  - simpl in Hp. apply andb_true_iff in Hp. destruct Hp as [Hc Hp].
    apply negb_true_iff in Hc.
    change (String c body ++ fence ++ rest) with (String c (body ++ fence ++ rest)).
    rewrite prefix_fence_other by exact Hc. rewrite (IH Hp). reflexivity.
Qed.

Lemma findFence_none (s : string) : plain s = true -> findFence s = None.
Proof.
  induction s as [|c s IH]; intros Hp; rewrite findFence_unfold.
  - reflexivity.
  - simpl in Hp. apply andb_true_iff in Hp. destruct Hp as [Hc Hp].
    apply negb_true_iff in Hc.
    rewrite prefix_fence_other by exact Hc. rewrite (IH Hp). reflexivity.
Qed.

Lemma blockAt_block (body rest : string) :
  plain body = true ->
  blockAt (fencedBlock "" body ++ rest) = Some (fencedBlock "" body, rest).
Proof.
  intros Hp. unfold fencedBlock.
  replace ((fence ++ "" ++ nl ++ body ++ fence) ++ rest)
    with (fence ++ String newline (body ++ fence ++ rest)).
  2:{ unfold fence, nl. simpl. rewrite append_assoc. reflexivity. }
  unfold blockAt. rewrite prefix_app.
  change (dropChars 3 (fence ++ String newline (body ++ fence ++ rest)))
    with (String newline (body ++ fence ++ rest)).
  cbv beta iota zeta.
  change (Ascii.eqb newline newline) with true. cbv iota.
  rewrite findFence_plain by exact Hp. reflexivity.
Qed.

Lemma skip_plain (lead t : string) (fuel : nat) :
  plain lead = true ->
  matchBlocksFrom (String.length lead + fuel) (lead ++ t) = matchBlocksFrom fuel t.
Proof.
  induction lead as [|c lead IH]; intros Hp; [reflexivity|].
  simpl in Hp. apply andb_true_iff in Hp. destruct Hp as [Hc Hp].
  apply negb_true_iff in Hc.
  change (matchBlocksFrom (String.length (String c lead) + fuel) (String c lead ++ t))
    with (match blockAt (String c (lead ++ t)) with
          | Some (block, rest) => block :: matchBlocksFrom (String.length lead + fuel) rest
          | None => matchBlocksFrom (String.length lead + fuel) (lead ++ t)
          end).
  rewrite blockAt_other by exact Hc. exact (IH Hp).
Qed.

Lemma noBlockFrom_none (s : string) (fuel : nat) :
  noBlockFrom s -> matchBlocksFrom fuel s = [].
Proof.
  revert s. induction fuel as [|fuel IH]; intros s H; [reflexivity|].
  destruct s as [|c s]; [reflexivity|].
  apply noBlockFrom_cons in H. destruct H as [Hb Hrest].
  change (matchBlocksFrom (S fuel) (String c s))
    with (match blockAt (String c s) with
          | Some (block, rest) => block :: matchBlocksFrom fuel rest
          | None => matchBlocksFrom fuel s
          end).
  rewrite Hb. apply IH. exact Hrest.
Qed.

Lemma noBlockFrom_plain_app (lead t : string) :
  plain lead = true -> noBlockFrom t -> noBlockFrom (lead ++ t).
Proof.
  induction lead as [|c lead IH]; intros Hp Ht; [exact Ht|].
  simpl in Hp. apply andb_true_iff in Hp. destruct Hp as [Hc Hp].
  apply negb_true_iff in Hc. simpl append. apply noBlockFrom_cons. split.
  - apply blockAt_other. exact Hc.
  - apply IH; assumption.
Qed.

Lemma noBlockFrom_empty : noBlockFrom "".
Proof. split; reflexivity. Qed.

Lemma noBlockFrom_plain (s : string) : plain s = true -> noBlockFrom s.
Proof.
  intros Hp. rewrite <- (append_empty_r s).
  apply noBlockFrom_plain_app; [exact Hp|exact noBlockFrom_empty].
Qed.

(** The two positions inside a fence: the pattern needs three backticks. *)
Lemma noBlockFrom_fence (t : string) :
  blockAt (fence ++ t) = None ->
  plain (String.substring 0 1 t) = true ->
  noBlockFrom t ->
  noBlockFrom (fence ++ t).
Proof.
  intros Hb Hhead Ht. unfold fence in *. simpl append in *.
  apply noBlockFrom_cons. split; [exact Hb|].
  destruct t as [|c t].
  - repeat (apply noBlockFrom_cons; split; [reflexivity|]). exact Ht.
  - assert (Hc : Ascii.eqb c backtick = false).
    { destruct t; simpl in Hhead; apply andb_true_iff in Hhead;
        destruct Hhead as [Hc _]; apply negb_true_iff in Hc; exact Hc. }
    apply noBlockFrom_cons. split.
    { apply blockAt_unfenced, prefix_fence_third, Hc. }
    apply noBlockFrom_cons. split.
    { apply blockAt_unfenced, prefix_fence_second, Hc. }
    exact Ht.
Qed.

Lemma skip_failed (c : ascii) (t : string) (fuel : nat) :
  blockAt (String c t) = None ->
  matchBlocksFrom (S fuel) (String c t) = matchBlocksFrom fuel t.
Proof.
  intros Hb.
  change (matchBlocksFrom (S fuel) (String c t))
    with (match blockAt (String c t) with
          | Some (block, rest) => block :: matchBlocksFrom fuel rest
          | None => matchBlocksFrom fuel t
          end).
  rewrite Hb. reflexivity.
Qed.

Lemma take_block (body rest : string) (fuel : nat) :
  plain body = true ->
  matchBlocksFrom (S fuel) (fencedBlock "" body ++ rest)
  = fencedBlock "" body :: matchBlocksFrom fuel rest.
Proof.
  intros Hp.
  change (matchBlocksFrom (S fuel) (fencedBlock "" body ++ rest))
    with (match blockAt (fencedBlock "" body ++ rest) with
          | Some (block, rest') => block :: matchBlocksFrom fuel rest'
          | None => match fencedBlock "" body ++ rest with
                    | "" => []
                    | String _ s' => matchBlocksFrom fuel s'
                    end
          end).
  rewrite blockAt_block by exact Hp. reflexivity.
Qed.

Lemma replyWith_blocks (segments : list (string * string)) (closing : string) :
  forallb plainSegment segments = true ->
  plain closing = true ->
  forall fuel, (String.length (replyWith segments closing) < fuel)%nat ->
  matchBlocksFrom fuel (replyWith segments closing)
  = map (fun segment => fencedBlock "" (snd segment)) segments.
Proof.
  intros Hsegments Hclosing.
  induction segments as [|[lead body] segments IH]; intros fuel Hfuel.
  - apply noBlockFrom_none, noBlockFrom_plain, Hclosing.
  - simpl in Hsegments. apply andb_true_iff in Hsegments. destruct Hsegments as [Hseg Hrest].
    unfold plainSegment in Hseg. simpl in Hseg. apply andb_true_iff in Hseg.
    destruct Hseg as [Hlead Hbody].
    cbn [replyWith] in *. rewrite !length_app in Hfuel.
    assert (Hblock : (1 <= String.length (fencedBlock "" body))%nat).
    { unfold fencedBlock, fence. simpl. lia. }
    replace fuel with (String.length lead + S (fuel - String.length lead - 1))%nat by lia.
    rewrite skip_plain by exact Hlead.
    rewrite take_block by exact Hbody.
    cbn [map snd]. f_equal. apply IH; [exact Hrest|lia].
Qed.

(** *** What is read off a block *)

Lemma word_not_newline (c : ascii) : isWordChar c = true -> Ascii.eqb c newline = false.
Proof.
  intros H. destruct (Ascii.eqb_spec c newline) as [->|_]; [|reflexivity].
  vm_compute in H. discriminate.
Qed.

Lemma word_not_backtick (c : ascii) : isWordChar c = true -> Ascii.eqb c backtick = false.
Proof.
  intros H. destruct (Ascii.eqb_spec c backtick) as [->|_]; [|reflexivity].
  vm_compute in H. discriminate.
Qed.

Lemma dropWord_tag (tag rest : string) :
  wordOnly tag = true -> dropWord (tag ++ String newline rest) = String newline rest.
Proof.
  induction tag as [|c tag IH]; intros H; [reflexivity|].
  simpl in H. apply andb_true_iff in H. destruct H as [Hc H].
  simpl. rewrite Hc. exact (IH H).
Qed.

Lemma takeWord_tag (tag rest : string) :
  wordOnly tag = true -> takeWord (tag ++ String newline rest) = tag.
Proof.
  induction tag as [|c tag IH]; intros H; [reflexivity|].
  simpl in H. apply andb_true_iff in H. destruct H as [Hc H].
  simpl. rewrite Hc, (IH H). reflexivity.
Qed.

Lemma substring_take (a b : string) : String.substring 0 (String.length a) (a ++ b) = a.
Proof.
  induction a as [|c a IH]; simpl.
  - destruct b; reflexivity.
  - rewrite IH. reflexivity.
Qed.

Lemma substring_skip (a b : string) (n : nat) :
  String.substring (String.length a) n (a ++ b) = String.substring 0 n b.
Proof. induction a as [|c a IH]; simpl; [reflexivity|exact IH]. Qed.

Lemma removeClosingFence_fence (body : string) : removeClosingFence (body ++ fence) = body.
Proof.
  unfold removeClosingFence, endsWith. rewrite length_app.
  change (String.length fence) with 3%nat.
  replace (String.length body + 3 - 3)%nat with (String.length body) by lia.
  rewrite substring_skip.
  replace (3 <=? String.length body + 3)%nat with true by (symmetry; apply Nat.leb_le; lia).
  change (String.substring 0 3 fence) with fence. rewrite String.eqb_refl.
  simpl andb. cbv iota. apply substring_take.
Qed.

Lemma removeOpeningFence_unfold (block : string) :
  removeOpeningFence block =
  match (if String.prefix fence block then
           match dropWord (dropChars 3 block) with
           | String c rest => if Ascii.eqb c newline then Some rest else None
           | "" => None
           end
         else None) with
  | Some rest => rest
  | None =>
      match block with
      | "" => ""
      | String c rest => String c (removeOpeningFence rest)
      end
  end.
Proof. destruct block; reflexivity. Qed.

Lemma codeOfBlock_fenced (tag body : string) :
  wordOnly tag = true -> codeOfBlock (fencedBlock tag body) = body.
Proof.
  intros Htag. unfold codeOfBlock, fencedBlock.
  rewrite removeOpeningFence_unfold, prefix_app.
  change (dropChars 3 (fence ++ tag ++ nl ++ body ++ fence))
    with (tag ++ String newline (body ++ fence)).
  rewrite dropWord_tag by exact Htag.
  change (Ascii.eqb newline newline) with true. cbv iota.
  apply removeClosingFence_fence.
Qed.

Lemma languageMatch_unfold (block : string) :
  languageMatch block =
  match (if String.prefix fence block then
           match takeWord (dropChars 3 block) with
           | "" => None
           | w => Some w
           end
         else None) with
  | Some w => Some w
  | None =>
      match block with
      | "" => None
      | String _ rest => languageMatch rest
      end
  end.
Proof. destruct block; reflexivity. Qed.

Lemma languageMatch_closing (lead : string) :
  plain lead = true -> languageMatch (lead ++ fence) = None.
Proof.
  induction lead as [|c lead IH]; intros Hp; [reflexivity|].
  simpl in Hp. apply andb_true_iff in Hp. destruct Hp as [Hc Hp].
  apply negb_true_iff in Hc.
  change (String c lead ++ fence) with (String c (lead ++ fence)).
  rewrite languageMatch_unfold, prefix_fence_other by exact Hc. exact (IH Hp).
Qed.

Lemma languageOfBlock_fenced (tag body : string) :
  wordOnly tag = true -> plain body = true ->
  languageOfBlock (fencedBlock tag body) = if tag =? "" then "text" else tag.
Proof.
  intros Htag Hbody. unfold languageOfBlock, fencedBlock.
  rewrite languageMatch_unfold, prefix_app.
  change (dropChars 3 (fence ++ tag ++ nl ++ body ++ fence))
    with (tag ++ String newline (body ++ fence)).
  rewrite takeWord_tag by exact Htag.
  destruct tag as [|c tag]; [|reflexivity].
  change (fence ++ "" ++ nl ++ body ++ fence)
    with (String backtick (String backtick (String backtick (String newline (body ++ fence))))).
  cbv iota.
  rewrite languageMatch_unfold, prefix_fence_third by reflexivity.
  rewrite languageMatch_unfold, prefix_fence_second by reflexivity.
  change (String newline (body ++ fence)) with (String newline body ++ fence).
  rewrite languageMatch_closing; [reflexivity|]. simpl. exact Hbody.
Qed.

Lemma plain_app (a b : string) : plain a = true -> plain b = true -> plain (a ++ b) = true.
Proof.
  intros Ha Hb. induction a as [|c a IH]; [exact Hb|].
  simpl in *. apply andb_true_iff in Ha. destruct Ha as [Hc Ha].
  rewrite Hc, (IH Ha). reflexivity.
Qed.

Lemma wordOnly_plain (tag : string) : wordOnly tag = true -> plain tag = true.
Proof.
  induction tag as [|c tag IH]; intros H; [reflexivity|].
  simpl in *. apply andb_true_iff in H. destruct H as [Hc H].
  rewrite (word_not_backtick c Hc), (IH H). reflexivity.
Qed.

Lemma plain_head (t : string) : plain t = true -> plain (String.substring 0 1 t) = true.
Proof.
  destruct t as [|c t]; intros H; [reflexivity|].
  simpl in H. apply andb_true_iff in H. destruct H as [Hc _].
  destruct t; simpl; rewrite Hc; reflexivity.
Qed.

(** A fence that nothing closes opens no block. *)
Lemma blockAt_unclosed (t : string) : plain t = true -> blockAt (fence ++ t) = None.
Proof.
  intros Hp. unfold blockAt. rewrite prefix_app.
  change (dropChars 3 (fence ++ t)) with t.
  destruct t as [|c r]; [reflexivity|].
  simpl in Hp. apply andb_true_iff in Hp. destruct Hp as [_ Hr].
  destruct (Ascii.eqb c newline).
  - rewrite findFence_none by exact Hr. reflexivity.
  - destruct (isWordChar c || Ascii.eqb c "+"%char); [|reflexivity].
    destruct r as [|d body]; [reflexivity|].
    simpl in Hr. apply andb_true_iff in Hr. destruct Hr as [_ Hbody].
    destruct (Ascii.eqb d newline); [|reflexivity].
    rewrite findFence_none by exact Hbody. reflexivity.
Qed.

(** A fence followed by two characters of a word opens no block. *)
Lemma blockAt_tagged (c d : ascii) (t : string) :
  isWordChar c = true -> isWordChar d = true ->
  blockAt (fence ++ String c (String d t)) = None.
Proof.
  intros Hc Hd. unfold blockAt. rewrite prefix_app.
  change (dropChars 3 (fence ++ String c (String d t))) with (String c (String d t)).
  cbv beta iota zeta.
  rewrite (word_not_newline c Hc), Hc, (word_not_newline d Hd). reflexivity.
Qed.

Lemma noBlockFrom_closing (closing : string) :
  plain closing = true -> noBlockFrom (fence ++ closing).
Proof.
  intros Hp. apply noBlockFrom_fence.
  - apply blockAt_unclosed. exact Hp.
  - apply plain_head. exact Hp.
  - apply noBlockFrom_plain. exact Hp.
Qed.

Lemma long_tag (tag : string) :
  wordOnly tag = true -> (2 <= String.length tag)%nat ->
  exists c d rest, tag = String c (String d rest) /\ isWordChar c = true /\
                   isWordChar d = true /\ wordOnly rest = true.
Proof.
  intros Hw Hlen. destruct tag as [|c [|d rest]]; simpl in Hlen; try lia.
  simpl in Hw. apply andb_true_iff in Hw. destruct Hw as [Hc Hw].
  apply andb_true_iff in Hw. destruct Hw as [Hd Hw].
  exists c, d, rest. repeat split; assumption.
Qed.

Lemma plain_nl : plain nl = true.
Proof. reflexivity. Qed.

(** X12.  Round trip of the block pattern: in a reply made of untagged fenced
    blocks, with no backtick in the bodies or in the text around them, the
    blocks extracted are exactly the blocks written, in order, the code read off
    each is its body and its language is [text]. *)
Theorem untagged_blocks_round_trip (segments : list (string * string)) (closing : string) :
  forallb plainSegment segments = true ->
  plain closing = true ->
  let blocks := matchCodeBlocks (replyWith segments closing) in
  blocks = map (fun segment => fencedBlock "" (snd segment)) segments /\
  map codeOfBlock blocks = map snd segments /\
  map languageOfBlock blocks = map (fun _ => "text") segments.
Proof.
  intros Hsegments Hclosing blocks.
  assert (Hblocks : blocks = map (fun segment => fencedBlock "" (snd segment)) segments).
  { unfold blocks, matchCodeBlocks. apply replyWith_blocks; [assumption|assumption|lia]. }
  split; [exact Hblocks|]. rewrite Hblocks, !map_map. split.
  - apply map_ext. intros segment. apply codeOfBlock_fenced. reflexivity.
  - apply map_ext_in. intros segment Hin.
    rewrite forallb_forall in Hsegments. specialize (Hsegments segment Hin).
    unfold plainSegment in Hsegments. apply andb_true_iff in Hsegments.
    rewrite languageOfBlock_fenced; [reflexivity|reflexivity|apply Hsegments].
Qed.

Lemma untagged_blocks_round_trip_witness :
  let segments := [("Markup:" ++ nl, "<p>hi</p>" ++ nl); (nl ++ "Style:" ++ nl, "p { }" ++ nl)] in
  let blocks := matchCodeBlocks (replyWith segments " Done.") in
  blocks = map (fun segment => fencedBlock "" (snd segment)) segments /\
  map codeOfBlock blocks = map snd segments /\
  map languageOfBlock blocks = map (fun _ => "text") segments.
Proof.
  apply (@untagged_blocks_round_trip
           [("Markup:" ++ nl, "<p>hi</p>" ++ nl); (nl ++ "Style:" ++ nl, "p { }" ++ nl)]
           " Done."); reflexivity.
Defined.

(** X13.  A block whose fence carries a language tag of two or more word
    characters is not extracted: a reply holding one such block, and no other
    backtick, has no code block at all. *)
Theorem tagged_block_is_not_extracted (lead tag body closing : string) :
  wordOnly tag = true -> (2 <= String.length tag)%nat ->
  plain lead = true -> plain body = true -> plain closing = true ->
  matchCodeBlocks (lead ++ fencedBlock tag body ++ closing) = [].
Proof.
  intros Htag Hlen Hlead Hbody Hclosing.
  destruct (long_tag tag Htag Hlen) as (c & d & rest & -> & Hc & Hd & Hrest).
  unfold matchCodeBlocks. apply noBlockFrom_none.
  apply noBlockFrom_plain_app; [exact Hlead|].
  unfold fencedBlock.
  replace ((fence ++ String c (String d rest) ++ nl ++ body ++ fence) ++ closing)
    with (fence ++ String c (String d ((rest ++ nl ++ body) ++ fence ++ closing))).
  2:{ rewrite ?append_assoc. simpl. rewrite ?append_assoc. reflexivity. }
  apply noBlockFrom_fence.
  - apply blockAt_tagged; assumption.
  - simpl. rewrite (word_not_backtick c Hc). reflexivity.
  - apply (noBlockFrom_plain_app (String c (String d (rest ++ nl ++ body)))).
    + simpl. rewrite (word_not_backtick c Hc), (word_not_backtick d Hd). simpl.
      apply plain_app; [apply wordOnly_plain, Hrest|]. simpl. exact Hbody.
    + apply noBlockFrom_closing. exact Hclosing.
Qed.

Lemma tagged_block_is_not_extracted_witness :
  matchCodeBlocks ("Here it is:" ++ nl ++ fencedBlock "html" ("<p>hi</p>" ++ nl) ++ " Enjoy.") = [].
Proof.
  apply (@tagged_block_is_not_extracted ("Here it is:" ++ nl) "html" ("<p>hi</p>" ++ nl) " Enjoy.");
    try reflexivity.
  simpl. lia.
Defined.

Lemma skip_fence (t : string) (fuel : nat) :
  blockAt (fence ++ t) = None ->
  plain (String.substring 0 1 t) = true ->
  matchBlocksFrom (3 + fuel) (fence ++ t) = matchBlocksFrom fuel t.
Proof.
  intros Hb Hhead.
  unfold fence in *. simpl append in *.
  change (3 + fuel)%nat with (S (S (S fuel))).
  rewrite skip_failed by exact Hb.
  destruct t as [|c t].
  - destruct fuel; reflexivity.
  - assert (Hc : Ascii.eqb c backtick = false).
    { destruct t; simpl in Hhead; apply andb_true_iff in Hhead;
        destruct Hhead as [Hc _]; apply negb_true_iff in Hc; exact Hc. }
    rewrite skip_failed by (apply blockAt_unfenced, prefix_fence_third, Hc).
    rewrite skip_failed by (apply blockAt_unfenced, prefix_fence_second, Hc).
    reflexivity.
Qed.

(** X14.  With two tagged blocks in a reply, what is extracted is neither of
    them: when the text between them starts on a new line, the closing fence of
    the first and the opening fence of the second are taken as one untagged
    block, whose code is the text in between. *)
Theorem text_between_tagged_blocks_is_extracted
  (lead tag1 body1 between tag2 body2 closing : string) :
  wordOnly tag1 = true -> (2 <= String.length tag1)%nat ->
  wordOnly tag2 = true ->
  plain lead = true -> plain body1 = true -> plain between = true ->
  plain body2 = true -> plain closing = true ->
  let blocks :=
    matchCodeBlocks
      (lead ++ fencedBlock tag1 body1 ++ nl ++ between ++ fencedBlock tag2 body2 ++ closing) in
  blocks = [fencedBlock "" between] /\ map codeOfBlock blocks = [between].
Proof.
  intros Htag1 Hlen Htag2 Hlead Hbody1 Hbetween Hbody2 Hclosing blocks.
  destruct (long_tag tag1 Htag1 Hlen) as (c & d & rest & -> & Hc & Hd & Hrest).
  assert (Hblocks : blocks = [fencedBlock "" between]).
  { unfold blocks, matchCodeBlocks.
    set (inner := String c (String d (rest ++ nl ++ body1))).
    set (after := tag2 ++ nl ++ body2 ++ fence ++ closing).
    assert (Htext :
      lead ++ fencedBlock (String c (String d rest)) body1 ++ nl ++ between
           ++ fencedBlock tag2 body2 ++ closing
      = lead ++ fence ++ inner ++ fencedBlock "" between ++ after).
    { unfold fencedBlock, inner, after. rewrite ?append_assoc. simpl.
      rewrite ?append_assoc. reflexivity. }
    rewrite Htext.
    assert (Hinner : plain inner = true).
    { unfold inner. simpl. rewrite (word_not_backtick c Hc), (word_not_backtick d Hd). simpl.
      apply plain_app; [apply wordOnly_plain, Hrest|]. simpl. exact Hbody1. }
    replace (S (String.length (lead ++ fence ++ inner ++ fencedBlock "" between ++ after)))
      with (String.length lead
            + (3 + (String.length inner
                    + S (String.length (fencedBlock "" between ++ after)))))%nat.
    2:{ rewrite !length_app. change (String.length fence) with 3%nat. lia. }
    rewrite skip_plain by exact Hlead.
    rewrite skip_fence.
    - rewrite skip_plain by exact Hinner.
      rewrite take_block by exact Hbetween. f_equal.
      apply noBlockFrom_none. unfold after.
      replace (tag2 ++ nl ++ body2 ++ fence ++ closing)
        with ((tag2 ++ nl ++ body2) ++ fence ++ closing) by (rewrite ?append_assoc; reflexivity).
      apply noBlockFrom_plain_app.
      + apply plain_app; [apply wordOnly_plain, Htag2|]. simpl. exact Hbody2.
      + apply noBlockFrom_closing. exact Hclosing.
    - unfold inner. apply blockAt_tagged; assumption.
    - unfold inner. simpl. rewrite (word_not_backtick c Hc). reflexivity. }
  split; [exact Hblocks|]. rewrite Hblocks. simpl map.
  rewrite codeOfBlock_fenced by reflexivity. reflexivity.
Qed.

Lemma text_between_tagged_blocks_is_extracted_witness :
  let blocks :=
    matchCodeBlocks
      ("Two files:" ++ nl ++ fencedBlock "html" ("<p>hi</p>" ++ nl) ++ nl
         ++ ("and the style" ++ nl) ++ fencedBlock "css" ("p { }" ++ nl) ++ " Done.") in
  blocks = [fencedBlock "" ("and the style" ++ nl)] /\
  map codeOfBlock blocks = ["and the style" ++ nl].
Proof.
  apply (@text_between_tagged_blocks_is_extracted
           ("Two files:" ++ nl) "html" ("<p>hi</p>" ++ nl) ("and the style" ++ nl)
           "css" ("p { }" ++ nl) " Done."); try reflexivity.
  simpl. lia.
Defined.

(** ** More on the [/api/ask] handler *)

Section AskFurther.

Context {Disk : Type} {platform : Platform Disk}.
Variable tpl : Templates.

Lemma answer_needs_string (prompt requestType : jsval) (st : Server Disk) :
  (forall text, prompt <> JStr text) ->
  exists e, answer tpl prompt requestType st = (Abrupt e, st).
Proof.
  intros Hp. unfold answer, bind, lowerCased.
  destruct prompt as [| | | |text|]; unfold throw; try (eexists; reflexivity).
  destruct (Hp text eq_refl).
Qed.

(** X15.  The handler of [/api/ask] always answers, with status 400, 200 or
    500.  The status is 400 exactly when the prompt is falsy; a truthy prompt
    that is not a string (a number, [true], an object) is answered with 500;
    a 200 means that the prompt was a non-empty string; and a request that
    is not a build request leaves the stored bundle and the disk as they
    were, whatever the status. *)
Theorem api_ask_status (req : AskRequest) (st : Server Disk) :
  exists r st',
    api_ask tpl req st = (Normal r, st')
    /\ (status r = 400 \/ status r = 200 \/ status r = 500)
    /\ (status r = 400 <-> truthy (prompt req) = false)
    /\ (truthy (prompt req) = true -> (forall text, prompt req <> JStr text) ->
        status r = 500 /\ member_success (body r) = JBool false)
    /\ (status r = 200 ->
        exists text, prompt req = JStr text /\ text <> ""
                     /\ member_success (body r) = JBool true)
    /\ (strictEqStr (requestTypeOf req) "build" = false -> st' = st).
Proof.
  destruct (api_ask_cases tpl req st)
    as [[Hfalsy H]|[(r & s1 & Ha & H)|(e & s1 & Ha & H)]]; rewrite H;
    do 2 eexists; (split; [reflexivity|]); simpl.
  - split; [auto|]. split; [tauto|]. split; [congruence|].
    split; [discriminate|reflexivity].
  - assert (Htruthy : truthy (prompt req) = true).
    { destruct (truthy (prompt req)) eqn:E; [reflexivity|].
      unfold api_ask in H. rewrite E in H. simpl in H. unfold ret in H.
      inversion H; subst. apply answer_normal in Ha.
      destruct Ha as (text & reply & _ & _ & Hr). discriminate Hr. }
    pose proof Ha as Hstate.
    apply answer_normal in Ha. destruct Ha as (text & reply & Hp & _ & ->). simpl.
    split; [auto|]. split; [split; [discriminate|congruence]|].
    split; [intros _ Hns; destruct (Hns text Hp)|].
    split.
    + intros _. exists text. split; [exact Hp|]. split; [|reflexivity].
      intros ->. rewrite Hp in Htruthy. discriminate Htruthy.
    + intros Hb. eapply answer_state; [exact Hb|exact Hstate].
  - assert (Htruthy : truthy (prompt req) = true).
    { destruct (truthy (prompt req)) eqn:E; [reflexivity|].
      unfold api_ask in H. rewrite E in H. simpl in H. unfold ret in H.
      inversion H. }
    split; [auto|]. split; [split; [discriminate|congruence]|].
    split; [auto|]. split; [discriminate|].
    intros Hb. eapply answer_state; [exact Hb|exact Ha].
Qed.

(** X16.  The reply and the plan rank the keywords differently: for a plan
    request whose prompt has both keywords, the reply text is the calculator's
    while the plan sent with it is titled for the todo list. *)
Theorem plan_and_reply_rank_keywords_differently (text : string) (st : Server Disk) :
  includes (toLowerCase text) "calculator" = true ->
  includes (toLowerCase text) "todo" = true ->
  exists r,
    api_ask tpl (mkAsk (JStr text) (JStr "plan")) st = (Normal r, st)
    /\ status r = 200
    /\ member_response (body r) = JStr calculatorIntro
    /\ member_showBuildButton (body r) = JBool true
    /\ member_appPlan (body r) = Some (planFor (toLowerCase text))
    /\ title (planFor (toLowerCase text)) = "Todo List App".
Proof.
  intros Hc Ht.
  assert (Hne : text <> "") by (intros ->; discriminate Ht).
  unfold api_ask, tryCatch, answer, bind, lowerCased. simpl.
  destruct (String.eqb_spec text ""); [contradiction|]. simpl.
  unfold ret at 1. unfold respondTo. rewrite Hc. simpl.
  rewrite Ht. eexists. split; [reflexivity|]. simpl. auto.
Qed.

Lemma calculatorCreated_not_empty : (calculatorCreated =? "") = false.
Proof. reflexivity. Qed.

(** X17.  A calculator build has two outcomes: the request is answered
    either with status 200, the creation text and the calculator bundle, which
    is then the stored one, or with status 500 and the stored bundle as it was
    before. *)
Theorem calculator_build_is_stored_on_success_only (text : string) (st : Server Disk) :
  includes (toLowerCase text) "calculator" = true ->
  exists r st',
    api_ask tpl (mkAsk (JStr text) (JStr "build")) st = (Normal r, st')
    /\ ((status r = 200
         /\ member_response (body r) = JStr calculatorCreated
         /\ member_files (body r) = Some (calculatorFiles tpl)
         /\ projectFiles st' = Some (calculatorFiles tpl))
        \/ (status r = 500 /\ projectFiles st' = projectFiles st)).
Proof.
  intros Hc.
  assert (Hne : text <> "") by (intros ->; discriminate Hc).
  unfold api_ask, tryCatch, answer, bind, lowerCased. simpl.
  destruct (String.eqb_spec text ""); [contradiction|]. simpl.
  unfold ret at 1. unfold respondTo. rewrite Hc. simpl.
  destruct (@buildCalculator_outcome _ _ tpl st) as [(d & H)|(e & d & H)]; rewrite H.
  - rewrite calculatorCreated_not_empty. unfold gets, ret. simpl.
    do 2 eexists. split; [reflexivity|]. left. simpl. auto.
  - unfold ret. do 2 eexists. split; [reflexivity|]. right. simpl. auto.
Qed.

End AskFurther.

Lemma plan_and_reply_rank_keywords_differently_witness :
  exists r,
    api_ask sampleTemplates (mkAsk (JStr "A calculator inside a Todo app") (JStr "plan"))
      freshServer = (Normal r, freshServer)
    /\ status r = 200
    /\ member_response (body r) = JStr calculatorIntro
    /\ member_showBuildButton (body r) = JBool true
    /\ member_appPlan (body r) = Some (planFor (toLowerCase "A calculator inside a Todo app"))
    /\ title (planFor (toLowerCase "A calculator inside a Todo app")) = "Todo List App".
Proof.
  apply (@plan_and_reply_rank_keywords_differently MemDisk memPlatform sampleTemplates
           "A calculator inside a Todo app" freshServer); vm_compute; reflexivity.
Defined.

Lemma calculator_build_is_stored_on_success_only_witness :
  exists r st',
    api_ask sampleTemplates (mkAsk (JStr "Build a Calculator") (JStr "build")) freshServer
    = (Normal r, st')
    /\ ((status r = 200
         /\ member_response (body r) = JStr calculatorCreated
         /\ member_files (body r) = Some (calculatorFiles sampleTemplates)
         /\ projectFiles st' = Some (calculatorFiles sampleTemplates))
        \/ (status r = 500 /\ projectFiles st' = projectFiles freshServer)).
Proof.
  apply (@calculator_build_is_stored_on_success_only MemDisk memPlatform sampleTemplates
           "Build a Calculator" freshServer); vm_compute; reflexivity.
Defined.

(** ** More on the [/api/files/create] handler *)

Section CreateFurther.

Context {Disk : Type} {platform : Platform Disk}.

Lemma bind_bundle {A B} (m : M (Server Disk) A) (k : A -> M (Server Disk) B) :
  (forall st st' out, m st = (out, st') -> projectFiles st' = projectFiles st) ->
  (forall a st st' out, k a st = (out, st') -> projectFiles st' = projectFiles st) ->
  forall st st' out, bind m k st = (out, st') -> projectFiles st' = projectFiles st.
Proof.
  intros Hm Hk st st' out. unfold bind.
  destruct (m st) as [[a|e] s1] eqn:E; apply Hm in E.
  - intros H. apply Hk in H. congruence.
  - intros H. inversion H; subst. exact E.
Qed.

Lemma createFile_bundle (fileName content : jsval) (st st' : Server Disk)
  (out : Completion string) :
  createFile fileName content st = (out, st') -> projectFiles st' = projectFiles st.
Proof.
  unfold createFile. revert st st' out.
  apply bind_bundle; [intros st st' out; apply ensureDirectory_bundle|intros _].
  apply bind_bundle.
  { intros st st' out. unfold pathJoin.
    destruct fileName; unfold throw, ret; intros H; inversion H; reflexivity. }
  intros filePath.
  apply bind_bundle; [intros st st' out; apply ensureDirectory_bundle|intros _].
  apply bind_bundle; [intros st st' out; apply onDisk_bundle|intros _].
  intros st st' out. unfold ret. intros H. inversion H. reflexivity.
Qed.

Lemma createFile_needs_string (fileName content : jsval) (st : Server Disk) :
  (forall name, fileName <> JStr name) ->
  exists e st', createFile fileName content st = (Abrupt e, st').
Proof.
  intros Hname. unfold createFile, bind.
  destruct (ensureDirectory (join cwd "ai-generated") st) as [[[]|e] s1];
    [|exists e, s1; reflexivity].
  unfold pathJoin.
  destruct fileName as [| | | |name|]; unfold throw; try (do 2 eexists; reflexivity).
  destruct (Hname name eq_refl).
Qed.

(** X18.  The handler of [/api/files/create] never touches the stored bundle;
    when it answers 200 the file name was a non-empty string and the path
    sent back is that name joined to [ai-generated] below the working
    directory; and, when content is present, a truthy file name that is not
    a string is answered with 500. *)
Theorem files_create_keeps_the_bundle (req : CreateRequest) (st : Server Disk) :
  exists r st',
    files_create req st = (Normal r, st')
    /\ projectFiles st' = projectFiles st
    /\ (status r = 200 ->
        exists name, fileName req = JStr name /\ name <> ""
                     /\ body r = CreateReply true (JStr name)
                                   (join (join cwd "ai-generated") name))
    /\ (truthy (fileName req) = true -> content req <> JUndefined ->
        (forall name, fileName req <> JStr name) -> status r = 500).
Proof.
  assert (Hdec : (truthy (fileName req) = false \/ content req = JUndefined)
                 \/ (truthy (fileName req) = true /\ content req <> JUndefined)).
  { destruct (truthy (fileName req)); [|auto].
    destruct (content req); auto; right; split; auto; discriminate. }
  destruct Hdec as [Hbad|[Hname Hcontent]].
  - rewrite (files_create_invalid _ st Hbad). do 2 eexists. split; [reflexivity|]. simpl.
    split; [reflexivity|]. split; [discriminate|].
    intros H1 H2 _. destruct Hbad; congruence.
  - rewrite (files_create_valid _ st Hname Hcontent).
    destruct (createFile (fileName req) (content req) st) as [[filePath|e] s1] eqn:E;
      do 2 eexists; (split; [reflexivity|]); simpl;
      (split; [exact (createFile_bundle _ _ _ E)|]).
    + split.
      * intros _. destruct (createFile_path _ _ _ E) as (name & Hn & Hp).
        exists name. split; [exact Hn|]. split.
        -- intros ->. rewrite Hn in Hname. discriminate Hname.
        -- rewrite Hn, Hp. reflexivity.
      * intros _ _ Hns. destruct (createFile_needs_string (content req) st Hns)
          as (e & s2 & H). rewrite H in E. discriminate E.
    + split; [discriminate|auto].
Qed.

End CreateFurther.

(** ** The token of a generation attempt *)

(** The token of an attempt: created false and at a fresh address, set by
    [cancel], never reset, and the only one the attempt reads. *)

Lemma ownsToken_cumulative (token : nat) : Cumulative (ownsToken token).
Proof.
  split.
  - intros s. split; [lia|]. intros H. split; [exact H|]. split; [reflexivity|]. auto.
  - intros s1 s2 s3 [A1 K1] [A2 K2]. split; [lia|].
    intros H. destruct (K1 H) as (C1 & L1 & F1). destruct (K2 C1) as (C2 & L2 & F2).
    split; [exact C2|]. split; [congruence|].
    intros t Ht. rewrite F2, F1 by exact Ht. reflexivity.
Qed.

Section Attempt.

Variable env : Env.
Variable token : nat.

Ltac own_update :=
  intros [? ? ? ? ? ? ? ? ? ? ? ?]; unfold modify, ownsToken, currentOrNone; simpl;
  split; [lia|];
  let H := fresh "H" in
  intros H; split; [first [exact H|left; reflexivity]|];
  split; [reflexivity|intros; reflexivity].

Ltac own_step :=
  first
    [ simple apply (preserves_ret (ownsToken_cumulative token))
    | simple apply (preserves_throw (ownsToken_cumulative token))
    | simple apply (preserves_gets (ownsToken_cumulative token))
    | match goal with H : _ |- preserves _ _ => solve [simple apply H] end
    | simple apply (preserves_after_typeBlocks (ownsToken_cumulative token))
    | simple apply (preserves_bind (ownsToken_cumulative token)); [|intros ?]
    | simple apply (preserves_tryCatch (ownsToken_cumulative token)); [|intros ?]
    | simple apply (preserves_tryFinally (ownsToken_cumulative token))
    | simple apply (preserves_forEach (ownsToken_cumulative token)); intros ?
    | match goal with
      | |- preserves _ (if ?b then _ else _) => destruct b
      | |- preserves _ (match ?x with _ => _ end) => destruct x
      end
    | own_update ].

Lemma own_emit (e : Event) : preserves (ownsToken token) (emit e).
Proof. unfold emit. own_update. Qed.

Lemma own_setLiveCoding (f : LiveCodingState -> LiveCodingState) :
  preserves (ownsToken token) (setLiveCoding f).
Proof. pose proof own_emit. unfold setLiveCoding. repeat own_step. Qed.

Lemma own_appendMessage (m : ChatMessage) : preserves (ownsToken token) (appendMessage m).
Proof. unfold appendMessage, setMessages. repeat own_step. Qed.

Lemma own_optConsoleLog (message kind : string) :
  preserves (ownsToken token) (optConsoleLog env message kind).
Proof. pose proof own_emit. unfold optConsoleLog. repeat own_step. Qed.

Lemma own_callConsoleLog (message kind : string) :
  preserves (ownsToken token) (callConsoleLog env message kind).
Proof. pose proof own_emit. unfold callConsoleLog. repeat own_step. Qed.

(** A click on Cancel reaches the token in the [cancelToken] cell and no
    other. *)
Lemma own_handleCancel : preserves (ownsToken token) (handleCancel env).
Proof.
  intros [ms iv il cs lc gm gc ea ct tk ev aw].
  unfold handleCancel, bind, gets, cancel, setCancelToken, setIsLoading, setCurrentStage,
    setLiveCoding, optConsoleLog, emit, modify, ret, ownsToken, currentOrNone. simpl.
  destruct ct as [current|]; simpl; destruct (onConsoleLog_given env); simpl;
    (split; [lia|]); intros [H|H]; try discriminate H;
    (split; [left; reflexivity|]); (split; [|intros t Ht]);
    try reflexivity; try apply markCancelled_length.
  all: inversion H; subst current; rewrite markCancelled_at;
    destruct (Nat.eqb_spec t token); [contradiction|reflexivity].
Qed.

Lemma own_await : preserves (ownsToken token) (await env).
Proof. pose proof own_handleCancel. unfold await. repeat own_step. Qed.

Lemma own_post (endpoint prompt : string) :
  preserves (ownsToken token) (post env endpoint prompt).
Proof. pose proof own_await. unfold post. repeat own_step. Qed.

Lemma own_generateFromServer (userInput : string) (checked : nat) :
  preserves (ownsToken token) (generateFromServer env userInput checked).
Proof.
  pose proof own_post. pose proof own_appendMessage.
  unfold generateFromServer, dateNow.
  repeat own_step.
Qed.

Lemma own_generateLocally (userInput : string) (checked : nat) :
  preserves (ownsToken token) (generateLocally env userInput checked).
Proof.
  pose proof own_callConsoleLog. pose proof own_appendMessage.
  unfold generateLocally, dateNow.
  repeat own_step.
Qed.

Lemma own_handleFileGeneration (userInput : string) (checked : nat) :
  preserves (ownsToken token) (handleFileGeneration env userInput checked).
Proof.
  pose proof own_await. pose proof own_generateFromServer.
  pose proof own_generateLocally. pose proof own_setLiveCoding.
  unfold handleFileGeneration, setCurrentStage, cancelled.
  repeat own_step.
Qed.

Lemma own_failure_handler :
  preserves (ownsToken token)
    (optConsoleLog env "❌ Failed to process request" "error" ;;;
     setErrorAlerts (fun prev => (prev ++ ["Failed to process your request. Please try again."])%list)).
Proof. pose proof own_optConsoleLog. unfold setErrorAlerts. repeat own_step. Qed.

Lemma own_finalizer :
  preserves (ownsToken token)
    (setIsLoading false ;;; setCurrentStage "" ;;; setLiveCoding deactivate ;;;
     setCancelToken None).
Proof.
  pose proof own_setLiveCoding.
  unfold setIsLoading, setCurrentStage, setCancelToken. repeat own_step.
Qed.

(** What [handleAIResponse] runs once the token is created. *)
Lemma own_attempt (userInput : string) (checked : nat) :
  preserves (ownsToken token)
    (tryFinally
       (tryCatch
          (generationMode <- gets isGenerationMode ;;
           if isCodeGenerationRequest userInput && generationMode
           then handleFileGeneration env userInput checked
           else
             let endpoint :=
               if isAgentMode userInput then "/api/agent/generate" else "/api/ask" in
             data <- post env endpoint userInput ;;
             if truthy (data_checkpoint data)
             then at_ <- dateNow env ;;
                  optConsoleLog env ("🎯 Replit Agent Checkpoint: " ++ showNat at_) "success"
             else ret tt)
          (fun _ =>
             optConsoleLog env "❌ Failed to process request" "error" ;;;
             setErrorAlerts (fun prev => (prev ++ ["Failed to process your request. Please try again."])%list)))
       (setIsLoading false ;;; setCurrentStage "" ;;; setLiveCoding deactivate ;;;
        setCancelToken None)).
Proof.
  pose proof own_handleFileGeneration. pose proof own_post.
  pose proof own_optConsoleLog. pose proof own_failure_handler. pose proof own_finalizer.
  unfold dateNow.
  repeat own_step.
Qed.

(** Suspensions are counted and never undone. *)
Lemma suspends_await : suspends (await env).
Proof.
  intros s. destruct (await_effect env s) as (s' & Hrun & Ha & _). rewrite Hrun. simpl. lia.
Qed.

Lemma suspends_bind (A B : Type) (m : M Ui A) (k : A -> M Ui B) :
  suspends m -> (forall a, preserves (ownsToken token) (k a)) -> suspends (bind m k).
Proof.
  intros Hm Hk s. unfold bind. specialize (Hm s).
  destruct (m s) as [[a|e] s1]; simpl in *; [|exact Hm].
  destruct (Hk a s1) as [Hle _]. lia.
Qed.

Lemma suspends_tryCatch (A : Type) (m : M Ui A) (h : JsError -> M Ui A) :
  suspends m -> (forall e, preserves (ownsToken token) (h e)) -> suspends (tryCatch m h).
Proof.
  intros Hm Hh s. unfold tryCatch. specialize (Hm s).
  destruct (m s) as [[a|e] s1]; simpl in *; [exact Hm|].
  destruct (Hh e s1) as [Hle _]. lia.
Qed.

Lemma suspends_post (endpoint prompt : string) : suspends (post env endpoint prompt).
Proof.
  pose proof own_await. unfold post.
  apply suspends_bind; [exact suspends_await|intros _]. repeat own_step.
Qed.

Lemma suspends_generateFromServer (userInput : string) (checked : nat) :
  suspends (generateFromServer env userInput checked).
Proof.
  pose proof own_appendMessage. unfold generateFromServer, dateNow.
  apply suspends_bind; [apply suspends_post|intros data]. repeat own_step.
Qed.

(** The request to the server and what follows it in [handleFileGeneration]. *)
Lemma suspends_request (userInput : string) (checked : nat) :
  suspends (tryCatch (generateFromServer env userInput checked)
                     (fun _ => generateLocally env userInput checked) ;;;
            setCurrentStage "complete").
Proof.
  apply suspends_bind.
  - apply suspends_tryCatch; [apply suspends_generateFromServer|intros _].
    apply own_generateLocally.
  - intros _. unfold setCurrentStage. own_update.
Qed.

End Attempt.

(** With no click during the three stage waits the handler gets to the
    request. *)
Lemma handleFileGeneration_reaches_request (env : Env) (userInput : string)
  (token : nat) (s : Ui) :
  cancelledAt token (tokens s) = false ->
  (forall j, j < 3 -> cancelDuring env (awaits s + j) = false) ->
  awaits s + 4 <= awaits (snd (handleFileGeneration env userInput token s)).
Proof.
  intros Hlive Hquiet.
  pose proof (Hquiet 0 ltac:(lia)) as H0. rewrite Nat.add_0_r in H0.
  pose proof (Hquiet 1 ltac:(lia)) as H1. rewrite Nat.add_1_r in H1.
  pose proof (Hquiet 2 ltac:(lia)) as H2. replace (awaits s + 2) with (S (S (awaits s))) in H2 by lia.
  unfold handleFileGeneration. rewrite stage_shown, loading_shown.
  destruct s as [ms iv il cs lc gm gc ea ct tk ev aw]. simpl in *.
  rewrite boundary_passes by (simpl; auto). rewrite stage_shown.
  rewrite boundary_passes by (simpl; auto). rewrite stage_shown.
  rewrite boundary_passes by (simpl; auto).
  match goal with
  | |- _ <= awaits (snd (?m ?s3)) =>
      pose proof (@suspends_request env token userInput token s3) as Hs;
      set (reached := awaits (snd (m s3))) in *
  end.
  simpl in Hs. lia.
Qed.

Lemma beginAIResponse_effect (s : Ui) :
  exists s0,
    beginAIResponse s = (Normal (List.length (tokens s)), s0)
    /\ tokens s0 = (tokens s ++ [false])%list
    /\ cancelToken s0 = Some (List.length (tokens s))
    /\ awaits s0 = awaits s
    /\ isGenerationMode s0 = isGenerationMode s.
Proof.
  destruct s as [ms iv il cs lc gm gc ea ct tk ev aw]. eexists.
  split; [reflexivity|]. simpl. auto.
Qed.

(** An attempt creates one token, the only one a click on Cancel can reach
    until the attempt ends, and leaves the earlier tokens as they are. *)
Lemma handleAIResponse_token (env : Env) (userInput : string) (s : Ui) :
  List.length (tokens (snd (handleAIResponse env userInput s))) = S (List.length (tokens s))
  /\ (forall t, t < List.length (tokens s) ->
        cancelledAt t (tokens (snd (handleAIResponse env userInput s)))
        = cancelledAt t (tokens s)).
Proof.
  destruct (beginAIResponse_effect s) as (s0 & Hrun & Htokens & Hcurrent & _).
  assert (Hbody : exists m, handleAIResponse env userInput s = m s0
                            /\ preserves (ownsToken (List.length (tokens s))) m).
  { unfold handleAIResponse. unfold bind at 1. rewrite Hrun.
    eexists. split; [reflexivity|]. apply own_attempt. }
  destruct Hbody as (m & Heq & Hown). rewrite Heq.
  destruct (Hown s0) as [_ Hkeep].
  destruct Hkeep as (_ & Hlen & Hold); [right; exact Hcurrent|].
  split.
  - rewrite Hlen, Htokens, List.length_app. simpl. lia.
  - intros t Ht. rewrite Hold by lia. rewrite Htokens. apply cancelledAt_old. exact Ht.
Qed.

(** The body of an attempt that generates files. *)
Lemma handleAIResponse_generation (env : Env) (userInput : string) (s : Ui) :
  isCodeGenerationRequest userInput = true ->
  isGenerationMode s = true ->
  exists s0,
    tokens s0 = (tokens s ++ [false])%list
    /\ cancelToken s0 = Some (List.length (tokens s))
    /\ awaits s0 = awaits s
    /\ awaits (snd (handleFileGeneration env userInput (List.length (tokens s)) s0))
       <= awaits (snd (handleAIResponse env userInput s))
    /\ (fst (handleFileGeneration env userInput (List.length (tokens s)) s0) = Normal tt ->
        awaits (snd (handleAIResponse env userInput s))
        = awaits (snd (handleFileGeneration env userInput (List.length (tokens s)) s0))
        /\ tokens (snd (handleAIResponse env userInput s))
           = tokens (snd (handleFileGeneration env userInput (List.length (tokens s)) s0))).
Proof.
  intros Hcode Hmode.
  destruct (beginAIResponse_effect s) as (s0 & Hrun & Htokens & Hcurrent & Hawaits & Hgm).
  exists s0. split; [exact Htokens|]. split; [exact Hcurrent|]. split; [exact Hawaits|].
  assert (Hbody : exists h fin,
             handleAIResponse env userInput s
             = tryFinally
                 (tryCatch (handleFileGeneration env userInput (List.length (tokens s))) h)
                 fin s0
             /\ (forall e, preserves (ownsToken 0) (h e))
             /\ preserves (ownsToken 0) fin
             /\ (forall s1, awaits (snd (fin s1)) = awaits s1
                            /\ tokens (snd (fin s1)) = tokens s1)).
  { unfold handleAIResponse. unfold bind at 1. rewrite Hrun.
    unfold tryFinally, tryCatch. unfold bind at 1. unfold gets at 1.
    rewrite Hgm, Hmode, Hcode. simpl andb. cbv iota.
    do 2 eexists. split; [reflexivity|].
    split; [intros e; apply own_failure_handler|].
    split; [apply own_finalizer|].
    intros s1. destruct s1; split; reflexivity. }
  destruct Hbody as (h & fin & Heq & Hh & Hfin & Hframe). rewrite Heq.
  unfold tryFinally, tryCatch.
  destruct (handleFileGeneration env userInput (List.length (tokens s)) s0)
    as [[[]|e] s1]; simpl.
  - destruct (Hframe s1) as [Ha Ht].
    destruct (fin s1) as [r s2]. simpl in *. split; [lia|]. intros _. auto.
  - destruct (Hh e s1) as [Hle1 _].
    destruct (h e s1) as [r s2]. simpl in Hle1.
    destruct (Hframe s2) as [Ha _].
    destruct (fin s2) as [r' s3]. simpl in *.
    split; [lia|]. intros H. discriminate H.
Qed.

(** C10: [createCancelToken] returns a new token object, at an address no
    earlier token has, with [cancelled] false, and leaves the earlier tokens
    as they were; [cancel] sets the flag; no sequence of user actions (typing,
    submitting, cancelling), with cancellations arriving at any suspension,
    resets a flag that is set; and every generation attempt starts by
    creating such a new token and storing it as the current one.  An attempt,
    run by [handleAIResponse] or through [handleSubmit], creates exactly one
    token and leaves every earlier token, cancelled or not, as it was.  The
    new token is the one the attempt reads: whatever the flags of the earlier
    tokens, a generation that meets no click during its three stage waits goes
    on to the request, and a first click during one of these waits sets the
    flag of the new token and ends the attempt right after that wait. *)
Theorem cancel_token_lifecycle (env : Env) :
  (forall s, exists s',
      createCancelToken s = (Normal (List.length (tokens s)), s')
      /\ List.length (tokens s') = S (List.length (tokens s))
      /\ cancelledAt (List.length (tokens s)) (tokens s') = false
      /\ (forall t, t < List.length (tokens s) ->
                    cancelledAt t (tokens s') = cancelledAt t (tokens s)))
  /\ (forall s token, token < List.length (tokens s) ->
        cancelledAt token (tokens (snd (cancel token s))) = true)
  /\ (forall actions s token,
        cancelledAt token (tokens s) = true ->
        cancelledAt token (tokens (performAll env actions s)) = true)
  /\ (forall s, exists s',
        beginAIResponse s = (Normal (List.length (tokens s)), s')
        /\ cancelToken s' = Some (List.length (tokens s))
        /\ cancelledAt (List.length (tokens s)) (tokens s') = false
        /\ (forall t, t < List.length (tokens s) ->
                      cancelledAt t (tokens s') = cancelledAt t (tokens s)))
  /\ (forall userInput s,
        List.length (tokens (snd (handleAIResponse env userInput s)))
        = S (List.length (tokens s))
        /\ (forall t, t < List.length (tokens s) ->
              cancelledAt t (tokens (snd (handleAIResponse env userInput s)))
              = cancelledAt t (tokens s)))
  /\ (forall text s, text <> "" -> isLoading s = false ->
        List.length (tokens (snd (handleSubmit env (Some text) s)))
        = S (List.length (tokens s))
        /\ (forall t, t < List.length (tokens s) ->
              cancelledAt t (tokens (snd (handleSubmit env (Some text) s)))
              = cancelledAt t (tokens s)))
  /\ (forall userInput s,
        isCodeGenerationRequest userInput = true ->
        isGenerationMode s = true ->
        ((forall j, j < 3 -> cancelDuring env (awaits s + j) = false) ->
         awaits s + 4 <= awaits (snd (handleAIResponse env userInput s)))
        /\ (forall k, k < 3 ->
              (forall j, j < k -> cancelDuring env (awaits s + j) = false) ->
              cancelDuring env (awaits s + k) = true ->
              awaits (snd (handleAIResponse env userInput s)) = awaits s + S k
              /\ cancelledAt (List.length (tokens s))
                   (tokens (snd (handleAIResponse env userInput s))) = true)).
Proof.
  split; [|split; [|split; [|split; [|split; [|split]]]]].
  - intros [ms iv il cs lc gm gc ea ct tk ev aw]. eexists. split; [reflexivity|]. simpl.
    split; [rewrite List.length_app; simpl; lia|].
    split; [apply cancelledAt_fresh|].
    intros t Ht. apply cancelledAt_old. exact Ht.
  - intros [ms iv il cs lc gm gc ea ct tk ev aw] token Ht. simpl in *.
    rewrite markCancelled_at, Nat.eqb_refl. apply Nat.ltb_lt. exact Ht.
  - intros actions s token Ht.
    destruct (evolves_performAll env actions s) as (_ & Hkeep & _). auto.
  - intros [ms iv il cs lc gm gc ea ct tk ev aw]. eexists. split; [reflexivity|]. simpl.
    split; [reflexivity|].
    split; [apply cancelledAt_fresh|].
    intros t Ht. apply cancelledAt_old. exact Ht.
  - intros userInput s. apply handleAIResponse_token.
  - intros text s Htext Hidle.
    assert (Hsent : submittedText (Some text) s = text).
    { unfold submittedText. destruct (String.eqb_spec text ""); [contradiction|reflexivity]. }
    rewrite handleSubmit_accepts by (rewrite ?Hsent; assumption).
    rewrite Hsent.
    match goal with
    | |- context [handleAIResponse env text ?s0] =>
        destruct (handleAIResponse_token env text s0) as [Hlen Hold];
        replace (tokens s0) with (tokens s) in Hlen, Hold by (destruct s; reflexivity)
    end.
    split; [exact Hlen|exact Hold].
  - intros userInput s Hcode Hmode.
    destruct (@handleAIResponse_generation env userInput s Hcode Hmode)
      as (s0 & Htokens & Hcurrent & Hawaits & Hle & Hdone).
    assert (Hlive : cancelledAt (List.length (tokens s)) (tokens s0) = false).
    { rewrite Htokens. apply cancelledAt_fresh. }
    split.
    + intros Hquiet.
      pose proof (@handleFileGeneration_reaches_request env userInput
                    (List.length (tokens s)) s0 Hlive) as H.
      rewrite Hawaits in H. specialize (H Hquiet). lia.
    + intros k Hk Hquiet Hclick.
      destruct (@handleFileGeneration_stops_at_stage env userInput
                  (List.length (tokens s)) k s0)
        as (s1 & Hrun & _ & Hwaits & _ & Hflag);
        try (rewrite ?Hawaits; assumption).
      { rewrite Htokens, List.length_app. simpl. lia. }
      rewrite Hrun in Hdone. destruct (Hdone eq_refl) as [Ha Ht]. simpl in Ha, Ht.
      rewrite Ha, Ht, Hwaits, Hawaits. auto.
Qed.

Lemma cancel_token_lifecycle_witness :
  let env := envWith (cancelAt 1) askFreshServer in
  let cancelledRun := performAll env [Submit (Some "build me a todo app")] (initialUi 0) in
  let secondRun := snd (handleAIResponse env "make a game" cancelledRun) in
  cancelledAt 0 (tokens cancelledRun) = true
  /\ List.length (tokens secondRun) = 2
  /\ cancelledAt 0 (tokens secondRun) = true
  /\ awaits cancelledRun + 4 <= awaits secondRun.
Proof.
  cbv zeta.
  pose proof (cancel_token_lifecycle (envWith (cancelAt 1) askFreshServer))
    as (_ & _ & _ & _ & Hattempt & _ & Hchecked).
  split; [vm_compute; reflexivity|].
  destruct (Hattempt "make a game"
              (performAll (envWith (cancelAt 1) askFreshServer)
                 [Submit (Some "build me a todo app")] (initialUi 0))) as [Hlen Hold].
  split; [rewrite Hlen; vm_compute; reflexivity|].
  split; [rewrite Hold; vm_compute; [reflexivity|lia]|].
  apply Hchecked.
  - vm_compute. reflexivity.
  - vm_compute. reflexivity.
  - intros j Hj. destruct j as [|[|[|j]]]; try lia; vm_compute; reflexivity.
Defined.
